(** * The Composer of hive: graph state, editing operations and code generation

    A shallow embedding of [core/framework/composer] (state.py, modals.py,
    app.py, screens.py, generator.py) and the properties of the agent graph
    model and of the rendering pipeline.

    Conventions of the embedding.
    - A Python [str] is a [string]; the case and whitespace functions are
      those of Python on ASCII text (characters above 127 are taken as
      uncased and as not being whitespace).
    - [x | None] is [option]; a list is a [list]; a pydantic model is a
      record whose fields keep their names, inside a module named after the
      class.
    - An event handler that mutates [self.state] is a function from the
      state to an [Outcome]: the state it leaves, with the notification with
      which it returned early or the exception that left it.
    - An [import] statement inside a function is looked up among the
      modules of the package each time the function reaches it.
    - The file system that [CodeGenerator.generate] writes to is a finite map
      from paths to entries. *)

From stdpp Require Import base decidable option list strings gmap.
From Stdlib Require Import Ascii ZArith.

Local Open Scope Z_scope.
Local Open Scope nat_scope.

(** ** Python built-ins used by the Composer *)

Module Py.

(** Truth value testing: what [if x], [not x], [x and y], [x or y] and
    [bool(x)] look at. *)
Class Truthy (A : Type) := truthy : A → bool.
Global Hint Mode Truthy ! : typeclass_instances.

Global Instance str_truthy : Truthy string :=
  λ s, match s with EmptyString => false | String _ _ => true end.
Global Instance list_truthy {A} : Truthy (list A) :=
  λ l, match l with [] => false | _ :: _ => true end.
Global Instance option_truthy `{Truthy A} : Truthy (option A) :=
  λ o, match o with None => false | Some x => truthy x end.

(** [x or y] on two values of one type. *)
Definition or_ `{Truthy A} (x y : A) : A := if truthy x then x else y.

(** [str.isspace] of one character. *)
Definition isspace (c : ascii) : bool :=
  let n := nat_of_ascii c in
  bool_decide (9 ≤ n ≤ 13) || bool_decide (28 ≤ n ≤ 32).

Definition isupper (c : ascii) : bool :=
  let n := nat_of_ascii c in bool_decide (65 ≤ n ≤ 90).
Definition islower (c : ascii) : bool :=
  let n := nat_of_ascii c in bool_decide (97 ≤ n ≤ 122).
Definition iscased (c : ascii) : bool := isupper c || islower c.

Definition lower_char (c : ascii) : ascii :=
  if isupper c then ascii_of_nat (nat_of_ascii c + 32) else c.
Definition upper_char (c : ascii) : ascii :=
  if islower c then ascii_of_nat (nat_of_ascii c - 32) else c.

Fixpoint map_chars (f : ascii → ascii) (s : string) : string :=
  match s with
  | EmptyString => EmptyString
  | String c s' => String (f c) (map_chars f s')
  end.

(** [s.lower()] *)
Definition lower (s : string) : string := map_chars lower_char s.

(** [s.title()] on ASCII text: a cased character is upper-cased when the
    character before it is not cased, and lower-cased otherwise. Python
    follows the Unicode tables, where the title case of one character can
    be two; a character above 127 is left as it is here, and nothing is
    proved from the value of [title] on such text. *)
Fixpoint title_from (previous_is_cased : bool) (s : string) : string :=
  match s with
  | EmptyString => EmptyString
  | String c s' =>
      String (if previous_is_cased then lower_char c else upper_char c)
             (title_from (iscased c) s')
  end.
Definition title (s : string) : string := title_from false s.

(** [s.lstrip()], [s.rstrip()], [s.strip()] *)
Fixpoint lstrip (s : string) : string :=
  match s with
  | EmptyString => EmptyString
  | String c s' => if isspace c then lstrip s' else s
  end.
Fixpoint rstrip (s : string) : string :=
  match s with
  | EmptyString => EmptyString
  | String c s' =>
      match rstrip s' with
      | EmptyString => if isspace c then EmptyString else String c EmptyString
      | r => String c r
      end
  end.
Definition strip (s : string) : string := lstrip (rstrip s).

(** [s.replace(old, new)]: occurrences of [old] are found from the left and
    do not overlap. [skip] counts the characters of a matched occurrence
    that are still to be passed over. *)
Fixpoint replace_from (old new : string) (skip : nat) (s : string) : string :=
  match s with
  | EmptyString => EmptyString
  | String c s' =>
      match skip with
      | S k => replace_from old new k s'
      | O =>
          if String.prefix old s
          then new +:+ replace_from old new (String.length old - 1) s'
          else String c (replace_from old new 0 s')
      end
  end.
Fixpoint intersperse_after (new : string) (s : string) : string :=
  match s with
  | EmptyString => EmptyString
  | String c s' => String c (new +:+ intersperse_after new s')
  end.
Definition replace (old new s : string) : string :=
  match old with
  | EmptyString => new +:+ intersperse_after new s
  | String _ _ => replace_from old new 0 s
  end.

(** [s.split(sep)] for a non-empty separator: the first piece and the
    pieces after it. *)
Fixpoint split_from (sep : string) (skip : nat) (s : string)
  : string * list string :=
  match s with
  | EmptyString => (EmptyString, [])
  | String c s' =>
      match skip with
      | S k => split_from sep k s'
      | O =>
          if String.prefix sep s
          then let '(p, ps) := split_from sep (String.length sep - 1) s' in
               (EmptyString, p :: ps)
          else let '(p, ps) := split_from sep 0 s' in
               (String c p, ps)
      end
  end.
Definition split (sep s : string) : list string :=
  let '(p, ps) := split_from sep 0 s in p :: ps.

(** [list.index(x)]: the first position holding a value equal to [x];
    [None] stands for the [ValueError] of a value that is not there. *)
Definition index `{EqDecision A} (l : list A) (x : A) : option nat :=
  fst <$> list_find (λ y, y = x) l.

(** [next((y for y in l if P y), None)] *)
Definition next_or_None {A} (P : A → Prop) `{∀ y, Decision (P y)}
  (l : list A) : option A :=
  snd <$> list_find P l.

(** [any(P y for y in l)] *)
Definition any {A} (P : A → Prop) `{∀ y, Decision (P y)} (l : list A) : bool :=
  bool_decide (Exists P l).

(** [sep.join(l)] *)
Fixpoint join (sep : string) (l : list string) : string :=
  match l with
  | [] => EmptyString
  | x :: l' =>
      match l' with
      | [] => x
      | _ :: _ => x +:+ sep +:+ join sep l'
      end
  end.

End Py.

(** ** pathlib: a path is the list of its components, innermost first, so
    that [parent] is the tail. The empty list is the root directory. *)

Abbreviation Path := (list string).

(** The components that a string adds to a path: empty and [.] components
    are dropped. *)
Definition parse_parts (s : string) : list string :=
  filter (λ c, c ≠ "" ∧ c ≠ ".") (Py.split "/" s).

(** [p / s]: the components of [s] below [p], or from the root when [s]
    starts with a slash. *)
Definition joinpath (p : Path) (s : string) : Path :=
  if String.prefix "/" s then reverse (parse_parts s)
  else reverse (parse_parts s) ++ p.
Infix "</>" := joinpath (at level 40, left associativity).

Definition parent (p : Path) : Path := tail p.

(** ** state.py *)

Module NodeData.
Record t : Type := mk {
  id : string;
  name : string;
  description : option string;
  system_prompt : string;
  tools : list string;
  node_type : string;
  client_facing : bool;
  input_keys : list string;
  output_keys : list string;
}.

(** The defaults of the fields. *)
Definition default_description : option string := None.
Definition default_system_prompt : string := "You are a helpful assistant.".
Definition default_tools : list string := [].
Definition default_node_type : string := "event_loop".
Definition default_client_facing : bool := false.
Definition default_input_keys : list string := [].
Definition default_output_keys : list string := [].

Global Instance eq_dec : EqDecision t.
Proof. solve_decision. Defined.

(** A model instance defines neither [__bool__] nor [__len__]. *)
Global Instance model_truthy : Py.Truthy t := λ _, true.
End NodeData.

Inductive Condition : Type := always | on_success | on_failure.

Global Instance Condition_eq_dec : EqDecision Condition.
Proof. solve_decision. Defined.

Module EdgeData.
Record t : Type := mk {
  source : string;
  target : string;
  condition : Condition;
}.

Definition default_condition : Condition := on_success.

Global Instance eq_dec : EqDecision t.
Proof. solve_decision. Defined.
End EdgeData.

Module GoalData.
Record t : Type := mk {
  id : string;
  name : string;
  description : string;
  success_criteria : list string;
  constraints : list string;
}.

Global Instance eq_dec : EqDecision t.
Proof. solve_decision. Defined.

Global Instance model_truthy : Py.Truthy t := λ _, true.
End GoalData.

Module ComposerState.
Record t : Type := mk {
  agent_name : string;
  agent_description : string;
  output_path : option Path;
  goal : option GoalData.t;
  nodes : list NodeData.t;
  edges : list EdgeData.t;
  entry_node : option string;
  terminal_nodes : list string;
  default_model : string;
  max_tokens : Z;
  selected_tools : list string;
}.

Global Instance eq_dec : EqDecision t.
Proof. solve_decision. Defined.

(** [ComposerState()] *)
Definition new : t :=
  {| agent_name := ""; agent_description := ""; output_path := None;
     goal := None; nodes := []; edges := [];
     entry_node := None; terminal_nodes := [];
     default_model := "gpt-4o-mini"; max_tokens := 30000%Z;
     selected_tools := [] |}.

(** Assignments to one attribute. *)
Definition set_agent_name (v : string) (s : t) : t :=
  mk v (agent_description s) (output_path s) (goal s) (nodes s) (edges s)
     (entry_node s) (terminal_nodes s) (default_model s) (max_tokens s)
     (selected_tools s).
Definition set_agent_description (v : string) (s : t) : t :=
  mk (agent_name s) v (output_path s) (goal s) (nodes s) (edges s)
     (entry_node s) (terminal_nodes s) (default_model s) (max_tokens s)
     (selected_tools s).
Definition set_goal (v : option GoalData.t) (s : t) : t :=
  mk (agent_name s) (agent_description s) (output_path s) v (nodes s) (edges s)
     (entry_node s) (terminal_nodes s) (default_model s) (max_tokens s)
     (selected_tools s).
Definition set_nodes (v : list NodeData.t) (s : t) : t :=
  mk (agent_name s) (agent_description s) (output_path s) (goal s) v (edges s)
     (entry_node s) (terminal_nodes s) (default_model s) (max_tokens s)
     (selected_tools s).
Definition set_edges (v : list EdgeData.t) (s : t) : t :=
  mk (agent_name s) (agent_description s) (output_path s) (goal s) (nodes s) v
     (entry_node s) (terminal_nodes s) (default_model s) (max_tokens s)
     (selected_tools s).
Definition set_entry_node (v : option string) (s : t) : t :=
  mk (agent_name s) (agent_description s) (output_path s) (goal s) (nodes s)
     (edges s) v (terminal_nodes s) (default_model s) (max_tokens s)
     (selected_tools s).
Definition set_terminal_nodes (v : list string) (s : t) : t :=
  mk (agent_name s) (agent_description s) (output_path s) (goal s) (nodes s)
     (edges s) (entry_node s) v (default_model s) (max_tokens s)
     (selected_tools s).

(** [is_complete]: [bool(agent_name and goal and nodes and entry_node)] *)
Definition is_complete (s : t) : bool :=
  Py.truthy (agent_name s) && Py.truthy (goal s) && Py.truthy (nodes s)
  && Py.truthy (entry_node s).

(** [get_node_by_id] *)
Fixpoint find_node (node_id : string) (l : list NodeData.t)
  : option NodeData.t :=
  match l with
  | [] => None
  | node :: l' =>
      if decide (NodeData.id node = node_id) then Some node
      else find_node node_id l'
  end.
Definition get_node_by_id (s : t) (node_id : string) : option NodeData.t :=
  find_node node_id (nodes s).
End ComposerState.

(** ** Notifications and outcomes of the event handlers *)

(** What a form was submitted without. *)
Inductive Blank : Type :=
  | blank_agent_name        (* "Please enter an agent name" *)
  | blank_node_id_or_name   (* "Please fill in ID and Name" *)
  | blank_goal_name         (* "Please enter a goal name" *)
  | blank_goal_id           (* "Please enter a goal ID" *)
  | blank_node_id           (* "Please enter a node ID" *)
  | blank_source_or_target  (* "Please enter both source and target" *)
  | no_nodes.               (* "Please add at least one node" *)

(** What [action_generate] finds missing; [ReviewScreen] does not say. *)
Inductive Missing : Type :=
  | missing_agent_name      (* "Missing: Agent name" *)
  | missing_nodes           (* "Missing: At least one node required" *)
  | missing_goal            (* "Missing: Agent goal (Press O to edit goal)" *)
  | missing_entry_node      (* "Missing: Entry node not set" *)
  | incomplete.             (* "Agent configuration incomplete!" *)

Inductive Endpoint : Type := source_endpoint | target_endpoint.

Inductive Errno : Type := ENOENT | EEXIST | ENOTDIR | EISDIR.

Inductive Exception : Type :=
  | ValueError
  | KeyError (key : string)
  | ImportError
  | ModuleNotFoundError (name : string)
  | OSError (e : Errno)
  | TemplateNotFound (template_name : string)
  | TemplateError (template_name : string).

(** The calls [notify(..., severity="error")] and
    [notify(..., severity="warning")] after which a handler returns.
    - [DuplicateIdentifier]: "Node with ID '...' already exists!" (app.py),
      "Node '...' already exists" (screens.py);
    - [UnknownEndpoint]: "Source node '...' not found",
      "Target node '...' not found";
    - [IncompleteGraph]: the "Missing: ..." messages of [action_generate] and
      "Agent configuration incomplete!" of [ReviewScreen];
    - [GenerationFailure]: "Error generating agent: ..." and "Error: ...";
    - [PleaseEnter]: the "Please ..." messages of the forms;
    - [SelectNodeFirst]: "Select a node first". *)
Inductive Notice : Type :=
  | PleaseEnter (what : Blank)
  | DuplicateIdentifier (node_id : string)
  | UnknownEndpoint (which : Endpoint) (node_id : string)
  | SelectNodeFirst
  | IncompleteGraph (what : Missing)
  | GenerationFailure (e : Exception).

(** How a handler over [self.state] ends; [state] is [self.state] at that
    point. The notifications of severity "information" are left out. The
    handlers of [ComposerApp] are followed up to the refresh of the tree
    that ends some of them, which changes nothing of [self.state];
    [ComposerAppView] takes the refresh in. *)
Inductive Outcome : Type :=
  | Rejected (n : Notice) (state : ComposerState.t)
      (* notified an error or a warning and returned *)
  | Raised (e : Exception) (state : ComposerState.t)
      (* an exception left the handler *)
  | Updated (state : ComposerState.t).
      (* ran to its end, or returned without a notification *)

Definition state_of (o : Outcome) : ComposerState.t :=
  match o with
  | Rejected _ state | Raised _ state | Updated state => state
  end.

(** How the press of a button ends in a modal dialog. *)
Inductive ModalResult (A : Type) : Type :=
  | Stay (n : Notice)               (* notified an error; the dialog stays *)
  | Dismiss (result : option A).    (* [self.dismiss(result)] *)
Arguments Stay {A} n.
Arguments Dismiss {A} result.

(** ** The import statement

    [from ..state import NodeData] inside a function is run each time the
    function reaches it. The module it names is resolved against the
    package of the importing module and looked up among the modules there
    are; the standard library and Textual, which every import of them finds,
    are left out. *)

Module Importlib.

(** The packages and modules of [core], by their dotted names. *)
Definition modules : list string :=
  ["framework";
   "framework.composer";
   "framework.composer.__main__";
   "framework.composer.app";
   "framework.composer.cli_wrapper";
   "framework.composer.generator";
   "framework.composer.modals";
   "framework.composer.screens";
   "framework.composer.state";
   "framework.composer.test_generate";
   "framework.composer.widgets";
   "framework.composer.widgets.graph_tree";
   "memory";
   "memory.memory_manager";
   "memory.memory_tools"].

(** [_resolve_name(name, package, level)]:
    [bits = package.rsplit('.', level - 1)], an [ImportError] when
    [len(bits) < level], and [f'{bits[0]}.{name}'] otherwise. [None] stands
    for the [ImportError]. *)
Definition resolve_name (name package : string) (level : nat) : option string :=
  let parts := Py.split "." package in
  if decide (length parts < level) then None
  else
    let base := Py.join "." (take (length parts - (level - 1)) parts) in
    Some (if Py.truthy name then base +:+ "." +:+ name else base).

(** [from <level dots><name> import ...] in a module of [package]: the
    dotted name of the module that is imported, or the exception. *)
Definition import_from (package : string) (level : nat) (name : string)
  : Exception + string :=
  match resolve_name name package level with
  | None => inl ImportError
  | Some absolute =>
      if bool_decide (absolute ∈ modules) then inr absolute
      else inl (ModuleNotFoundError absolute)
  end.

End Importlib.

(** ** modals.py *)

Module AgentInfoModal.
Record Inputs : Type := {
  agent_name : string;          (* #agent-name *)
  agent_description : string;   (* #agent-description *)
}.

Definition on_button_pressed (w : Inputs) (button : string)
  : ModalResult (string * string) :=
  if decide (button = "create") then
    let name := agent_name w in
    let desc := agent_description w in
    if negb (Py.truthy name) then Stay (PleaseEnter blank_agent_name)
    else Dismiss (Some (name, desc))
  else Dismiss None.
End AgentInfoModal.

Module NodeEditorModal.
(** [__init__]: [self.node = node or NodeData(id="", name="", system_prompt="")] *)
Definition blank_node : NodeData.t :=
  {| NodeData.id := ""; NodeData.name := "";
     NodeData.description := NodeData.default_description;
     NodeData.system_prompt := "";
     NodeData.tools := NodeData.default_tools;
     NodeData.node_type := NodeData.default_node_type;
     NodeData.client_facing := NodeData.default_client_facing;
     NodeData.input_keys := NodeData.default_input_keys;
     NodeData.output_keys := NodeData.default_output_keys |}.
Definition init (node : option NodeData.t) : NodeData.t :=
  match node with
  | Some n => if Py.truthy n then n else blank_node
  | None => blank_node
  end.

(** The values of the four widgets. *)
Record Inputs : Type := {
  node_id : string;            (* #node-id *)
  node_name : string;          (* #node-name *)
  system_prompt : string;      (* #system-prompt *)
  node_description : string;   (* #node-description *)
}.

(** [compose]: the values the widgets start with, and whether the
    identifier can be typed over. *)
Definition compose (self_node : NodeData.t) : Inputs :=
  {| node_id := NodeData.id self_node;
     node_name := NodeData.name self_node;
     system_prompt :=
       Py.or_ (NodeData.system_prompt self_node) "You are a helpful assistant.";
     node_description :=
       match NodeData.description self_node with
       | Some d => Py.or_ d ""
       | None => ""
       end |}.
Definition node_id_disabled (self_node : NodeData.t) : bool :=
  Py.truthy (NodeData.id self_node).

(** The widgets after the user has typed [typed] into them: a disabled
    input keeps the value it was composed with. *)
Definition fill (self_node : NodeData.t) (typed : Inputs) : Inputs :=
  {| node_id := if node_id_disabled self_node
                then node_id (compose self_node) else node_id typed;
     node_name := node_name typed;
     system_prompt := system_prompt typed;
     node_description := node_description typed |}.

Definition on_button_pressed (self_node : NodeData.t) (w : Inputs)
  (button : string) : ModalResult NodeData.t :=
  if decide (button = "save") then
    let node_id := node_id w in
    let name := node_name w in
    let prompt := system_prompt w in
    let desc := node_description w in
    if negb (Py.truthy node_id) || negb (Py.truthy name)
    then Stay (PleaseEnter blank_node_id_or_name)
    else
      let updated_node :=
        {| NodeData.id := node_id;
           NodeData.name := name;
           NodeData.system_prompt := prompt;
           NodeData.description := if Py.truthy desc then Some desc else None;
           NodeData.tools := NodeData.tools self_node;
           NodeData.node_type := NodeData.default_node_type;
           NodeData.client_facing := NodeData.default_client_facing;
           NodeData.input_keys := NodeData.default_input_keys;
           NodeData.output_keys := NodeData.default_output_keys |} in
      Dismiss (Some updated_node)
  else Dismiss None.
End NodeEditorModal.

Module GoalEditorModal.
Record Inputs : Type := {
  goal_name : string;          (* #goal-name *)
  goal_description : string;   (* #goal-description *)
  success_criteria : string;   (* #success-criteria *)
}.

(** [compose]: the values the widgets start with; [self_goal] is
    [self.goal]. *)
Definition compose (self_goal : option GoalData.t) : Inputs :=
  {| goal_name :=
       match self_goal with
       | Some g => if Py.truthy g then GoalData.name g else ""
       | None => ""
       end;
     goal_description :=
       match self_goal with
       | Some g => if Py.truthy g then GoalData.description g else ""
       | None => ""
       end;
     success_criteria :=
       match self_goal with
       | Some g =>
           if Py.truthy g then Py.join ", " (GoalData.success_criteria g)
           else ""
       | None => ""
       end |}.

(** [[c.strip() for c in criteria.split(",") if c.strip()]] *)
Definition parse_list (text : string) : list string :=
  Py.strip <$> filter (λ c, Py.truthy (Py.strip c) = true) (Py.split "," text).

(** [name.lower().replace(" ", "_")] *)
Definition derive_id (name : string) : string :=
  Py.replace " " "_" (Py.lower name).

Definition on_button_pressed (w : Inputs) (button : string)
  : ModalResult GoalData.t :=
  if decide (button = "save") then
    let name := goal_name w in
    let desc := goal_description w in
    let criteria := success_criteria w in
    if negb (Py.truthy name) then Stay (PleaseEnter blank_goal_name)
    else
      let criteria_list := parse_list criteria in
      let goal :=
        {| GoalData.id := derive_id name;
           GoalData.name := name;
           GoalData.description := desc;
           GoalData.success_criteria := criteria_list;
           GoalData.constraints := [] |} in
      Dismiss (Some goal)
  else Dismiss None.
End GoalEditorModal.

(** ** app.py: the handlers of [ComposerApp] that change the graph *)

Module ComposerApp.
Import ComposerState.

(** [show_agent_info_modal], [check_result]: a cancelled dialog exits the
    application and leaves the state alone. *)
Definition agent_info_check_result (state : t) (result : option (string * string))
  : Outcome :=
  match result with
  | Some (name, description) =>
      Updated (set_agent_description description (set_agent_name name state))
  | None => Updated state
  end.

(** [on_input_changed]; [input_id] is [event.input.id], which is [None]
    for an input without an identifier. *)
Definition on_input_changed (state : t) (input_id : option string)
  (value : string) : Outcome :=
  if decide (input_id = Some "agent-name")
  then Updated (set_agent_name value state)
  else if decide (input_id = Some "agent-description")
  then Updated (set_agent_description value state)
  else Updated state.

(** [action_new_node], [handle_result] *)
Definition new_node_handle_result (state : t) (result : option NodeData.t)
  : Outcome :=
  match result with
  | Some result =>
      if Py.any (λ n, NodeData.id n = NodeData.id result) (nodes state)
      then Rejected (DuplicateIdentifier (NodeData.id result)) state
      else
        let state := set_nodes (nodes state ++ [result]) state in
        let state :=
          if decide (length (nodes state) = 1)
          then set_terminal_nodes [NodeData.id result]
                 (set_entry_node (Some (NodeData.id result)) state)
          else state in
        Updated state
  | None => Updated state
  end.

(** [action_new_node]: the dialog is opened on no node, the user types
    [typed] and presses [button]. *)
Definition action_new_node (state : t) (typed : NodeEditorModal.Inputs)
  (button : string) : Outcome :=
  let self_node := NodeEditorModal.init None in
  match NodeEditorModal.on_button_pressed self_node
          (NodeEditorModal.fill self_node typed) button with
  | Stay n => Rejected n state
  | Dismiss result => new_node_handle_result state result
  end.

(** [action_edit_node], [handle_result]; [node] is the node that was found
    when the dialog was opened. *)
Definition edit_node_handle_result (state : t) (node : NodeData.t)
  (result : option NodeData.t) : Outcome :=
  match result with
  | Some result =>
      match Py.index (nodes state) node with
      | Some idx => Updated (set_nodes (<[idx := result]> (nodes state)) state)
      | None => Raised ValueError state
      end
  | None => Updated state
  end.

(** [action_edit_node]; [selected_node] is [tree.selected_node]. *)
Definition action_edit_node (state : t) (selected_node : option string)
  (typed : NodeEditorModal.Inputs) (button : string) : Outcome :=
  if negb (Py.truthy selected_node) then Rejected SelectNodeFirst state
  else
    match Py.next_or_None (λ n, Some (NodeData.id n) = selected_node)
            (nodes state) with
    | None => Updated state
    | Some node =>
        let self_node := NodeEditorModal.init (Some node) in
        match NodeEditorModal.on_button_pressed self_node
                (NodeEditorModal.fill self_node typed) button with
        | Stay n => Rejected n state
        | Dismiss result => edit_node_handle_result state node result
        end
    end.

(** [action_delete_node] *)
Definition action_delete_node (state : t) (selected_node : option string)
  : Outcome :=
  if negb (Py.truthy selected_node) then Rejected SelectNodeFirst state
  else
    let state :=
      set_nodes
        (filter (λ n, Some (NodeData.id n) ≠ selected_node) (nodes state))
        state in
    let state :=
      set_edges
        (filter (λ e, Some (EdgeData.source e) ≠ selected_node
                      ∧ Some (EdgeData.target e) ≠ selected_node)
                (edges state))
        state in
    Updated state.

(** [action_edit_goal] *)
Definition edit_goal_handle_result (state : t) (result : option GoalData.t)
  : Outcome :=
  match result with
  | Some result => Updated (set_goal (Some result) state)
  | None => Updated state
  end.
Definition action_edit_goal (state : t) (typed : GoalEditorModal.Inputs)
  (button : string) : Outcome :=
  match GoalEditorModal.on_button_pressed typed button with
  | Stay n => Rejected n state
  | Dismiss result => edit_goal_handle_result state result
  end.

End ComposerApp.

(** ** screens.py: the wizard. Moving between the screens is left out; a
    button that only moves leaves the state as it is.

    The module is [framework.composer.screens], so that the two dots of
    [from ..state import ...] and of [from ..generator import ...] lead to
    the package [framework], not to [framework.composer]. *)

(** [__package__] of screens.py. *)
Definition screens_package : string := "framework.composer".

Module AgentInfoScreen.
Import ComposerState.

Record Inputs : Type := {
  agent_name : string;          (* #agent-name *)
  agent_description : string;   (* #agent-description *)
}.

Definition on_button_pressed (state : t) (w : Inputs) (button : string)
  : Outcome :=
  if decide (button = "next") then
    if negb (Py.truthy (Py.strip (agent_name w)))
    then Rejected (PleaseEnter blank_agent_name) state
    else
      let state := set_agent_name (Py.strip (agent_name w)) state in
      let state := set_agent_description (Py.strip (agent_description w)) state in
      Updated state
  else Updated state.
End AgentInfoScreen.

Module GoalDefinitionScreen.
Import ComposerState.

Record Inputs : Type := {
  goal_id : string;            (* #goal-id *)
  goal_description : string;   (* #goal-description *)
  success_criteria : string;   (* #success-criteria *)
}.

(** The branch of the button "next" from the line after its import. *)
Definition next_pressed (state : t) (w : Inputs) : Outcome :=
  let goal_id := Py.strip (goal_id w) in
  let goal_desc := Py.strip (goal_description w) in
  let criteria_text := Py.strip (success_criteria w) in
  if negb (Py.truthy goal_id) then Rejected (PleaseEnter blank_goal_id) state
  else
    let criteria := GoalEditorModal.parse_list criteria_text in
    Updated
      (set_goal
         (Some {| GoalData.id := goal_id;
                  GoalData.name := Py.title (Py.replace "_" " " goal_id);
                  GoalData.description := goal_desc;
                  GoalData.success_criteria := criteria;
                  GoalData.constraints := [] |})
         state).

Definition on_button_pressed (state : t) (w : Inputs) (button : string)
  : Outcome :=
  if decide (button = "next") then
    (* from ..state import GoalData *)
    match Importlib.import_from screens_package 2 "state" with
    | inl e => Raised e state
    | inr _ => next_pressed state w
    end
  else Updated state.
End GoalDefinitionScreen.

Module NodeEditorScreen.
Import ComposerState.

Record Inputs : Type := {
  node_id : string;         (* #node-id *)
  node_name : string;       (* #node-name *)
  system_prompt : string;   (* #system-prompt *)
  tools : string;           (* #tools *)
}.

(** The branch of the button "add-node" from the line after its import. *)
Definition add_node_pressed (state : t) (w : Inputs) : Outcome :=
  let node_id := Py.strip (node_id w) in
  let node_name := Py.strip (node_name w) in
  let prompt := Py.strip (system_prompt w) in
  let tools_text := Py.strip (tools w) in
  if negb (Py.truthy node_id) then Rejected (PleaseEnter blank_node_id) state
  else if Py.any (λ n, NodeData.id n = node_id) (nodes state)
  then Rejected (DuplicateIdentifier node_id) state
  else
    let tools := GoalEditorModal.parse_list tools_text in
    let node :=
      {| NodeData.id := node_id;
         NodeData.name :=
           Py.or_ node_name (Py.title (Py.replace "_" " " node_id));
         NodeData.system_prompt := prompt;
         NodeData.tools := tools;
         NodeData.description := NodeData.default_description;
         NodeData.node_type := NodeData.default_node_type;
         NodeData.client_facing := NodeData.default_client_facing;
         NodeData.input_keys := NodeData.default_input_keys;
         NodeData.output_keys := NodeData.default_output_keys |} in
    let state := set_nodes (nodes state ++ [node]) state in
    let state :=
      if decide (length (nodes state) = 1)
      then set_entry_node (Some node_id) state
      else state in
    Updated state.

Definition on_button_pressed (state : t) (w : Inputs) (button : string)
  : Outcome :=
  if decide (button = "add-node") then
    (* from ..state import NodeData *)
    match Importlib.import_from screens_package 2 "state" with
    | inl e => Raised e state
    | inr _ => add_node_pressed state w
    end
  else if decide (button = "next") then
    if negb (Py.truthy (nodes state)) then Rejected (PleaseEnter no_nodes) state
    else Updated state
  else Updated state.
End NodeEditorScreen.

Module EdgeWiringScreen.
Import ComposerState.

Record Inputs : Type := {
  source : string;   (* #source *)
  target : string;   (* #target *)
}.

(** The branch of the button "add-edge" from the line after its import. *)
Definition add_edge_pressed (state : t) (w : Inputs) : Outcome :=
  let source := Py.strip (source w) in
  let target := Py.strip (target w) in
  if negb (Py.truthy source) || negb (Py.truthy target)
  then Rejected (PleaseEnter blank_source_or_target) state
  else
    let node_ids := NodeData.id <$> nodes state in
    if negb (bool_decide (source ∈ node_ids))
    then Rejected (UnknownEndpoint source_endpoint source) state
    else if negb (bool_decide (target ∈ node_ids))
    then Rejected (UnknownEndpoint target_endpoint target) state
    else
      let edge :=
        {| EdgeData.source := source; EdgeData.target := target;
           EdgeData.condition := EdgeData.default_condition |} in
      Updated (set_edges (edges state ++ [edge]) state).

Definition on_button_pressed (state : t) (w : Inputs) (button : string)
  : Outcome :=
  if decide (button = "add-edge") then
    (* from ..state import EdgeData *)
    match Importlib.import_from screens_package 2 "state" with
    | inl e => Raised e state
    | inr _ => add_edge_pressed state w
    end
  else Updated state.
End EdgeWiringScreen.

(** ** The file system under [pathlib] *)

Module Fs.

Inductive Entry : Type := Dir | File (content : string).

Global Instance Entry_eq_dec : EqDecision Entry.
Proof. solve_decision. Defined.

Abbreviation t := (gmap Path Entry).

(** [os.stat]: every component above the last has to be a directory. *)
Fixpoint lookup_path (fs : t) (p : Path) : Errno + Entry :=
  match p with
  | [] => inr Dir
  | _ :: up =>
      match lookup_path fs up with
      | inl e => inl e
      | inr (File _) => inl ENOTDIR
      | inr Dir =>
          match fs !! p with
          | Some entry => inr entry
          | None => inl ENOENT
          end
      end
  end.

Definition is_dir (fs : t) (p : Path) : bool :=
  match lookup_path fs p with inr Dir => true | _ => false end.
Definition is_file (fs : t) (p : Path) : bool :=
  match lookup_path fs p with inr (File _) => true | _ => false end.
Definition exists_ (fs : t) (p : Path) : bool :=
  match lookup_path fs p with inr _ => true | inl _ => false end.

(** [os.mkdir] *)
Definition os_mkdir (fs : t) (p : Path) : Errno + t :=
  match p with
  | [] => inl EEXIST
  | _ :: up =>
      match lookup_path fs up with
      | inl e => inl e
      | inr (File _) => inl ENOTDIR
      | inr Dir =>
          match fs !! p with
          | Some _ => inl EEXIST
          | None => inr (<[p := Dir]> fs)
          end
      end
  end.

(** [Path.mkdir(parents=False, exist_ok=exist_ok)] *)
Definition mkdir (exist_ok : bool) (fs : t) (p : Path) : Errno + t :=
  match os_mkdir fs p with
  | inr fs' => inr fs'
  | inl ENOENT => inl ENOENT
  | inl e => if negb exist_ok || negb (is_dir fs p) then inl e else inr fs
  end.

(** [Path.mkdir(parents=True, exist_ok=exist_ok)]: on [FileNotFoundError]
    the parent is made with [parents=True, exist_ok=True], then the
    directory itself with [parents=False]. *)
Fixpoint mkdir_parents (exist_ok : bool) (fs : t) (p : Path) : Errno + t :=
  match os_mkdir fs p with
  | inr fs' => inr fs'
  | inl ENOENT =>
      match p with
      | [] => inl ENOENT
      | _ :: up =>
          match mkdir_parents true fs up with
          | inl e => inl e
          | inr fs' => mkdir exist_ok fs' p
          end
      end
  | inl e => if negb exist_ok || negb (is_dir fs p) then inl e else inr fs
  end.

(** [Path.write_text]: the file is opened for writing, which truncates it. *)
Definition write_text (fs : t) (p : Path) (content : string) : Errno + t :=
  match p with
  | [] => inl EISDIR
  | _ :: up =>
      match lookup_path fs up with
      | inl e => inl e
      | inr (File _) => inl ENOTDIR
      | inr Dir =>
          match fs !! p with
          | Some Dir => inl EISDIR
          | _ => inr (<[p := File content]> fs)
          end
      end
  end.

(** [q] is at [p] or below it. *)
Definition below (p q : Path) : Prop := p `suffix_of` q.

(** The regular files recorded at or below [p]. *)
Definition files_below (p : Path) (fs : t) : gset Path :=
  dom (filter (λ kv, below p kv.1 ∧ kv.2 ≠ Dir) fs).

(** Nothing is recorded at [p] or below it. *)
Definition nothing_below (p : Path) (fs : t) : Prop :=
  ∀ q, below p q → fs !! q = None.

End Fs.

(** ** generator.py *)

(** The values that [model_dump] and the template context are made of. *)
#[warnings="-register-all"]
Inductive Value : Type :=
  | VNone
  | VBool (b : bool)
  | VInt (z : Z)
  | VStr (s : string)
  | VList (l : list Value)
  | VDict (d : list (string * Value)).

Definition Context : Type := list (string * Value).

Definition VStrs (l : list string) : Value := VList (VStr <$> l).

Definition node_model_dump (n : NodeData.t) : Value :=
  VDict [("id", VStr (NodeData.id n));
         ("name", VStr (NodeData.name n));
         ("description", from_option VStr VNone (NodeData.description n));
         ("system_prompt", VStr (NodeData.system_prompt n));
         ("tools", VStrs (NodeData.tools n));
         ("node_type", VStr (NodeData.node_type n));
         ("client_facing", VBool (NodeData.client_facing n));
         ("input_keys", VStrs (NodeData.input_keys n));
         ("output_keys", VStrs (NodeData.output_keys n))].

Definition condition_literal (c : Condition) : string :=
  match c with
  | always => "always"
  | on_success => "on_success"
  | on_failure => "on_failure"
  end.

Definition edge_model_dump (e : EdgeData.t) : Value :=
  VDict [("source", VStr (EdgeData.source e));
         ("target", VStr (EdgeData.target e));
         ("condition", VStr (condition_literal (EdgeData.condition e)))].

Definition goal_model_dump (g : GoalData.t) : Value :=
  VDict [("id", VStr (GoalData.id g));
         ("name", VStr (GoalData.name g));
         ("description", VStr (GoalData.description g));
         ("success_criteria", VStrs (GoalData.success_criteria g));
         ("constraints", VStrs (GoalData.constraints g))].

(** A template renders a context to text, or raises. The templates of the
    repository are not part of the sources at hand: the environment is a
    field of the generator, and the properties hold for every environment. *)
Definition Template : Type := Context → option string.
Definition Environment : Type := string → option Template.

Module CodeGenerator.
Import ComposerState.

Record t : Type := mk { env : Environment }.

(** How a run over the file system ends: what is on disk then, and the
    exception if one was raised. Nothing that was written is taken back. *)
Inductive Result : Type :=
  | Ok (fs : Fs.t)
  | Fail (e : Exception) (fs : Fs.t).

Definition Run : Type := Fs.t → Result.

Definition seq (a b : Run) : Run :=
  λ fs, match a fs with
        | Ok fs' => b fs'
        | Fail e fs' => Fail e fs'
        end.
Infix ">>>" := seq (at level 65, right associativity).

Definition skip : Run := Ok.
Definition when (c : bool) (a : Run) : Run := if c then a else skip.

Definition os_call (f : Fs.t → Errno + Fs.t) : Run :=
  λ fs, match f fs with
        | inr fs' => Ok fs'
        | inl e => Fail (OSError e) fs
        end.

(** [_write_template] *)
Definition _write_template (self : t) (template_name : string)
  (output_file : Path) (context : Context) : Run :=
  λ fs,
    match env self template_name with
    | None => Fail (TemplateNotFound template_name) fs
    | Some template =>
        match template context with
        | None => Fail (TemplateError template_name) fs
        | Some content =>
            os_call (λ fs, Fs.write_text fs output_file content) fs
        end
    end.

(** The template context of [generate]. *)
Definition context_of (state : ComposerState.t) : Context :=
  [("agent_name", VStr (agent_name state));
   ("agent_description", VStr (agent_description state));
   ("goal", match goal state with
            | Some g => if Py.truthy g then goal_model_dump g else VDict []
            | None => VDict []
            end);
   ("nodes", VList (node_model_dump <$> nodes state));
   ("edges", VList (edge_model_dump <$> edges state));
   ("entry_node", from_option VStr VNone (entry_node state));
   ("terminal_nodes", VStrs (terminal_nodes state));
   ("default_model", VStr (default_model state));
   ("max_tokens", VInt (max_tokens state));
   ("selected_tools", VStrs (selected_tools state));
   ("tool_path", VStr "../../tools")].

(** [generate] *)
Definition generate (self : t) (state : ComposerState.t) (output_path : Path)
  : Run :=
  os_call (λ fs, Fs.mkdir_parents true fs output_path) >>>
  let nodes_dir := output_path </> "nodes" in
  os_call (λ fs, Fs.mkdir true fs nodes_dir) >>>
  let context := context_of state in
  _write_template self "__init__.py.j2" (output_path </> "__init__.py") context >>>
  _write_template self "__main__.py.j2" (output_path </> "__main__.py") context >>>
  _write_template self "agent.py.j2" (output_path </> "agent.py") context >>>
  _write_template self "config.py.j2" (output_path </> "config.py") context >>>
  _write_template self "nodes.py.j2" (nodes_dir </> "__init__.py") context >>>
  when (Py.truthy (selected_tools state))
    (_write_template self "mcp_servers.json.j2"
       (output_path </> "mcp_servers.json") context).

End CodeGenerator.

(** ** Generating from the application and from the wizard *)

(** How a press on "generate" ends: a notification of an error, an
    exception that leaves the handler, or the application exits with a
    return code after the files were written. *)
Inductive Generation : Type :=
  | NotGenerated (n : Notice) (fs : Fs.t)
  | GenerationRaised (e : Exception) (fs : Fs.t)
  | Generated (output_path : Path) (fs : Fs.t) (return_code : Z).

Module ComposerAppGenerate.
Import ComposerState.

(** [action_generate]; [agent_path] is [self.agent_path] and [cwd] is
    [Path.cwd()]. *)
Definition action_generate (generator : CodeGenerator.t)
  (agent_path : option Path) (cwd : Path) (state : t) (fs : Fs.t)
  : Generation :=
  if negb (Py.truthy (agent_name state))
  then NotGenerated (IncompleteGraph missing_agent_name) fs
  else if negb (Py.truthy (nodes state))
  then NotGenerated (IncompleteGraph missing_nodes) fs
  else if negb (Py.truthy (goal state))
  then NotGenerated (IncompleteGraph missing_goal) fs
  else if negb (Py.truthy (entry_node state))
  then NotGenerated (IncompleteGraph missing_entry_node) fs
  else
    let output_path :=
      match agent_path with
      | Some p => p
      | None =>
          cwd </> "hive" </> "examples" </> "templates" </> agent_name state
      end in
    match CodeGenerator.generate generator state output_path fs with
    | CodeGenerator.Ok fs' => Generated output_path fs' 0
    | CodeGenerator.Fail e fs' => NotGenerated (GenerationFailure e) fs'
    end.
End ComposerAppGenerate.

Module ReviewScreen.
Import ComposerState.

(** The branch of the button "generate" from the line after its imports;
    [generator] is the [CodeGenerator()] it makes. *)
Definition generate (generator : CodeGenerator.t) (cwd : Path)
  (state : t) (fs : Fs.t) : Generation :=
  if negb (is_complete state)
  then NotGenerated (IncompleteGraph incomplete) fs
  else
    let output_path :=
      cwd </> "hive" </> "examples" </> "templates" </> agent_name state in
    match CodeGenerator.generate generator state output_path fs with
    | CodeGenerator.Ok fs' => Generated output_path fs' 0
    | CodeGenerator.Fail e fs' => NotGenerated (GenerationFailure e) fs'
    end.

(** [on_button_pressed] for the button "generate". *)
Definition generate_pressed (generator : CodeGenerator.t) (cwd : Path)
  (state : t) (fs : Fs.t) : Generation :=
  (* from ..generator import CodeGenerator *)
  match Importlib.import_from screens_package 2 "generator" with
  | inl e => GenerationRaised e fs
  | inr _ => generate generator cwd state fs
  end.
End ReviewScreen.

(** ** The files that [generate] writes *)

Definition core_files (output_path : Path) : list Path :=
  [output_path </> "__init__.py";
   output_path </> "__main__.py";
   output_path </> "agent.py";
   output_path </> "config.py";
   output_path </> "nodes" </> "__init__.py"].

Definition tool_manifest (output_path : Path) : Path :=
  output_path </> "mcp_servers.json".

Definition artifacts (state : ComposerState.t) (output_path : Path)
  : list Path :=
  core_files output_path
  ++ (if Py.truthy (ComposerState.selected_tools state)
      then [tool_manifest output_path] else []).

(** The calls of [_write_template] in [generate], in their order: the
    template and the file it is written to. *)
Definition render_steps (state : ComposerState.t) (output_path : Path)
  : list (string * Path) :=
  [("__init__.py.j2", output_path </> "__init__.py");
   ("__main__.py.j2", output_path </> "__main__.py");
   ("agent.py.j2", output_path </> "agent.py");
   ("config.py.j2", output_path </> "config.py");
   ("nodes.py.j2", output_path </> "nodes" </> "__init__.py")]
  ++ (if Py.truthy (ComposerState.selected_tools state)
      then [("mcp_servers.json.j2", output_path </> "mcp_servers.json")]
      else []).

Definition write_all (self : CodeGenerator.t) (context : Context)
  (steps : list (string * Path)) : CodeGenerator.Run :=
  foldr (λ step rest,
           CodeGenerator.seq
             (CodeGenerator._write_template self step.1 step.2 context) rest)
        CodeGenerator.skip steps.

(** The artifacts, from the output location down, innermost first. *)
Definition artifact_names (state : ComposerState.t) : list Path :=
  [["__init__.py"]; ["__main__.py"]; ["agent.py"]; ["config.py"];
   ["__init__.py"; "nodes"]]
  ++ (if Py.truthy (ComposerState.selected_tools state)
      then [["mcp_servers.json"]] else []).

(** What a template of the generator renders to on a context. *)
Definition rendered (self : CodeGenerator.t) (template_name : string)
  (context : Context) : option string :=
  CodeGenerator.env self template_name ≫= λ template, template context.

(** Every directory of [fs] is one of [fs']. *)
Definition dirs_kept (fs fs' : Fs.t) : Prop :=
  ∀ p, fs !! p = Some Fs.Dir → fs' !! p = Some Fs.Dir.

(** [fs'] has the regular files of [fs] and no other. *)
Definition files_kept (fs fs' : Fs.t) : Prop :=
  ∀ p content,
    fs' !! p = Some (Fs.File content) ↔ fs !! p = Some (Fs.File content).

(** The file [p] is in place with [content]: writing it again changes
    nothing. *)
Definition in_place (fs : Fs.t) (p : Path) (content : string) : Prop :=
  Fs.is_dir fs (parent p) = true ∧ fs !! p = Some (Fs.File content).

(** A file system with nothing but the root, and one where a regular file
    stands at [agent]. *)
Definition empty_fs : Fs.t := ∅.
Definition fs_with_file_at_agent : Fs.t := {[ ["agent"] := Fs.File "" ]}.

(** ** The graph of test_generate.py *)

Definition support_goal : GoalData.t :=
  {| GoalData.id := "support_goal";
     GoalData.name := "Customer Support Goal";
     GoalData.description := "Provide helpful responses to customer inquiries";
     GoalData.success_criteria := ["response_quality"; "resolution_speed"];
     GoalData.constraints := [] |}.

Definition intake_node : NodeData.t :=
  {| NodeData.id := "intake";
     NodeData.name := "Customer Intake";
     NodeData.description := Some "Gather customer inquiry details";
     NodeData.system_prompt :=
       "You are a helpful customer support agent. Gather information about the customer's issue.";
     NodeData.tools := [];
     NodeData.node_type := NodeData.default_node_type;
     NodeData.client_facing := NodeData.default_client_facing;
     NodeData.input_keys := NodeData.default_input_keys;
     NodeData.output_keys := NodeData.default_output_keys |}.

Definition response_node : NodeData.t :=
  {| NodeData.id := "response";
     NodeData.name := "Response Generator";
     NodeData.description := Some "Generate helpful response";
     NodeData.system_prompt :=
       "You are a helpful customer support agent. Provide a clear, helpful response to the customer.";
     NodeData.tools := [];
     NodeData.node_type := NodeData.default_node_type;
     NodeData.client_facing := NodeData.default_client_facing;
     NodeData.input_keys := NodeData.default_input_keys;
     NodeData.output_keys := NodeData.default_output_keys |}.

Definition simple_support_agent : ComposerState.t :=
  {| ComposerState.agent_name := "simple_support_agent";
     ComposerState.agent_description := "A basic customer support agent";
     ComposerState.output_path := None;
     ComposerState.goal := Some support_goal;
     ComposerState.nodes := [intake_node; response_node];
     ComposerState.edges :=
       [ {| EdgeData.source := "intake"; EdgeData.target := "response";
            EdgeData.condition := EdgeData.default_condition |} ];
     ComposerState.entry_node := Some "intake";
     ComposerState.terminal_nodes := ["response"];
     ComposerState.default_model := "gpt-4o-mini";
     ComposerState.max_tokens := 30000%Z;
     ComposerState.selected_tools := [] |}.

(** The same graph with one tool selected. *)
Definition simple_support_agent_with_tool : ComposerState.t :=
  {| ComposerState.agent_name := "simple_support_agent";
     ComposerState.agent_description := "A basic customer support agent";
     ComposerState.output_path := None;
     ComposerState.goal := Some support_goal;
     ComposerState.nodes := [intake_node; response_node];
     ComposerState.edges :=
       [ {| EdgeData.source := "intake"; EdgeData.target := "response";
            EdgeData.condition := EdgeData.default_condition |} ];
     ComposerState.entry_node := Some "intake";
     ComposerState.terminal_nodes := ["response"];
     ComposerState.default_model := "gpt-4o-mini";
     ComposerState.max_tokens := 30000%Z;
     ComposerState.selected_tools := ["jira"] |}.

(** Stand-ins for the six templates of the repository, to run [generate] on
    examples: each renders to the agent name it is given. *)
Definition stand_in_template : Template :=
  λ context,
    match context with
    | (_, VStr agent_name) :: _ => Some agent_name
    | _ => None
    end.
Definition stand_in_templates : CodeGenerator.t :=
  CodeGenerator.mk
    (λ template_name,
       if bool_decide (template_name ∈
            ["__init__.py.j2"; "__main__.py.j2"; "agent.py.j2"; "config.py.j2";
             "nodes.py.j2"; "mcp_servers.json.j2"])
       then Some stand_in_template else None).

(** The stand-ins without the template of [config.py]. *)
Definition templates_without_config : CodeGenerator.t :=
  CodeGenerator.mk
    (λ template_name,
       if decide (template_name = "config.py.j2") then None
       else CodeGenerator.env stand_in_templates template_name).

(** ** The words of the specification, to compare the code with *)

(** A state with each of the four things that completeness asks for
    present or absent. *)
Definition state_with (has_name has_goal has_node has_entry : bool)
  : ComposerState.t :=
  {| ComposerState.agent_name := if has_name then "simple_support_agent" else "";
     ComposerState.agent_description := "";
     ComposerState.output_path := None;
     ComposerState.goal := if has_goal then Some support_goal else None;
     ComposerState.nodes := if has_node then [intake_node] else [];
     ComposerState.edges := [];
     ComposerState.entry_node := if has_entry then Some "intake" else None;
     ComposerState.terminal_nodes := [];
     ComposerState.default_model := "gpt-4o-mini";
     ComposerState.max_tokens := 30000%Z;
     ComposerState.selected_tools := [] |}.

(** An identifier is a non-empty string; the entry node is set when the
    field holds one. *)
Definition entry_node_set (s : ComposerState.t) : Prop :=
  ∃ e, ComposerState.entry_node s = Some e ∧ e ≠ "".

(** "lower-cased, spaces replaced with underscores" *)
Definition space_to_underscore (c : ascii) : ascii :=
  if decide (c = " "%char) then "_"%char else c.
Definition spec_goal_id (name : string) : string :=
  Py.map_chars space_to_underscore (Py.map_chars Py.lower_char name).

(** The identifiers of the nodes of a state, in the order of the list. *)
Definition node_ids (s : ComposerState.t) : list string :=
  NodeData.id <$> ComposerState.nodes s.

(** [NodeData(id=node_id, name=node_id)] *)
Definition plain_node (node_id : string) : NodeData.t :=
  {| NodeData.id := node_id;
     NodeData.name := node_id;
     NodeData.description := NodeData.default_description;
     NodeData.system_prompt := NodeData.default_system_prompt;
     NodeData.tools := NodeData.default_tools;
     NodeData.node_type := NodeData.default_node_type;
     NodeData.client_facing := NodeData.default_client_facing;
     NodeData.input_keys := NodeData.default_input_keys;
     NodeData.output_keys := NodeData.default_output_keys |}.

(** [EdgeData(source=source, target=target)] *)
Definition plain_edge (source target : string) : EdgeData.t :=
  {| EdgeData.source := source; EdgeData.target := target;
     EdgeData.condition := EdgeData.default_condition |}.

(** Nodes A, B, C and edges A → B, B → C; B is the entry node and the
    terminal node. *)
Definition abc_graph : ComposerState.t :=
  {| ComposerState.agent_name := "abc";
     ComposerState.agent_description := "";
     ComposerState.output_path := None;
     ComposerState.goal := None;
     ComposerState.nodes := [plain_node "A"; plain_node "B"; plain_node "C"];
     ComposerState.edges := [plain_edge "A" "B"; plain_edge "B" "C"];
     ComposerState.entry_node := Some "B";
     ComposerState.terminal_nodes := ["B"];
     ComposerState.default_model := "gpt-4o-mini";
     ComposerState.max_tokens := 30000%Z;
     ComposerState.selected_tools := [] |}.

(** The form of the wizard's node screen with an identifier typed in. *)
Definition node_screen_inputs (node_id : string) : NodeEditorScreen.Inputs :=
  {| NodeEditorScreen.node_id := node_id;
     NodeEditorScreen.node_name := "";
     NodeEditorScreen.system_prompt := "You are a helpful assistant.";
     NodeEditorScreen.tools := "" |}.

(** The node that the lines behind the import of the node screen of the
    wizard build from its form. *)
Definition screen_node (w : NodeEditorScreen.Inputs) : NodeData.t :=
  let node_id := Py.strip (NodeEditorScreen.node_id w) in
  {| NodeData.id := node_id;
     NodeData.name :=
       Py.or_ (Py.strip (NodeEditorScreen.node_name w))
              (Py.title (Py.replace "_" " " node_id));
     NodeData.system_prompt := Py.strip (NodeEditorScreen.system_prompt w);
     NodeData.tools :=
       GoalEditorModal.parse_list (Py.strip (NodeEditorScreen.tools w));
     NodeData.description := NodeData.default_description;
     NodeData.node_type := NodeData.default_node_type;
     NodeData.client_facing := NodeData.default_client_facing;
     NodeData.input_keys := NodeData.default_input_keys;
     NodeData.output_keys := NodeData.default_output_keys |}.

(** The node that the node dialog returns when it was opened on [node] and
    saved with [typed] in its widgets: the form, the tools of [node], and
    the defaults of the model for the fields the form does not show. *)
Definition edited_node (node : NodeData.t) (typed : NodeEditorModal.Inputs)
  : NodeData.t :=
  {| NodeData.id := NodeData.id node;
     NodeData.name := NodeEditorModal.node_name typed;
     NodeData.system_prompt := NodeEditorModal.system_prompt typed;
     NodeData.description :=
       if decide (NodeEditorModal.node_description typed = "") then None
       else Some (NodeEditorModal.node_description typed);
     NodeData.tools := NodeData.tools node;
     NodeData.node_type := "event_loop";
     NodeData.client_facing := false;
     NodeData.input_keys := [];
     NodeData.output_keys := [] |}.

(** A node none of whose fields is at its default, in a graph of two. *)
Definition router_node : NodeData.t :=
  {| NodeData.id := "router";
     NodeData.name := "Router";
     NodeData.description := Some "Routes the request";
     NodeData.system_prompt := "Route the request.";
     NodeData.tools := ["web_search"; "send_email"];
     NodeData.node_type := "router";
     NodeData.client_facing := true;
     NodeData.input_keys := ["request"];
     NodeData.output_keys := ["route"] |}.

Definition router_graph : ComposerState.t :=
  ComposerState.set_nodes [intake_node; router_node; response_node]
    simple_support_agent.


(** An add-node operation ends with [DuplicateIdentifier], an add-edge
    operation with [UnknownEndpoint]. *)
Definition fails_with_duplicate_identifier (o : Outcome) : Prop :=
  ∃ node_id state, o = Rejected (DuplicateIdentifier node_id) state.
Definition fails_with_unknown_endpoint (o : Outcome) : Prop :=
  ∃ which node_id state, o = Rejected (UnknownEndpoint which node_id) state.

(** ** widgets/graph_tree.py

    [update_graph] is called by [_update_graph_view] of the application with
    the [model_dump()] of every node and edge; the dictionaries are kept
    here as the records they are the dumps of, so that [node["id"]] is
    [NodeData.id node] and [edge["source"]] is [EdgeData.source edge]. *)

Module GraphTreeView.

(** A child of the root of the tree widget. *)
Record TreeNode : Type := {
  label : string;
  data : string;
  expanded : bool;
}.

(** The tree widget [#node-tree]. *)
Record Tree : Type := {
  root_label : string;
  show_root : bool;
  root_expanded : bool;
  children : list TreeNode;
}.

Record t : Type := mk {
  nodes : list NodeData.t;
  edges : list EdgeData.t;
  entry_node : option string;
  selected_node : option string;
  tree : Tree;
}.

(** The widget as it is mounted: [__init__] and [compose]. *)
Definition new : t :=
  {| nodes := []; edges := []; entry_node := None; selected_node := None;
     tree := {| root_label := "Nodes"; show_root := true;
                root_expanded := false; children := [] |} |}.

(** [adj = {node["id"]: [] for node in self.nodes}] *)
Definition empty_adjacency (nodes : list NodeData.t) : gmap string (list string) :=
  foldl (λ adj node, <[NodeData.id node := []]> adj) ∅ nodes.

(** [for edge in self.edges: adj[edge["source"]].append(edge["target"])];
    [inl source] stands for [KeyError(source)]. *)
Fixpoint fill_adjacency (adj : gmap string (list string))
  (edges : list EdgeData.t) : string + gmap string (list string) :=
  match edges with
  | [] => inr adj
  | edge :: edges' =>
      match adj !! EdgeData.source edge with
      | None => inl (EdgeData.source edge)
      | Some targets =>
          fill_adjacency
            (<[EdgeData.source edge := targets ++ [EdgeData.target edge]]> adj)
            edges'
      end
  end.

(** The child added for a node: the icon, the identifier and the name. *)
Definition tree_node (selected_node : option string) (node : NodeData.t)
  : TreeNode :=
  let selected := bool_decide (Some (NodeData.id node) = selected_node) in
  {| label := (if selected then "●" else "○")
              +:+ " " +:+ NodeData.id node +:+ " - " +:+ NodeData.name node;
     data := NodeData.id node;
     expanded := selected |}.

(** [render_tree]; [inl source] stands for [KeyError(source)], raised after
    the tree was cleared and its root was set up. *)
Definition render_tree (self : t) : string + t :=
  let cleared :=
    {| root_label := root_label (tree self); show_root := show_root (tree self);
       root_expanded := root_expanded (tree self); children := [] |} in
  if negb (Py.truthy (nodes self)) then
    inr (mk (nodes self) (edges self) (entry_node self) (selected_node self)
           {| root_label := "[dim]No nodes yet. Press 'N' to add.[/dim]";
              show_root := show_root cleared;
              root_expanded := root_expanded cleared;
              children := [] |})
  else
    match fill_adjacency (empty_adjacency (nodes self)) (edges self) with
    | inl source => inl source
    | inr adj =>
        inr (mk (nodes self) (edges self) (entry_node self) (selected_node self)
               {| root_label := "Agent Nodes";
                  show_root := true;
                  root_expanded := true;
                  children := tree_node (selected_node self) <$> nodes self |})
    end.

(** [update_graph] *)
Definition update_graph (self : t) (nodes : list NodeData.t)
  (edges : list EdgeData.t) (entry_node : option string) : string + t :=
  render_tree (mk nodes edges entry_node (selected_node self) (tree self)).

(** [select_node] *)
Definition select_node (self : t) (node_id : string) : string + t :=
  render_tree (mk (nodes self) (edges self) (entry_node self) (Some node_id)
                 (tree self)).

End GraphTreeView.

(** [ComposerApp._update_graph_view] *)
Definition _update_graph_view (state : ComposerState.t)
  (tree : GraphTreeView.t) : string + GraphTreeView.t :=
  GraphTreeView.update_graph tree (ComposerState.nodes state)
    (ComposerState.edges state) (ComposerState.entry_node state).

(** ** app.py: editing a node, with the tree widget

    [ComposerApp.action_edit_node] above follows the graph state; here the
    handler is taken with the widget [tree] it reads the selection from and
    with the call of [_update_graph_view] that follows the replacement of
    the node, so that the [KeyError] of that call leaves the handler. *)

Module ComposerAppView.
Import ComposerState.

(** [handle_result] of [action_edit_node]: lines 285 to 290. *)
Definition edit_node_handle_result (tree : GraphTreeView.t) (state : t)
  (node : NodeData.t) (result : option NodeData.t) : Outcome :=
  match result with
  | Some result =>
      match Py.index (nodes state) node with
      | Some idx =>
          let state := set_nodes (<[idx := result]> (nodes state)) state in
          match _update_graph_view state tree with
          | inl key => Raised (KeyError key) state
          | inr _ => Updated state
          end
      | None => Raised ValueError state
      end
  | None => Updated state
  end.

(** [action_edit_node] *)
Definition action_edit_node (tree : GraphTreeView.t) (state : t)
  (typed : NodeEditorModal.Inputs) (button : string) : Outcome :=
  let selected_node := GraphTreeView.selected_node tree in
  if negb (Py.truthy selected_node) then Rejected SelectNodeFirst state
  else
    match Py.next_or_None (λ n, Some (NodeData.id n) = selected_node)
            (nodes state) with
    | None => Updated state
    | Some node =>
        let self_node := NodeEditorModal.init (Some node) in
        match NodeEditorModal.on_button_pressed self_node
                (NodeEditorModal.fill self_node typed) button with
        | Stay n => Rejected n state
        | Dismiss result => edit_node_handle_result tree state node result
        end
    end.

End ComposerAppView.

(** ** cli_wrapper.py *)

(** [should_compose] *)
Definition should_compose (fs : Fs.t) (agent_path : Path) : bool :=
  if negb (Fs.exists_ fs agent_path) then true
  else
    let required_files := ["agent.py"; "config.py"; "nodes/__init__.py"] in
    bool_decide
      (Exists (λ file, Fs.exists_ fs (agent_path </> file) = false)
         required_files).

(** ** The handlers as one step function *)

(** What the user does: the key bindings of the application with what is
    selected in the tree and typed into the dialog that opens, the dialog
    for the agent that opens on mount, a change of the text of an input,
    and the buttons of the screens of the wizard. [action_generate] and the
    review screen change nothing of the graph state and are not among the
    events. *)
Inductive Event : Type :=
  | agent_info (w : AgentInfoModal.Inputs) (button : string)
  | input_changed (input_id : option string) (value : string)
  | key_n (typed : NodeEditorModal.Inputs) (button : string)
  | key_e (selected_node : option string) (typed : NodeEditorModal.Inputs)
      (button : string)
  | key_d (selected_node : option string)
  | key_o (typed : GoalEditorModal.Inputs) (button : string)
  | agent_screen (w : AgentInfoScreen.Inputs) (button : string)
  | goal_screen (w : GoalDefinitionScreen.Inputs) (button : string)
  | node_screen (w : NodeEditorScreen.Inputs) (button : string)
  | edge_screen (w : EdgeWiringScreen.Inputs) (button : string).

Definition show_agent_info_modal (state : ComposerState.t)
  (w : AgentInfoModal.Inputs) (button : string) : Outcome :=
  match AgentInfoModal.on_button_pressed w button with
  | Stay n => Rejected n state
  | Dismiss result => ComposerApp.agent_info_check_result state result
  end.

Definition handle (state : ComposerState.t) (ev : Event) : Outcome :=
  match ev with
  | agent_info w button => show_agent_info_modal state w button
  | input_changed input_id value =>
      ComposerApp.on_input_changed state input_id value
  | key_n typed button => ComposerApp.action_new_node state typed button
  | key_e selected_node typed button =>
      ComposerApp.action_edit_node state selected_node typed button
  | key_d selected_node => ComposerApp.action_delete_node state selected_node
  | key_o typed button => ComposerApp.action_edit_goal state typed button
  | agent_screen w button => AgentInfoScreen.on_button_pressed state w button
  | goal_screen w button => GoalDefinitionScreen.on_button_pressed state w button
  | node_screen w button => NodeEditorScreen.on_button_pressed state w button
  | edge_screen w button => EdgeWiringScreen.on_button_pressed state w button
  end.

(** The state after a sequence of events, each handler starting from the
    state that the one before it left, whether that one returned, notified
    an error or raised. *)
Definition run (events : list Event) (state : ComposerState.t)
  : ComposerState.t :=
  foldl (λ state ev, state_of (handle state ev)) state events.

(** ** Properties of graphs and of text *)

(** No two nodes have the same identifier, no node has the empty one, no
    edge starts or ends at an identifier that is not a node's, the
    entry-node field is not the empty string, and it is set when there is a
    node. *)
Definition edges_wellformed (s : ComposerState.t) : Prop :=
  ∀ e, e ∈ ComposerState.edges s →
       EdgeData.source e ∈ node_ids s ∧ EdgeData.target e ∈ node_ids s.

Record graph_ok (s : ComposerState.t) : Prop := {
  ids_unique : NoDup (node_ids s);
  ids_not_blank : "" ∉ node_ids s;
  edges_ok : edges_wellformed s;
  entry_not_blank : ComposerState.entry_node s ≠ Some "";
  entry_set : ComposerState.nodes s ≠ [] → is_Some (ComposerState.entry_node s);
}.

(** A session on the graph of two nodes and one edge: the name of the
    agent is typed over, a third node is added, the first one is asked for a
    second time, the second one is renamed, the wizard is asked for a node
    and for an edge, a goal is saved and the first node is deleted. *)
Definition session_events : list Event :=
  [input_changed (Some "agent-name") "support";
   key_n {| NodeEditorModal.node_id := "triage";
            NodeEditorModal.node_name := "Triage";
            NodeEditorModal.system_prompt := "";
            NodeEditorModal.node_description := "" |} "save";
   key_n {| NodeEditorModal.node_id := "intake";
            NodeEditorModal.node_name := "Again";
            NodeEditorModal.system_prompt := "";
            NodeEditorModal.node_description := "" |} "save";
   key_e (Some "response")
         {| NodeEditorModal.node_id := "";
            NodeEditorModal.node_name := "Reply";
            NodeEditorModal.system_prompt := "Answer the customer.";
            NodeEditorModal.node_description := "" |} "save";
   node_screen (node_screen_inputs "billing") "add-node";
   edge_screen {| EdgeWiringScreen.source := "triage";
                  EdgeWiringScreen.target := "response" |} "add-edge";
   key_o {| GoalEditorModal.goal_name := "Resolve Tickets";
            GoalEditorModal.goal_description := "";
            GoalEditorModal.success_criteria := "" |} "save";
   key_d (Some "intake")].

(** The events of an application that starts with nothing: the agent is
    named, a goal is saved and a node is added. *)
Definition first_session_events : list Event :=
  [agent_info {| AgentInfoModal.agent_name := "simple_support_agent";
                 AgentInfoModal.agent_description := "" |} "create";
   key_o {| GoalEditorModal.goal_name := "Customer Support Goal";
            GoalEditorModal.goal_description := "";
            GoalEditorModal.success_criteria := "" |} "save";
   key_n {| NodeEditorModal.node_id := "intake";
            NodeEditorModal.node_name := "Customer Intake";
            NodeEditorModal.system_prompt := "";
            NodeEditorModal.node_description := "" |} "save"].


(** An edge of the state starts at an identifier that no node has. *)
Definition dangling_source (s : ComposerState.t) (key : string) : Prop :=
  (∃ e, e ∈ ComposerState.edges s ∧ EdgeData.source e = key)
  ∧ key ∉ node_ids s.

(** The characters of a string. *)
Fixpoint chars (s : string) : list ascii :=
  match s with
  | EmptyString => []
  | String c s' => c :: chars s'
  end.

(** An item as [parse_list] returns them: not empty, no white space at its
    ends, no comma. *)
Definition clean_item (x : string) : Prop :=
  x ≠ "" ∧ Py.strip x = x ∧ ","%char ∉ chars x.

(** The file system at the end of a run. *)
Definition fs_of (r : CodeGenerator.Result) : Fs.t :=
  match r with
  | CodeGenerator.Ok fs | CodeGenerator.Fail _ fs => fs
  end.

(** A state with its tool selection replaced. *)
Definition set_selected_tools (v : list string) (s : ComposerState.t)
  : ComposerState.t :=
  ComposerState.mk (ComposerState.agent_name s)
    (ComposerState.agent_description s) (ComposerState.output_path s)
    (ComposerState.goal s) (ComposerState.nodes s) (ComposerState.edges s)
    (ComposerState.entry_node s) (ComposerState.terminal_nodes s)
    (ComposerState.default_model s) (ComposerState.max_tokens s) v.

(** ** Checks of the built-ins on small inputs *)

Example strip_example : Py.strip "  intake " = "intake".
Proof. reflexivity. Qed.

Example lower_example : Py.lower "Customer Support Goal" = "customer support goal".
Proof. reflexivity. Qed.

Example title_example : Py.title "customer support_goal" = "Customer Support_Goal".
Proof. reflexivity. Qed.

Example replace_example : Py.replace "ab" "x" "ababa" = "xxa".
Proof. reflexivity. Qed.

Example replace_empty_example : Py.replace "" "-" "ab" = "-a-b-".
Proof. reflexivity. Qed.

Example split_example : Py.split "," "a, b,,c" = ["a"; " b"; ""; "c"].
Proof. reflexivity. Qed.

Example split_empty_example : Py.split "," "" = [""].
Proof. reflexivity. Qed.

Example parse_list_example :
  GoalEditorModal.parse_list "response_quality, resolution_speed, ,"
  = ["response_quality"; "resolution_speed"].
Proof. reflexivity. Qed.

Example derive_id_example :
  GoalEditorModal.derive_id "Customer Support Goal" = "customer_support_goal".
Proof. reflexivity. Qed.

Example joinpath_example :
  ["out"] </> "nodes" </> "__init__.py" = ["__init__.py"; "nodes"; "out"].
Proof. reflexivity. Qed.

Example joinpath_nested_example :
  ["home"] </> "hive//examples/./templates" = ["templates"; "examples"; "hive"; "home"].
Proof. reflexivity. Qed.

Example joinpath_absolute_example : ["home"] </> "/tmp/agent" = ["agent"; "tmp"].
Proof. reflexivity. Qed.

(** ** Completeness *)

Lemma truthy_str (s : string) : Py.truthy s = true ↔ s ≠ "".
Proof. destruct s; cbn; split; congruence. Qed.

Lemma truthy_str_false (s : string) : Py.truthy s = false ↔ s = "".
Proof. destruct s; cbn; split; congruence. Qed.

Lemma truthy_list {A} (l : list A) : Py.truthy l = true ↔ l ≠ [].
Proof. destruct l; cbn; split; congruence. Qed.

Lemma truthy_entry_node (s : ComposerState.t) :
  Py.truthy (ComposerState.entry_node s) = true ↔ entry_node_set s.
Proof.
  unfold entry_node_set. destruct (ComposerState.entry_node s) as [e|]; cbn.
  - rewrite truthy_str. split.
    + intros He. exists e. done.
    + intros (e' & [= <-] & He'). done.
  - split; [done|]. intros (e' & He' & _). done.
Qed.

(** C1. [is_complete] is true exactly when the agent name is a non-empty
    string, a goal is set, the node list is not empty and the entry-node
    field holds an identifier; so it is false for every state that misses
    one of the four. An identifier is a non-empty string: with the field at
    the empty string the entry node counts as not set, as for [None]. *)
Theorem is_complete_iff (s : ComposerState.t) :
  ComposerState.is_complete s = true
  ↔ ComposerState.agent_name s ≠ ""
    ∧ is_Some (ComposerState.goal s)
    ∧ ComposerState.nodes s ≠ []
    ∧ entry_node_set s.
Proof.
  unfold ComposerState.is_complete.
  rewrite !andb_true_iff, truthy_str, truthy_list, truthy_entry_node.
  assert (Py.truthy (ComposerState.goal s) = true ↔ is_Some (ComposerState.goal s))
    as ->.
  { destruct (ComposerState.goal s); cbn; split; done. }
  tauto.
Qed.

(** The sixteen combinations: the check is the conjunction of the four. *)
Lemma is_complete_state_with (has_name has_goal has_node has_entry : bool) :
  ComposerState.is_complete (state_with has_name has_goal has_node has_entry)
  = has_name && has_goal && has_node && has_entry.
Proof. by destruct has_name, has_goal, has_node, has_entry. Qed.

(** A state whose entry-node field is the empty string is not complete. *)
Lemma is_complete_blank_entry_node (s : ComposerState.t) :
  ComposerState.entry_node s = Some "" → ComposerState.is_complete s = false.
Proof.
  intros He. unfold ComposerState.is_complete. rewrite He. cbn.
  by rewrite andb_false_r.
Qed.

Lemma is_complete_simple_support_agent :
  ComposerState.is_complete simple_support_agent = true.
Proof. reflexivity. Qed.

(** ** Adding nodes *)

Section add_node.
Import ComposerState.

Lemma any_node_id (state : t) (x : string) :
  Py.any (λ n, NodeData.id n = x) (nodes state) = true ↔ x ∈ node_ids state.
Proof.
  unfold Py.any, node_ids.
  rewrite bool_decide_eq_true, Exists_exists, list_elem_of_fmap.
  split.
  - intros (n & Hn & <-). by exists n.
  - intros (n & -> & Hn). by exists n.
Qed.

Lemma any_node_id_false (state : t) (x : string) :
  Py.any (λ n, NodeData.id n = x) (nodes state) = false ↔ x ∉ node_ids state.
Proof. rewrite <-any_node_id. by destruct (Py.any _ _). Qed.

Lemma length_snoc_1 {A} (l : list A) (x : A) : length (l ++ [x]) = 1 ↔ l = [].
Proof.
  rewrite length_app. cbn. destruct l; cbn; split; try done; lia.
Qed.

(** The handler of the application on a node that the dialog returned. *)
Lemma new_node_duplicate (state : t) (result : NodeData.t) :
  NodeData.id result ∈ node_ids state →
  ComposerApp.new_node_handle_result state (Some result)
  = Rejected (DuplicateIdentifier (NodeData.id result)) state.
Proof.
  intros Hin%any_node_id. unfold ComposerApp.new_node_handle_result.
  by rewrite Hin.
Qed.

Lemma new_node_first (state : t) (result : NodeData.t) :
  nodes state = [] →
  ComposerApp.new_node_handle_result state (Some result)
  = Updated
      (set_terminal_nodes [NodeData.id result]
         (set_entry_node (Some (NodeData.id result))
            (set_nodes [result] state))).
Proof.
  intros Hnil. unfold ComposerApp.new_node_handle_result.
  rewrite Hnil. cbn. done.
Qed.

Lemma new_node_subsequent (state : t) (result : NodeData.t) :
  nodes state ≠ [] →
  NodeData.id result ∉ node_ids state →
  ComposerApp.new_node_handle_result state (Some result)
  = Updated (set_nodes (nodes state ++ [result]) state).
Proof.
  intros Hne Hnotin%any_node_id_false.
  unfold ComposerApp.new_node_handle_result. rewrite Hnotin. cbn.
  case_decide as Hlen; [|done].
  apply length_snoc_1 in Hlen. done.
Qed.

Lemma new_node_fresh (state : t) (result : NodeData.t) :
  NodeData.id result ∉ node_ids state →
  ∃ state',
    ComposerApp.new_node_handle_result state (Some result) = Updated state'
    ∧ nodes state' = nodes state ++ [result].
Proof.
  intros Hnotin. destruct (decide (nodes state = [])) as [Hnil|Hne].
  - eexists. split; [by apply new_node_first|]. cbn. by rewrite Hnil.
  - eexists. split; [by apply new_node_subsequent|]. done.
Qed.

(** The whole of [action_new_node]: a form with an identifier and a name,
    saved, hands the node it describes to the handler. *)
Lemma action_new_node_saved (state : t) (typed : NodeEditorModal.Inputs) :
  NodeEditorModal.node_id typed ≠ "" →
  NodeEditorModal.node_name typed ≠ "" →
  ∃ result,
    ComposerApp.action_new_node state typed "save"
    = ComposerApp.new_node_handle_result state (Some result)
    ∧ NodeData.id result = NodeEditorModal.node_id typed
    ∧ NodeData.name result = NodeEditorModal.node_name typed.
Proof.
  intros Hid%truthy_str Hname%truthy_str.
  unfold ComposerApp.action_new_node, NodeEditorModal.on_button_pressed.
  cbn. rewrite Hid, Hname. cbn. eexists. split; [done|]. done.
Qed.

(** The import that opens the branches of the wizard: the two dots of
    [..state] lead to [framework.state], which is no module, where the one
    dot of the application, [from .state import ...], leads to
    [framework.composer.state]. *)
Lemma import_state_from_screens :
  Importlib.import_from screens_package 2 "state"
  = inl (ModuleNotFoundError "framework.state").
Proof. by vm_compute. Qed.

Lemma import_generator_from_screens :
  Importlib.import_from screens_package 2 "generator"
  = inl (ModuleNotFoundError "framework.generator").
Proof. by vm_compute. Qed.

Lemma import_state_with_one_dot :
  Importlib.import_from screens_package 1 "state"
  = inr "framework.composer.state".
Proof. by vm_compute. Qed.

(** So every press of "add-node" ends at the import. *)
Lemma node_screen_add_node (state : t) (w : NodeEditorScreen.Inputs) :
  NodeEditorScreen.on_button_pressed state w "add-node"
  = Raised (ModuleNotFoundError "framework.state") state.
Proof.
  unfold NodeEditorScreen.on_button_pressed.
  rewrite decide_True by done. by rewrite import_state_from_screens.
Qed.

Lemma node_screen_state (state : t) (w : NodeEditorScreen.Inputs)
  (button : string) :
  state_of (NodeEditorScreen.on_button_pressed state w button) = state.
Proof.
  destruct (decide (button = "add-node")) as [->|Hb].
  - by rewrite node_screen_add_node.
  - unfold NodeEditorScreen.on_button_pressed. rewrite decide_False by done.
    destruct (decide (button = "next")); [|done].
    by destruct (negb _).
Qed.

(** The lines behind the import: what the branch would do with a module
    [framework.state] in place. *)
Lemma screen_add_blank (state : t) (w : NodeEditorScreen.Inputs) :
  Py.strip (NodeEditorScreen.node_id w) = "" →
  NodeEditorScreen.add_node_pressed state w
  = Rejected (PleaseEnter blank_node_id) state.
Proof.
  intros Hid. unfold NodeEditorScreen.add_node_pressed. cbn.
  by rewrite Hid.
Qed.

Lemma screen_add_duplicate (state : t) (w : NodeEditorScreen.Inputs) :
  Py.strip (NodeEditorScreen.node_id w) ≠ "" →
  Py.strip (NodeEditorScreen.node_id w) ∈ node_ids state →
  NodeEditorScreen.add_node_pressed state w
  = Rejected (DuplicateIdentifier (Py.strip (NodeEditorScreen.node_id w))) state.
Proof.
  intros Hid%truthy_str Hin%any_node_id.
  unfold NodeEditorScreen.add_node_pressed. cbn.
  by rewrite Hid, Hin.
Qed.

Lemma screen_add_first (state : t) (w : NodeEditorScreen.Inputs) :
  Py.strip (NodeEditorScreen.node_id w) ≠ "" →
  nodes state = [] →
  NodeEditorScreen.add_node_pressed state w
  = Updated
      (set_entry_node (Some (Py.strip (NodeEditorScreen.node_id w)))
         (set_nodes [screen_node w] state)).
Proof.
  intros Hid%truthy_str Hnil.
  unfold NodeEditorScreen.add_node_pressed. cbn.
  rewrite Hid, Hnil. cbn. done.
Qed.

Lemma screen_add_subsequent (state : t) (w : NodeEditorScreen.Inputs) :
  Py.strip (NodeEditorScreen.node_id w) ≠ "" →
  nodes state ≠ [] →
  Py.strip (NodeEditorScreen.node_id w) ∉ node_ids state →
  NodeEditorScreen.add_node_pressed state w
  = Updated (set_nodes (nodes state ++ [screen_node w]) state).
Proof.
  intros Hid%truthy_str Hne Hnotin%any_node_id_false.
  unfold NodeEditorScreen.add_node_pressed. cbn.
  rewrite Hid, Hnotin. cbn.
  case_decide as Hlen; [|done].
  apply length_snoc_1 in Hlen. done.
Qed.

(** Behind the import, no line of the branch assigns the terminal nodes,
    which [handle_result] of the application sets with the entry node. *)
Lemma screen_add_terminal_nodes (state : t) (w : NodeEditorScreen.Inputs) :
  terminal_nodes (state_of (NodeEditorScreen.add_node_pressed state w))
  = terminal_nodes state.
Proof.
  destruct (decide (Py.strip (NodeEditorScreen.node_id w) = "")) as [Hid|Hid].
  { by rewrite screen_add_blank. }
  destruct (decide (Py.strip (NodeEditorScreen.node_id w) ∈ node_ids state))
    as [Hin|Hnotin].
  { by rewrite screen_add_duplicate. }
  destruct (decide (nodes state = [])) as [Hnil|Hne].
  - by rewrite screen_add_first.
  - by rewrite screen_add_subsequent.
Qed.

End add_node.

Section entry_and_terminal.
Import ComposerState.

(** In the application the first node becomes the entry node and the only
    terminal node, and a later node changes neither. *)
Lemma new_node_first_entry_terminal (state : t) (result : NodeData.t) :
  nodes state = [] →
  let state' := state_of (ComposerApp.new_node_handle_result state (Some result)) in
  entry_node state' = Some (NodeData.id result)
  ∧ terminal_nodes state' = [NodeData.id result].
Proof. intros Hnil. cbn zeta. by rewrite new_node_first. Qed.

Lemma new_node_subsequent_entry_terminal (state : t) (result : NodeData.t) :
  nodes state ≠ [] →
  let state' := state_of (ComposerApp.new_node_handle_result state (Some result)) in
  entry_node state' = entry_node state
  ∧ terminal_nodes state' = terminal_nodes state.
Proof.
  intros Hne. cbn zeta.
  destruct (decide (NodeData.id result ∈ node_ids state)) as [Hin|Hnotin].
  - by rewrite new_node_duplicate.
  - by rewrite new_node_subsequent.
Qed.

(** C2. In the application, adding the first node to the empty graph sets
    the entry node and the terminal-node list to its identifier. The node
    screen of the wizard, asked for the node "intake" on the empty graph,
    raises [ModuleNotFoundError] at its import: no node is added, the entry
    node stays unset and the terminal-node list stays empty. *)
Theorem wizard_first_node_terminal_nodes :
  let app :=
    state_of (ComposerApp.new_node_handle_result ComposerState.new
                (Some (plain_node "intake"))) in
  let wizard :=
    NodeEditorScreen.on_button_pressed ComposerState.new
      (node_screen_inputs "intake") "add-node" in
  (nodes app = [plain_node "intake"]
   ∧ entry_node app = Some "intake" ∧ terminal_nodes app = ["intake"])
  ∧ wizard = Raised (ModuleNotFoundError "framework.state") ComposerState.new
  ∧ (nodes (state_of wizard) = []
     ∧ entry_node (state_of wizard) = None
     ∧ terminal_nodes (state_of wizard) = []).
Proof.
  cbn zeta. rewrite node_screen_add_node. split_and!; reflexivity.
Qed.

(** C3. In the application, an add-node request whose identifier is that of
    a node of the list ends with [DuplicateIdentifier] and the state it
    started from, and a request whose identifier is new puts its node at the
    end of the list. The node screen of the wizard does neither: whatever
    its form holds, "add-node" raises [ModuleNotFoundError] at its import,
    before the identifier is looked at, and the node list is as it was. *)
Theorem add_node_duplicate_identifier
  (state : t) (result : NodeData.t) (w : NodeEditorScreen.Inputs) :
  let app := ComposerApp.new_node_handle_result state (Some result) in
  let wizard := NodeEditorScreen.on_button_pressed state w "add-node" in
  (NodeData.id result ∈ node_ids state →
     app = Rejected (DuplicateIdentifier (NodeData.id result)) state)
  ∧ (NodeData.id result ∉ node_ids state →
     ∃ state', app = Updated state' ∧ nodes state' = nodes state ++ [result])
  ∧ wizard = Raised (ModuleNotFoundError "framework.state") state
  ∧ ¬ fails_with_duplicate_identifier wizard
  ∧ nodes (state_of wizard) = nodes state.
Proof.
  cbn zeta. rewrite node_screen_add_node. split_and!.
  - apply new_node_duplicate.
  - apply new_node_fresh.
  - done.
  - by intros (? & ? & [=]).
  - done.
Qed.

Lemma add_node_duplicate_identifier_witness :
  ComposerApp.new_node_handle_result simple_support_agent (Some intake_node)
  = Rejected (DuplicateIdentifier "intake") simple_support_agent
  ∧ (∃ state',
       ComposerApp.new_node_handle_result simple_support_agent
         (Some (plain_node "triage")) = Updated state'
       ∧ nodes state' = [intake_node; response_node; plain_node "triage"])
  ∧ NodeEditorScreen.on_button_pressed simple_support_agent
      (node_screen_inputs " intake ") "add-node"
    = Raised (ModuleNotFoundError "framework.state") simple_support_agent
  ∧ NodeEditorScreen.on_button_pressed simple_support_agent
      (node_screen_inputs "triage") "add-node"
    = Raised (ModuleNotFoundError "framework.state") simple_support_agent.
Proof.
  destruct (add_node_duplicate_identifier simple_support_agent intake_node
              (node_screen_inputs " intake ")) as (A & _ & C & _).
  destruct (add_node_duplicate_identifier simple_support_agent
              (plain_node "triage") (node_screen_inputs "triage"))
    as (_ & B & D & _).
  split_and!.
  - apply A. by apply (bool_decide_unpack _).
  - apply B. by apply (bool_decide_unpack _).
  - exact C.
  - exact D.
Defined.

End entry_and_terminal.

(** ** Adding edges *)

Section add_edge.
Import ComposerState.

(** Every press of "add-edge" ends at the import. *)
Lemma edge_screen_add_edge (state : t) (w : EdgeWiringScreen.Inputs) :
  EdgeWiringScreen.on_button_pressed state w "add-edge"
  = Raised (ModuleNotFoundError "framework.state") state.
Proof.
  unfold EdgeWiringScreen.on_button_pressed.
  rewrite decide_True by done. by rewrite import_state_from_screens.
Qed.

Lemma edge_screen_state (state : t) (w : EdgeWiringScreen.Inputs)
  (button : string) :
  state_of (EdgeWiringScreen.on_button_pressed state w button) = state.
Proof.
  destruct (decide (button = "add-edge")) as [->|Hb].
  - by rewrite edge_screen_add_edge.
  - unfold EdgeWiringScreen.on_button_pressed. by rewrite decide_False.
Qed.

(** The lines behind the import: what the branch would do with a module
    [framework.state] in place. *)
Lemma add_edge_blank (state : t) (w : EdgeWiringScreen.Inputs) :
  Py.strip (EdgeWiringScreen.source w) = ""
  ∨ Py.strip (EdgeWiringScreen.target w) = "" →
  EdgeWiringScreen.add_edge_pressed state w
  = Rejected (PleaseEnter blank_source_or_target) state.
Proof.
  intros Hblank. unfold EdgeWiringScreen.add_edge_pressed. cbn zeta.
  destruct Hblank as [->| ->]; [done|].
  by rewrite orb_true_r.
Qed.

Lemma add_edge_unknown_source (state : t) (w : EdgeWiringScreen.Inputs) :
  Py.strip (EdgeWiringScreen.source w) ≠ "" →
  Py.strip (EdgeWiringScreen.target w) ≠ "" →
  Py.strip (EdgeWiringScreen.source w) ∉ node_ids state →
  EdgeWiringScreen.add_edge_pressed state w
  = Rejected
      (UnknownEndpoint source_endpoint (Py.strip (EdgeWiringScreen.source w)))
      state.
Proof.
  intros Hs%truthy_str Ht%truthy_str Hnotin.
  unfold EdgeWiringScreen.add_edge_pressed. cbn zeta. rewrite Hs, Ht. cbn.
  fold (node_ids state). by rewrite bool_decide_eq_false_2.
Qed.

Lemma add_edge_unknown_target (state : t) (w : EdgeWiringScreen.Inputs) :
  Py.strip (EdgeWiringScreen.source w) ≠ "" →
  Py.strip (EdgeWiringScreen.target w) ≠ "" →
  Py.strip (EdgeWiringScreen.source w) ∈ node_ids state →
  Py.strip (EdgeWiringScreen.target w) ∉ node_ids state →
  EdgeWiringScreen.add_edge_pressed state w
  = Rejected
      (UnknownEndpoint target_endpoint (Py.strip (EdgeWiringScreen.target w)))
      state.
Proof.
  intros Hs%truthy_str Ht%truthy_str Hin Hnotin.
  unfold EdgeWiringScreen.add_edge_pressed. cbn zeta. rewrite Hs, Ht. cbn.
  fold (node_ids state).
  rewrite bool_decide_eq_true_2 by done.
  by rewrite bool_decide_eq_false_2.
Qed.

Lemma add_edge_known (state : t) (w : EdgeWiringScreen.Inputs) :
  Py.strip (EdgeWiringScreen.source w) ≠ "" →
  Py.strip (EdgeWiringScreen.target w) ≠ "" →
  Py.strip (EdgeWiringScreen.source w) ∈ node_ids state →
  Py.strip (EdgeWiringScreen.target w) ∈ node_ids state →
  EdgeWiringScreen.add_edge_pressed state w
  = Updated
      (set_edges
         (edges state
          ++ [plain_edge (Py.strip (EdgeWiringScreen.source w))
                         (Py.strip (EdgeWiringScreen.target w))])
         state).
Proof.
  intros Hs%truthy_str Ht%truthy_str Hin Hin'.
  unfold EdgeWiringScreen.add_edge_pressed. cbn zeta. rewrite Hs, Ht. cbn.
  fold (node_ids state).
  by rewrite !bool_decide_eq_true_2.
Qed.

(** C4. Adding an edge never ends with [UnknownEndpoint] and never puts an
    edge in the list: whatever the graph and whatever source and target are
    typed, the press of "add-edge", the one place where the program adds an
    edge, raises [ModuleNotFoundError] at its import, before the endpoints
    are read, and leaves the state as it was. *)
Theorem add_edge_unknown_endpoint (state : t) (w : EdgeWiringScreen.Inputs) :
  let outcome := EdgeWiringScreen.on_button_pressed state w "add-edge" in
  outcome = Raised (ModuleNotFoundError "framework.state") state
  ∧ ¬ fails_with_unknown_endpoint outcome
  ∧ edges (state_of outcome) = edges state
  ∧ state_of outcome = state.
Proof.
  cbn zeta. rewrite edge_screen_add_edge. split_and!; [done| |done..].
  by intros (? & ? & ? & [=]).
Qed.

(** Two requests on the graph intake -> response: an edge between its two
    nodes, and an edge to an identifier that no node has. *)
Lemma edge_screen_examples :
  EdgeWiringScreen.on_button_pressed simple_support_agent
    {| EdgeWiringScreen.source := "response";
       EdgeWiringScreen.target := "intake" |} "add-edge"
  = Raised (ModuleNotFoundError "framework.state") simple_support_agent
  ∧ EdgeWiringScreen.on_button_pressed simple_support_agent
      {| EdgeWiringScreen.source := "intake";
         EdgeWiringScreen.target := "billing" |} "add-edge"
    = Raised (ModuleNotFoundError "framework.state") simple_support_agent.
Proof. split; apply edge_screen_add_edge. Qed.

End add_edge.

(** ** Deleting a node *)

Section delete_node.
Import ComposerState.

Lemma delete_node_no_selection (state : t) (selected_node : option string) :
  selected_node = None ∨ selected_node = Some "" →
  ComposerApp.action_delete_node state selected_node
  = Rejected SelectNodeFirst state.
Proof. by intros [-> | ->]. Qed.

(** C5. Deleting the node of an identifier takes from the node list exactly
    the nodes that carry it and from the edge list exactly the edges that
    start or end at it; the nodes and the edges that stay keep their order,
    and every other field stays as it was, the entry node and the terminal
    nodes also when they name the deleted node. *)
Theorem delete_node_cascades (state : t) (node_id : string) :
  node_id ≠ "" →
  ∃ state',
    ComposerApp.action_delete_node state (Some node_id) = Updated state'
    ∧ nodes state' = filter (λ n, NodeData.id n ≠ node_id) (nodes state)
    ∧ edges state'
      = filter (λ e, EdgeData.source e ≠ node_id ∧ EdgeData.target e ≠ node_id)
          (edges state)
    ∧ entry_node state' = entry_node state
    ∧ terminal_nodes state' = terminal_nodes state
    ∧ agent_name state' = agent_name state
    ∧ agent_description state' = agent_description state
    ∧ output_path state' = output_path state
    ∧ goal state' = goal state
    ∧ default_model state' = default_model state
    ∧ max_tokens state' = max_tokens state
    ∧ selected_tools state' = selected_tools state.
Proof.
  intros Hid%truthy_str. unfold ComposerApp.action_delete_node.
  cbn. rewrite Hid. cbn. eexists. split; [done|]. cbn.
  split_and!; try done.
  - apply list_filter_iff. intros n. split; congruence.
  - apply list_filter_iff. intros e. split; intros [? ?]; split; congruence.
Qed.

Lemma delete_node_cascades_witness :
  ∃ state',
    ComposerApp.action_delete_node abc_graph (Some "B") = Updated state'
    ∧ nodes state' = [plain_node "A"; plain_node "C"]
    ∧ edges state' = []
    ∧ entry_node state' = Some "B"
    ∧ terminal_nodes state' = ["B"].
Proof.
  destruct (delete_node_cascades abc_graph "B") as (s' & Hs' & Hn & He & Hentry & Hterm & _).
  { discriminate. }
  exists s'. split; [done|]. rewrite Hn, He, Hentry, Hterm. done.
Defined.

End delete_node.

(** ** Editing a node *)

Section edit_node.
Import ComposerState.

(** [nodes.index(node)] is the position at which [node] was found by its
    identifier: no earlier node equals it. *)
Lemma index_of_found (l : list NodeData.t) (node_id : string)
  (idx : nat) (node : NodeData.t) :
  list_find (λ n, Some (NodeData.id n) = Some node_id) l = Some (idx, node) →
  Py.index l node = Some idx.
Proof.
  intros (Hlookup & Hid & Hfirst)%list_find_Some.
  unfold Py.index.
  assert (list_find (λ y, y = node) l = Some (idx, node)) as ->; [|done].
  apply list_find_Some. split_and!; [done..|].
  intros j y Hj Hlt ->. by apply (Hfirst j node).
Qed.

Lemma found_of_node_id (state : t) (node_id : string) :
  node_id ∈ node_ids state →
  ∃ idx node,
    list_find (λ n, Some (NodeData.id n) = Some node_id) (nodes state)
    = Some (idx, node)
    ∧ nodes state !! idx = Some node
    ∧ NodeData.id node = node_id
    ∧ ∀ j n, nodes state !! j = Some n → j < idx → NodeData.id n ≠ node_id.
Proof.
  intros (n & -> & Hn)%list_elem_of_fmap.
  destruct (list_find_elem_of (λ m, Some (NodeData.id m) = Some (NodeData.id n))
              (nodes state) n Hn eq_refl) as [[idx node] Hfind].
  exists idx, node. split; [done|].
  apply list_find_Some in Hfind as (Hlookup & [= Hid] & Hfirst).
  split_and!; [done..|].
  intros j m Hj Hlt Heq. apply (Hfirst j m Hj Hlt). by rewrite Heq.
Qed.

(** The dialog, opened on a node with an identifier and saved with a name
    in the form, returns [edited_node]. *)
Lemma node_dialog_saved (node : NodeData.t) (typed : NodeEditorModal.Inputs) :
  NodeData.id node ≠ "" →
  NodeEditorModal.node_name typed ≠ "" →
  let self_node := NodeEditorModal.init (Some node) in
  NodeEditorModal.on_button_pressed self_node
    (NodeEditorModal.fill self_node typed) "save"
  = Dismiss (Some (edited_node node typed)).
Proof.
  intros Hid%truthy_str Hname%truthy_str. cbn zeta.
  unfold NodeEditorModal.on_button_pressed, NodeEditorModal.fill,
    NodeEditorModal.node_id_disabled, NodeEditorModal.init.
  rewrite decide_True by done. cbn. rewrite Hid. cbn. rewrite Hid, Hname. cbn.
  unfold edited_node. do 3 f_equal.
  destruct (NodeEditorModal.node_description typed); by cbn.
Qed.

Lemma node_dialog_blank_name (node : NodeData.t) (typed : NodeEditorModal.Inputs) :
  NodeEditorModal.node_name typed = "" →
  let self_node := NodeEditorModal.init (Some node) in
  NodeEditorModal.on_button_pressed self_node
    (NodeEditorModal.fill self_node typed) "save"
  = Stay (PleaseEnter blank_node_id_or_name).
Proof.
  intros Hname. cbn zeta.
  unfold NodeEditorModal.on_button_pressed, NodeEditorModal.fill.
  rewrite decide_True by done. cbn. rewrite Hname. cbn.
  by rewrite orb_true_r.
Qed.

Lemma action_edit_node_saved (state : t) (node_id : string)
  (typed : NodeEditorModal.Inputs) :
  node_id ≠ "" →
  node_id ∈ node_ids state →
  NodeEditorModal.node_name typed ≠ "" →
  ∃ idx node,
    nodes state !! idx = Some node
    ∧ NodeData.id node = node_id
    ∧ (∀ j n, nodes state !! j = Some n → j < idx → NodeData.id n ≠ node_id)
    ∧ ComposerApp.action_edit_node state (Some node_id) typed "save"
      = Updated (set_nodes (<[idx := edited_node node typed]> (nodes state)) state).
Proof.
  intros Hid Hin Hname.
  destruct (found_of_node_id state node_id Hin)
    as (idx & node & Hfind & Hlookup & Hnode & Hfirst).
  exists idx, node. split_and!; [done..|].
  unfold ComposerApp.action_edit_node, Py.next_or_None.
  cbn [Py.truthy Py.option_truthy]. apply truthy_str in Hid as Hid'.
  rewrite Hid'. cbn [negb]. rewrite Hfind. cbn [fmap option_fmap option_map snd].
  rewrite node_dialog_saved by (done || by rewrite Hnode).
  unfold ComposerApp.edit_node_handle_result.
  by rewrite (index_of_found _ _ _ _ Hfind).
Qed.

(** C6. Updating a node of the graph puts the node that the dialog returns,
    the form with the tool list of the old node, at the position of the old
    one, the first with that identifier: the list keeps its length, every
    other position and the order of the identifiers; the dialog has no
    widget for the tools, and the new node has the tool list of the old
    one. *)
Theorem edit_node_in_place (state : t) (node_id : string)
  (typed : NodeEditorModal.Inputs) :
  node_id ≠ "" →
  node_id ∈ node_ids state →
  NodeEditorModal.node_name typed ≠ "" →
  ∃ idx node,
    nodes state !! idx = Some node
    ∧ NodeData.id node = node_id
    ∧ (∀ j n, nodes state !! j = Some n → j < idx → NodeData.id n ≠ node_id)
    ∧ NodeEditorModal.on_button_pressed (NodeEditorModal.init (Some node))
        (NodeEditorModal.fill (NodeEditorModal.init (Some node)) typed) "save"
      = Dismiss (Some (edited_node node typed))
    ∧ let state' :=
        state_of (ComposerApp.action_edit_node state (Some node_id) typed
                    "save") in
      state' = set_nodes (<[idx := edited_node node typed]> (nodes state)) state
      ∧ nodes state' !! idx = Some (edited_node node typed)
      ∧ (∀ j, j ≠ idx → nodes state' !! j = nodes state !! j)
      ∧ length (nodes state') = length (nodes state)
      ∧ node_ids state' = node_ids state
      ∧ NodeData.id (edited_node node typed) = node_id
      ∧ NodeData.name (edited_node node typed) = NodeEditorModal.node_name typed
      ∧ NodeData.system_prompt (edited_node node typed)
        = NodeEditorModal.system_prompt typed
      ∧ NodeData.tools (edited_node node typed) = NodeData.tools node.
Proof.
  intros Hid Hin Hname.
  destruct (action_edit_node_saved state node_id typed Hid Hin Hname)
    as (idx & node & Hlookup & Hnode & Hfirst & Hedit).
  exists idx, node. split_and!; [done|done|done|..].
  { apply node_dialog_saved; [by rewrite Hnode|done]. }
  cbn zeta. rewrite Hedit. cbn [state_of].
  split_and!; [done|..]; cbn.
  - apply list_lookup_insert_eq. by eapply lookup_lt_Some.
  - intros j Hj. by apply list_lookup_insert_ne.
  - apply length_insert.
  - unfold node_ids. cbn. rewrite list_fmap_insert. cbn.
    apply list_insert_id. rewrite list_lookup_fmap, Hlookup. cbn. by rewrite Hnode.
  - done.
  - done.
  - done.
  - done.
Qed.

Lemma edit_node_in_place_witness :
  nodes (state_of (ComposerApp.action_edit_node router_graph (Some "router")
                     {| NodeEditorModal.node_id := "ignored";
                        NodeEditorModal.node_name := "Dispatcher";
                        NodeEditorModal.system_prompt := "Dispatch the request.";
                        NodeEditorModal.node_description := "" |} "save"))
  = [intake_node;
     {| NodeData.id := "router";
        NodeData.name := "Dispatcher";
        NodeData.description := None;
        NodeData.system_prompt := "Dispatch the request.";
        NodeData.tools := ["web_search"; "send_email"];
        NodeData.node_type := "event_loop";
        NodeData.client_facing := false;
        NodeData.input_keys := [];
        NodeData.output_keys := [] |};
     response_node].
Proof.
  destruct (edit_node_in_place router_graph "router"
              {| NodeEditorModal.node_id := "ignored";
                 NodeEditorModal.node_name := "Dispatcher";
                 NodeEditorModal.system_prompt := "Dispatch the request.";
                 NodeEditorModal.node_description := "" |})
    as (idx & node & Hlookup & Hnode & _ & _ & Hstate & _).
  { discriminate. }
  { by apply (bool_decide_unpack _). }
  { discriminate. }
  assert (idx = 1) as ->.
  { destruct idx as [|[|[|idx]]]; cbn in Hlookup;
      try (injection Hlookup as <-; discriminate Hnode); done. }
  injection Hlookup as <-.
  rewrite Hstate. reflexivity.
Defined.

End edit_node.

Section edit_node_fields.
Import ComposerState.

(** A form that is saved as the dialog composed it. *)
Lemma edited_node_composed (node : NodeData.t) :
  let result := edited_node node (NodeEditorModal.compose node) in
  NodeData.name result = NodeData.name node
  ∧ (NodeData.system_prompt node ≠ "" →
     NodeData.system_prompt result = NodeData.system_prompt node)
  ∧ (NodeData.description node ≠ Some "" →
     NodeData.description result = NodeData.description node).
Proof.
  cbn. split_and!; [done|..].
  - intros Hp%truthy_str. unfold Py.or_. by rewrite Hp.
  - intros Hd. destruct (NodeData.description node) as [d|]; [|done].
    unfold Py.or_. destruct d; [done|]. by cbn.
Qed.

(** C10. Updating a node through the node dialog puts every field that the
    form does not show at its default: [node_type] is "event_loop",
    [client_facing] is false, [input_keys] and [output_keys] are empty,
    whatever the node held. The identifier and the tool list are those of
    the node, and the name, the prompt and the description are those of the
    form, which starts from those of the node. *)
Theorem edit_node_resets_hidden_fields (state : t) (node_id : string)
  (typed : NodeEditorModal.Inputs) :
  node_id ≠ "" →
  node_id ∈ node_ids state →
  NodeEditorModal.node_name typed ≠ "" →
  ∃ idx node result,
    nodes state !! idx = Some node
    ∧ NodeData.id node = node_id
    ∧ nodes (state_of (ComposerApp.action_edit_node state (Some node_id)
                         typed "save")) !! idx = Some result
    ∧ NodeData.node_type result = "event_loop"
    ∧ NodeData.client_facing result = false
    ∧ NodeData.input_keys result = []
    ∧ NodeData.output_keys result = []
    ∧ NodeData.id result = NodeData.id node
    ∧ NodeData.tools result = NodeData.tools node
    ∧ NodeData.name result = NodeEditorModal.node_name typed
    ∧ NodeData.system_prompt result = NodeEditorModal.system_prompt typed
    ∧ NodeData.description result
      = (if decide (NodeEditorModal.node_description typed = "") then None
         else Some (NodeEditorModal.node_description typed))
    ∧ (typed = NodeEditorModal.compose node →
       NodeData.name result = NodeData.name node
       ∧ (NodeData.system_prompt node ≠ "" →
          NodeData.system_prompt result = NodeData.system_prompt node)
       ∧ (NodeData.description node ≠ Some "" →
          NodeData.description result = NodeData.description node)).
Proof.
  intros Hid Hin Hname.
  destruct (action_edit_node_saved state node_id typed Hid Hin Hname)
    as (idx & node & Hlookup & Hnode & _ & Hedit).
  exists idx, node, (edited_node node typed).
  rewrite Hedit. cbn.
  split_and!; try done.
  - apply list_lookup_insert_eq. by eapply lookup_lt_Some.
  - intros ->. apply edited_node_composed.
Qed.

Lemma edit_node_resets_hidden_fields_witness :
  nodes (state_of (ComposerApp.action_edit_node router_graph (Some "router")
                     (NodeEditorModal.compose router_node) "save")) !! 1
  = Some {| NodeData.id := "router";
            NodeData.name := "Router";
            NodeData.description := Some "Routes the request";
            NodeData.system_prompt := "Route the request.";
            NodeData.tools := ["web_search"; "send_email"];
            NodeData.node_type := "event_loop";
            NodeData.client_facing := false;
            NodeData.input_keys := [];
            NodeData.output_keys := [] |}.
Proof.
  destruct (edit_node_resets_hidden_fields router_graph "router"
              (NodeEditorModal.compose router_node))
    as (idx & node & result & Hlookup & Hnode & Hresult & Htype & Hclient
        & Hin & Hout & Hid & Htools & Hname & Hprompt & Hdesc & _).
  { discriminate. }
  { by apply (bool_decide_unpack _). }
  { discriminate. }
  assert (idx = 1) as ->.
  { destruct idx as [|[|[|idx]]]; cbn in Hlookup;
      try (injection Hlookup as <-; discriminate Hnode); done. }
  injection Hlookup as <-.
  rewrite Hresult. destruct result. cbn in *. by subst.
Defined.

End edit_node_fields.

(** ** Saving a goal *)

Section goal.
Import ComposerState.

(** [replace] of one character by one character changes each occurrence
    where it stands. *)
Lemma replace_char (a b : ascii) (s : string) :
  Py.replace (String a "") (String b "") s
  = Py.map_chars (λ c, if decide (c = a) then b else c) s.
Proof.
  assert (∀ s', String.prefix "" s' = true) as Hprefix by (by intros []).
  unfold Py.replace. induction s as [|c s IH]; [done|].
  cbn. destruct (Ascii.ascii_dec a c) as [<-|Hne].
  - rewrite Hprefix. destruct (decide (a = a)); [|done]. cbn. by rewrite IH.
  - destruct (decide (c = a)); [congruence|]. by rewrite IH.
Qed.

(** The identifier that the goal dialog derives is the name, lower-cased,
    with an underscore for each space. *)
Lemma derive_id_spec (name : string) :
  GoalEditorModal.derive_id name = spec_goal_id name.
Proof.
  unfold GoalEditorModal.derive_id, spec_goal_id, Py.lower.
  by rewrite replace_char.
Qed.

Lemma map_chars_length (f : ascii → ascii) (s : string) :
  String.length (Py.map_chars f s) = String.length s.
Proof. induction s; cbn; congruence. Qed.

Lemma spec_goal_id_length (name : string) :
  String.length (spec_goal_id name) = String.length name.
Proof. unfold spec_goal_id. by rewrite !map_chars_length. Qed.

Lemma goal_dialog_saved (w : GoalEditorModal.Inputs) :
  GoalEditorModal.goal_name w ≠ "" →
  GoalEditorModal.on_button_pressed w "save"
  = Dismiss
      (Some {| GoalData.id := spec_goal_id (GoalEditorModal.goal_name w);
               GoalData.name := GoalEditorModal.goal_name w;
               GoalData.description := GoalEditorModal.goal_description w;
               GoalData.success_criteria :=
                 GoalEditorModal.parse_list (GoalEditorModal.success_criteria w);
               GoalData.constraints := [] |}).
Proof.
  intros Hname%truthy_str. unfold GoalEditorModal.on_button_pressed.
  rewrite decide_True by done. cbn zeta. rewrite Hname. cbn [negb].
  by rewrite derive_id_spec.
Qed.

(** Every press of "next" on the goal screen of the wizard ends at the
    import. *)
Lemma goal_screen_next (state : t) (w : GoalDefinitionScreen.Inputs) :
  GoalDefinitionScreen.on_button_pressed state w "next"
  = Raised (ModuleNotFoundError "framework.state") state.
Proof.
  unfold GoalDefinitionScreen.on_button_pressed.
  rewrite decide_True by done. by rewrite import_state_from_screens.
Qed.

Lemma goal_screen_state (state : t) (w : GoalDefinitionScreen.Inputs)
  (button : string) :
  state_of (GoalDefinitionScreen.on_button_pressed state w button) = state.
Proof.
  destruct (decide (button = "next")) as [->|Hb].
  - by rewrite goal_screen_next.
  - unfold GoalDefinitionScreen.on_button_pressed. by rewrite decide_False.
Qed.

(** The lines behind the import keep the identifier as it is typed. *)
Lemma goal_screen_next_pressed (state : t) (w : GoalDefinitionScreen.Inputs) :
  Py.strip (GoalDefinitionScreen.goal_id w) ≠ "" →
  ∃ g,
    GoalDefinitionScreen.next_pressed state w = Updated (set_goal (Some g) state)
    ∧ GoalData.id g = Py.strip (GoalDefinitionScreen.goal_id w).
Proof.
  intros Hid%truthy_str. unfold GoalDefinitionScreen.next_pressed.
  cbn zeta. rewrite Hid. cbn. eexists. split; done.
Qed.

(** C7. The goal dialog, which has no widget for the identifier, derives it
    from the name: lower-cased, each space replaced by an underscore; and
    the goal it returns is put by the application in the place of the goal
    the state held, if any: the field holds no more than one. The goal
    screen of the wizard, where the identifier is typed, saves nothing:
    "next" raises [ModuleNotFoundError] at its import and the goal of the
    state is the one it was. *)
Theorem goal_id_derived_and_goal_replaced (state : t)
  (w : GoalEditorModal.Inputs) (w' : GoalDefinitionScreen.Inputs) :
  GoalEditorModal.goal_name w ≠ "" →
  (∃ g,
     GoalEditorModal.on_button_pressed w "save" = Dismiss (Some g)
     ∧ GoalData.id g = spec_goal_id (GoalEditorModal.goal_name w)
     ∧ GoalData.name g = GoalEditorModal.goal_name w
     ∧ ComposerApp.action_edit_goal state w "save"
       = Updated (set_goal (Some g) state))
  ∧ GoalDefinitionScreen.on_button_pressed state w' "next"
    = Raised (ModuleNotFoundError "framework.state") state
  ∧ goal (state_of (GoalDefinitionScreen.on_button_pressed state w' "next"))
    = goal state.
Proof.
  intros Hname. split_and!.
  - eexists. split; [by apply goal_dialog_saved|]. split_and!; [done..|].
    unfold ComposerApp.action_edit_goal. by rewrite goal_dialog_saved.
  - apply goal_screen_next.
  - by rewrite goal_screen_next.
Qed.

Lemma goal_id_derived_and_goal_replaced_witness :
  (∃ g,
     ComposerApp.action_edit_goal simple_support_agent
       {| GoalEditorModal.goal_name := "Customer Support Goal";
          GoalEditorModal.goal_description := "Answer customers";
          GoalEditorModal.success_criteria := "response_quality, resolution_speed" |}
       "save"
     = Updated (set_goal (Some g) simple_support_agent)
     ∧ GoalData.id g = "customer_support_goal")
  ∧ goal (state_of
            (GoalDefinitionScreen.on_button_pressed simple_support_agent
               {| GoalDefinitionScreen.goal_id := "resolve_tickets";
                  GoalDefinitionScreen.goal_description := "";
                  GoalDefinitionScreen.success_criteria := "" |} "next"))
    = Some support_goal.
Proof.
  destruct (goal_id_derived_and_goal_replaced simple_support_agent
              {| GoalEditorModal.goal_name := "Customer Support Goal";
                 GoalEditorModal.goal_description := "Answer customers";
                 GoalEditorModal.success_criteria :=
                   "response_quality, resolution_speed" |}
              {| GoalDefinitionScreen.goal_id := "resolve_tickets";
                 GoalDefinitionScreen.goal_description := "";
                 GoalDefinitionScreen.success_criteria := "" |})
    as ((g & _ & Hg & _ & Hedit) & _ & Hwizard).
  { discriminate. }
  split.
  - exists g. split; [exact Hedit|]. rewrite Hg. reflexivity.
  - rewrite Hwizard. reflexivity.
Defined.

End goal.

(** ** The file system *)

Section file_system.
Implicit Types (fs : Fs.t) (p q : Path).

Lemma dirs_kept_refl fs : dirs_kept fs fs.
Proof. by intros p. Qed.

Lemma dirs_kept_trans fs1 fs2 fs3 :
  dirs_kept fs1 fs2 → dirs_kept fs2 fs3 → dirs_kept fs1 fs3.
Proof. intros H12 H23 p Hp. by apply H23, H12. Qed.

Lemma dirs_kept_insert_dir fs p : dirs_kept fs (<[p := Fs.Dir]> fs).
Proof.
  intros q Hq. destruct (decide (p = q)) as [->|Hne].
  - apply lookup_insert_eq.
  - by rewrite lookup_insert_ne.
Qed.

Lemma dirs_kept_insert_file fs p content :
  fs !! p ≠ Some Fs.Dir → dirs_kept fs (<[p := Fs.File content]> fs).
Proof.
  intros Hp q Hq. destruct (decide (p = q)) as [->|Hne]; [done|].
  by rewrite lookup_insert_ne.
Qed.

Lemma files_kept_refl fs : files_kept fs fs.
Proof. by intros p content. Qed.

Lemma files_kept_trans fs1 fs2 fs3 :
  files_kept fs1 fs2 → files_kept fs2 fs3 → files_kept fs1 fs3.
Proof. intros H12 H23 p content. etrans; [apply H23|apply H12]. Qed.

Lemma files_kept_insert_dir fs p :
  fs !! p = None → files_kept fs (<[p := Fs.Dir]> fs).
Proof.
  intros Hp q content. destruct (decide (p = q)) as [->|Hne].
  - rewrite lookup_insert_eq, Hp. split; discriminate.
  - by rewrite lookup_insert_ne.
Qed.

Lemma is_dir_lookup_path fs p :
  Fs.is_dir fs p = true ↔ Fs.lookup_path fs p = inr Fs.Dir.
Proof.
  unfold Fs.is_dir. destruct (Fs.lookup_path fs p) as [e|[|content]];
    split; congruence.
Qed.

Lemma is_dir_root fs : Fs.is_dir fs [] = true.
Proof. done. Qed.

Lemma is_dir_cons fs name up :
  Fs.is_dir fs (name :: up) = true
  ↔ Fs.is_dir fs up = true ∧ fs !! (name :: up) = Some Fs.Dir.
Proof.
  rewrite !is_dir_lookup_path. cbn [Fs.lookup_path].
  destruct (Fs.lookup_path fs up) as [e|[|content]].
  - split; [discriminate|]. by intros [[=] _].
  - destruct (fs !! (name :: up)) as [[|content]|]; split; try discriminate;
      try done; by intros [_ [=]].
  - split; [discriminate|]. by intros [[=] _].
Qed.

Lemma is_dir_mono fs fs' p :
  dirs_kept fs fs' → Fs.is_dir fs p = true → Fs.is_dir fs' p = true.
Proof.
  intros Hkept. induction p as [|name up IH]; [done|].
  rewrite !is_dir_cons. intros [Hup Hp]. split; [by apply IH|by apply Hkept].
Qed.

(** [os.mkdir] makes the directory when its parent is one and nothing is
    there. *)
Lemma os_mkdir_inr fs p fs' :
  Fs.os_mkdir fs p = inr fs' →
  p ≠ [] ∧ Fs.is_dir fs (parent p) = true ∧ fs !! p = None
  ∧ fs' = <[p := Fs.Dir]> fs.
Proof.
  destruct p as [|name up]; [discriminate|]. cbn [Fs.os_mkdir parent tail].
  rewrite is_dir_lookup_path.
  destruct (Fs.lookup_path fs up) as [e|[|content]]; try discriminate.
  destruct (fs !! (name :: up)) as [entry|]; [discriminate|].
  by intros [= <-].
Qed.

Lemma os_mkdir_existing fs p :
  Fs.is_dir fs p = true → Fs.os_mkdir fs p = inl EEXIST.
Proof.
  destruct p as [|name up]; [done|].
  intros [Hup Hp]%is_dir_cons. apply is_dir_lookup_path in Hup.
  cbn [Fs.os_mkdir]. by rewrite Hup, Hp.
Qed.

Lemma os_mkdir_is_dir fs p fs' :
  Fs.os_mkdir fs p = inr fs' →
  Fs.is_dir fs' p = true ∧ dirs_kept fs fs' ∧ files_kept fs fs'.
Proof.
  intros (Hne & Hup & Hp & ->)%os_mkdir_inr.
  destruct p as [|name up]; [done|]. cbn in Hup.
  split_and!.
  - apply is_dir_cons. split.
    + eapply is_dir_mono; [apply dirs_kept_insert_dir|done].
    + apply lookup_insert_eq.
  - apply dirs_kept_insert_dir.
  - by apply files_kept_insert_dir.
Qed.

(** Making a directory that is there is not an error with [exist_ok]. *)
Lemma mkdir_existing fs p :
  Fs.is_dir fs p = true → Fs.mkdir true fs p = inr fs.
Proof.
  intros Hp. unfold Fs.mkdir. rewrite os_mkdir_existing by done.
  by rewrite Hp.
Qed.

Lemma mkdir_parents_existing fs p :
  Fs.is_dir fs p = true → Fs.mkdir_parents true fs p = inr fs.
Proof.
  intros Hp. destruct p as [|name up]; cbn [Fs.mkdir_parents];
    rewrite os_mkdir_existing by done; by rewrite Hp.
Qed.

Lemma mkdir_inr fs p fs' :
  Fs.mkdir true fs p = inr fs' →
  Fs.is_dir fs' p = true ∧ dirs_kept fs fs' ∧ files_kept fs fs'.
Proof.
  unfold Fs.mkdir. destruct (Fs.os_mkdir fs p) as [e|fs1] eqn:Hos.
  - destruct e; try discriminate; cbn;
      destruct (Fs.is_dir fs p) eqn:Hp; try discriminate;
      intros [= <-]; auto using dirs_kept_refl, files_kept_refl.
  - intros [= <-]. by apply os_mkdir_is_dir.
Qed.

Lemma mkdir_parents_inr fs p fs' :
  Fs.mkdir_parents true fs p = inr fs' →
  Fs.is_dir fs' p = true ∧ dirs_kept fs fs' ∧ files_kept fs fs'.
Proof.
  revert fs fs'. induction p as [|name up IH]; intros fs fs'.
  - cbn. intros [= <-]. auto using dirs_kept_refl, files_kept_refl.
  - cbn [Fs.mkdir_parents].
    destruct (Fs.os_mkdir fs (name :: up)) as [e|fs1] eqn:Hos.
    + destruct e.
      * destruct (Fs.mkdir_parents true fs up) as [e|fs1] eqn:Hup;
          [discriminate|].
        intros (Hdir & Hd & Hf)%mkdir_inr.
        destruct (IH _ _ Hup) as (_ & Hd1 & Hf1).
        eauto using dirs_kept_trans, files_kept_trans.
      * cbn. destruct (Fs.is_dir fs (name :: up)) eqn:Hp; [|discriminate].
        intros [= <-]. auto using dirs_kept_refl, files_kept_refl.
      * cbn. destruct (Fs.is_dir fs (name :: up)) eqn:Hp; [|discriminate].
        intros [= <-]. auto using dirs_kept_refl, files_kept_refl.
      * cbn. destruct (Fs.is_dir fs (name :: up)) eqn:Hp; [|discriminate].
        intros [= <-]. auto using dirs_kept_refl, files_kept_refl.
    + intros [= <-]. by apply os_mkdir_is_dir.
Qed.

(** [write_text] writes when the parent is a directory and the path is
    not one. *)
Lemma write_text_inr fs p content fs' :
  Fs.write_text fs p content = inr fs' →
  p ≠ [] ∧ Fs.is_dir fs (parent p) = true ∧ fs !! p ≠ Some Fs.Dir
  ∧ fs' = <[p := Fs.File content]> fs.
Proof.
  destruct p as [|name up]; [discriminate|]. cbn [Fs.write_text parent tail].
  rewrite is_dir_lookup_path.
  destruct (Fs.lookup_path fs up) as [e|[|c]]; try discriminate.
  destruct (fs !! (name :: up)) as [[|c]|]; try discriminate;
    by intros [= <-].
Qed.

Lemma write_text_in_place fs p content fs' :
  Fs.write_text fs p content = inr fs' →
  in_place fs' p content ∧ dirs_kept fs fs'.
Proof.
  intros (Hne & Hup & Hp & ->)%write_text_inr.
  assert (dirs_kept fs (<[p := Fs.File content]> fs)) as Hkept
    by by apply dirs_kept_insert_file.
  split; [|done]. split.
  - by eapply is_dir_mono.
  - apply lookup_insert_eq.
Qed.

Lemma in_place_write_other fs p content q content' fs' :
  in_place fs p content →
  Fs.write_text fs q content' = inr fs' →
  p ≠ q →
  in_place fs' p content.
Proof.
  intros [Hup Hp] Hwrite Hpq.
  destruct (write_text_in_place _ _ _ _ Hwrite) as [_ Hkept].
  apply write_text_inr in Hwrite as (_ & _ & _ & ->).
  split.
  - by eapply is_dir_mono.
  - by rewrite lookup_insert_ne.
Qed.

(** Writing a file that is in place with the same content changes
    nothing. *)
Lemma write_text_again fs p content :
  p ≠ [] → in_place fs p content → Fs.write_text fs p content = inr fs.
Proof.
  intros Hne [Hup Hp]. destruct p as [|name up]; [done|].
  cbn in Hup. apply is_dir_lookup_path in Hup.
  cbn [Fs.write_text]. rewrite Hup, Hp. by rewrite insert_id.
Qed.

End file_system.

(** ** The rendering pipeline *)

Section generate.
Import CodeGenerator.
Implicit Types (fs : Fs.t) (p q : Path) (self : CodeGenerator.t).

Lemma seq_Ok (a b : Run) fs fs' :
  (a >>> b) fs = Ok fs' ↔ ∃ fs1, a fs = Ok fs1 ∧ b fs1 = Ok fs'.
Proof.
  unfold seq. destruct (a fs) as [fs1|e fs1]; split.
  - intros Hb. by exists fs1.
  - by intros (fs2 & [= <-] & Hb).
  - discriminate.
  - by intros (fs2 & [=] & _).
Qed.

Lemma os_call_Ok (f : Fs.t → Errno + Fs.t) fs fs' :
  os_call f fs = Ok fs' ↔ f fs = inr fs'.
Proof.
  unfold os_call. destruct (f fs) as [e|fs1]; split; try discriminate;
    by intros [= <-].
Qed.

Lemma write_template_Ok self template_name p context fs fs' :
  _write_template self template_name p context fs = Ok fs'
  ↔ ∃ content,
      rendered self template_name context = Some content
      ∧ Fs.write_text fs p content = inr fs'.
Proof.
  unfold _write_template, rendered.
  destruct (env self template_name) as [template|]; cbn;
    [|split; [discriminate|by intros (? & [=] & _)]].
  destruct (template context) as [content|];
    [|split; [discriminate|by intros (? & [=] & _)]].
  rewrite os_call_Ok. split.
  - intros Hw. by exists content.
  - by intros (c & [= <-] & Hw).
Qed.

(** [generate] makes the two directories and then goes through
    [render_steps]. *)
Lemma generate_steps self state out fs :
  generate self state out fs
  = (os_call (λ fs, Fs.mkdir_parents true fs out) >>>
     os_call (λ fs, Fs.mkdir true fs ("nodes" :: out)) >>>
     write_all self (context_of state) (render_steps state out)) fs.
Proof.
  unfold generate, render_steps, write_all, seq, when, skip. cbn zeta.
  change (out </> "nodes") with ("nodes" :: out).
  destruct (os_call _ fs) as [fs0|]; [|done].
  destruct (os_call _ fs0) as [fs1|]; [|done].
  cbn [foldr app fst snd].
  repeat match goal with
         | |- context [_write_template ?s ?n ?q ?c ?f] =>
             destruct (_write_template s n q c f); [|done]
         end.
  destruct (Py.truthy (ComposerState.selected_tools state)); cbn [foldr fst snd].
  - by destruct (_write_template _ _ _ _ _).
  - done.
Qed.

Lemma artifacts_of_steps state out :
  (render_steps state out).*2 = artifacts state out.
Proof.
  unfold render_steps, artifacts.
  by destruct (Py.truthy (ComposerState.selected_tools state)).
Qed.

Lemma artifacts_of_names state out :
  artifacts state out = (λ name, name ++ out) <$> artifact_names state.
Proof.
  unfold artifacts, artifact_names.
  by destruct (Py.truthy (ComposerState.selected_tools state)).
Qed.

Lemma artifacts_NoDup state out : NoDup (artifacts state out).
Proof.
  rewrite artifacts_of_names. apply NoDup_fmap_2.
  - intros x y. apply app_inv_tail.
  - unfold artifact_names.
    destruct (Py.truthy (ComposerState.selected_tools state));
      by apply (bool_decide_unpack _).
Qed.

Lemma artifacts_below state out q :
  q ∈ artifacts state out → Fs.below out q ∧ q ≠ [].
Proof.
  rewrite artifacts_of_names.
  intros (name & -> & Hname)%list_elem_of_fmap. split.
  - by apply suffix_app_r.
  - unfold artifact_names in Hname.
    destruct name; [|done]. exfalso. revert Hname.
    destruct (Py.truthy (ComposerState.selected_tools state));
      by apply (bool_decide_unpack _).
Qed.

Lemma artifacts_length state out :
  length (artifacts state out)
  = if Py.truthy (ComposerState.selected_tools state) then 6 else 5.
Proof.
  unfold artifacts. by destruct (Py.truthy (ComposerState.selected_tools state)).
Qed.

(** A run through steps with distinct files, when it succeeds, leaves
    each file in place with the text of its template, keeps the
    directories, and touches no other path. *)
Lemma write_all_Ok self context (steps : list (string * Path)) fs fs' :
  NoDup steps.*2 →
  write_all self context steps fs = Ok fs' →
  (∀ step, step ∈ steps →
     ∃ content, rendered self step.1 context = Some content
                ∧ in_place fs' step.2 content)
  ∧ dirs_kept fs fs'
  ∧ (∀ q, q ∉ steps.*2 → fs' !! q = fs !! q).
Proof.
  revert fs. induction steps as [|[template_name p] steps IH]; intros fs.
  - intros _ [= <-]. split_and!; [|apply dirs_kept_refl|done].
    intros step Hstep. by apply elem_of_nil in Hstep.
  - cbn [fmap list_fmap snd write_all foldr fst].
    intros [Hp Hnodup]%NoDup_cons.
    intros (fs1 & (content & Hrender & Hwrite)%write_template_Ok & Hrest)%seq_Ok.
    destruct (IH fs1 Hnodup Hrest) as (Hsteps & Hkept & Hother).
    destruct (write_text_in_place _ _ _ _ Hwrite) as [[Hup Hfile] Hkept1].
    split_and!.
    + intros step [->|Hstep]%elem_of_cons; [|by apply Hsteps].
      exists content. split; [done|]. split.
      * by eapply is_dir_mono.
      * cbn. by rewrite Hother.
    + by eapply dirs_kept_trans.
    + intros q [Hqp Hq]%not_elem_of_cons. rewrite Hother by done.
      apply write_text_inr in Hwrite as (_ & _ & _ & ->).
      by rewrite lookup_insert_ne.
Qed.

(** A run through steps whose files are all in place with the text of
    their templates succeeds and changes nothing. *)
Lemma write_all_again self context (steps : list (string * Path)) fs :
  (∀ step, step ∈ steps →
     step.2 ≠ []
     ∧ ∃ content, rendered self step.1 context = Some content
                  ∧ in_place fs step.2 content) →
  write_all self context steps fs = Ok fs.
Proof.
  induction steps as [|[template_name p] steps IH]; [done|].
  intros Hsteps. cbn [write_all foldr fst snd].
  apply seq_Ok. exists fs. split.
  - destruct (Hsteps (template_name, p)) as (Hne & content & Hrender & Hplace);
      [by left|].
    apply write_template_Ok. exists content. split; [done|].
    by apply write_text_again.
  - apply IH. intros step Hstep. apply Hsteps. by right.
Qed.

End generate.

Section rendering_twice.
Import CodeGenerator.
Implicit Types (fs : Fs.t) (p q : Path) (self : CodeGenerator.t).

(** What a run of [generate] that succeeds has done. *)
Lemma generate_Ok self state out fs fs' :
  generate self state out fs = Ok fs' →
  ∃ fs0 fs1,
    Fs.mkdir_parents true fs out = inr fs0
    ∧ Fs.mkdir true fs0 ("nodes" :: out) = inr fs1
    ∧ write_all self (context_of state) (render_steps state out) fs1 = Ok fs'
    ∧ Fs.is_dir fs' out = true
    ∧ Fs.is_dir fs' ("nodes" :: out) = true
    ∧ (∀ step, step ∈ render_steps state out →
         ∃ content, rendered self step.1 (context_of state) = Some content
                    ∧ in_place fs' step.2 content)
    ∧ files_kept fs fs1
    ∧ (∀ q, q ∉ artifacts state out → fs' !! q = fs1 !! q).
Proof.
  rewrite generate_steps.
  intros (fs0 & Hout%os_call_Ok & (fs1 & Hnodes%os_call_Ok & Hsteps)%seq_Ok)%seq_Ok.
  exists fs0, fs1.
  destruct (mkdir_parents_inr _ _ _ Hout) as (Hdir0 & Hd0 & Hf0).
  destruct (mkdir_inr _ _ _ Hnodes) as (Hdir1 & Hd1 & Hf1).
  destruct (write_all_Ok self (context_of state) (render_steps state out) fs1 fs')
    as (Hplace & Hd & Hother); [|done|].
  { rewrite artifacts_of_steps. apply artifacts_NoDup. }
  split_and!; [done..| | | |  |].
  - eapply is_dir_mono; [exact Hd|]. by eapply is_dir_mono.
  - by eapply is_dir_mono.
  - done.
  - by eapply files_kept_trans.
  - intros q Hq. apply Hother. by rewrite artifacts_of_steps.
Qed.

(** C9. When a run of the pipeline on a state and an output location
    succeeds, a second run on what the first has left succeeds too and
    leaves the file system as the first did, so the files at the output
    location are the same: the directories that are there are not made
    again and without an error, and each file is written over with the text
    it has. *)
Theorem generate_twice self state out fs fs1 :
  generate self state out fs = Ok fs1 →
  ∃ fs2,
    generate self state out fs1 = Ok fs2
    ∧ fs2 = fs1
    ∧ Fs.files_below out fs2 = Fs.files_below out fs1
    ∧ Fs.mkdir_parents true fs1 out = inr fs1
    ∧ Fs.mkdir true fs1 (out </> "nodes") = inr fs1.
Proof.
  intros (fs0 & fs' & _ & _ & _ & Hout & Hnodes & Hplace & _)%generate_Ok.
  exists fs1.
  assert (Fs.mkdir_parents true fs1 out = inr fs1) as Hmk1
    by by apply mkdir_parents_existing.
  assert (Fs.mkdir true fs1 ("nodes" :: out) = inr fs1) as Hmk2
    by by apply mkdir_existing.
  split_and!; [|done..].
  rewrite generate_steps.
  apply seq_Ok. exists fs1. split; [by apply os_call_Ok|].
  apply seq_Ok. exists fs1. split; [by apply os_call_Ok|].
  apply write_all_again. intros step Hstep. split; [|by apply Hplace].
  eapply (artifacts_below state out). rewrite <-artifacts_of_steps.
  by apply list_elem_of_fmap_2.
Qed.

Lemma generate_twice_witness :
  ∃ fs1,
    generate stand_in_templates simple_support_agent ["agent"] empty_fs = Ok fs1
    ∧ generate stand_in_templates simple_support_agent ["agent"] fs1 = Ok fs1.
Proof.
  eexists. split; [vm_compute; reflexivity|].
  destruct (generate_twice stand_in_templates simple_support_agent ["agent"] empty_fs _
              ltac:(vm_compute; reflexivity)) as (fs2 & Hgen & -> & _).
  exact Hgen.
Defined.

(** C8. On an output location that holds nothing yet, a run of the pipeline
    that succeeds leaves as regular files there the five core files when no
    tool is selected, and the five and the tool manifest, six files, when
    at least one tool is selected. *)
Theorem generate_artifacts self state out fs fs' :
  Fs.nothing_below out fs →
  generate self state out fs = Ok fs' →
  Fs.files_below out fs' = list_to_set (artifacts state out)
  ∧ (ComposerState.selected_tools state = [] →
     artifacts state out = core_files out
     ∧ size (Fs.files_below out fs') = 5)
  ∧ (ComposerState.selected_tools state ≠ [] →
     artifacts state out = core_files out ++ [tool_manifest out]
     ∧ size (Fs.files_below out fs') = 6).
Proof.
  intros Hfresh (fs0 & fs1 & _ & _ & _ & _ & _ & Hplace & Hkept & Hother)%generate_Ok.
  assert (Fs.files_below out fs' = list_to_set (artifacts state out)) as Hfiles.
  { apply set_eq. intros q. rewrite elem_of_list_to_set.
    unfold Fs.files_below. rewrite elem_of_dom. split.
    - intros [entry (Hq & Hbelow & Hentry)%map_lookup_filter_Some].
      cbn in Hbelow, Hentry.
      destruct (decide (q ∈ artifacts state out)) as [|Hnotin]; [done|].
      exfalso. rewrite Hother in Hq by done.
      destruct entry as [|content]; [done|].
      apply Hkept in Hq. by rewrite Hfresh in Hq.
    - intros Hq. pose proof Hq as [Hbelow _]%artifacts_below.
      rewrite <-artifacts_of_steps in Hq.
      apply list_elem_of_fmap in Hq as (step & -> & Hstep).
      destruct (Hplace step Hstep) as (content & _ & _ & Hfile).
      exists (Fs.File content). by apply map_lookup_filter_Some. }
  split; [done|].
  rewrite Hfiles, size_list_to_set by apply artifacts_NoDup.
  rewrite artifacts_length. unfold artifacts.
  split.
  - intros ->. by cbn.
  - intros Htools%truthy_list. by rewrite Htools.
Qed.

Lemma generate_artifacts_witness :
  ∃ fs',
    generate stand_in_templates simple_support_agent ["agent"] empty_fs = Ok fs'
    ∧ Fs.files_below ["agent"] fs'
      = {[ ["__init__.py"; "agent"]; ["__main__.py"; "agent"];
           ["agent.py"; "agent"]; ["config.py"; "agent"];
           ["__init__.py"; "nodes"; "agent"] ]}
    ∧ size (Fs.files_below ["agent"] fs') = 5.
Proof.
  eexists. split; [vm_compute; reflexivity|].
  destruct (generate_artifacts stand_in_templates simple_support_agent ["agent"] empty_fs _
              ltac:(intros q _; apply lookup_empty)
              ltac:(vm_compute; reflexivity)) as (Hfiles & Hnone & _).
  split.
  - rewrite Hfiles. by apply (bool_decide_unpack _).
  - by apply Hnone.
Defined.

(** The example graph on an empty file system: five files without a tool,
    not six; six with a tool, not seven. *)
Lemma generate_artifacts_not_six_and_seven :
  (∃ fs',
     generate stand_in_templates simple_support_agent ["agent"] empty_fs = Ok fs'
     ∧ ComposerState.is_complete simple_support_agent = true
     ∧ ComposerState.selected_tools simple_support_agent = []
     ∧ size (Fs.files_below ["agent"] fs') = 5
     ∧ size (Fs.files_below ["agent"] fs') ≠ 6)
  ∧ (∃ fs',
       generate stand_in_templates simple_support_agent_with_tool ["agent"] empty_fs
       = Ok fs'
       ∧ ComposerState.is_complete simple_support_agent_with_tool = true
       ∧ ComposerState.selected_tools simple_support_agent_with_tool = ["jira"]
       ∧ size (Fs.files_below ["agent"] fs') = 6
       ∧ size (Fs.files_below ["agent"] fs') ≠ 7).
Proof.
  split; eexists; (split; [vm_compute; reflexivity|]);
    split_and!; try reflexivity; vm_compute; discriminate.
Qed.

(** An output location that is taken by a regular file: the first run
    fails. *)
Lemma generate_fails_on_a_file :
  ComposerState.is_complete simple_support_agent = true
  ∧ generate stand_in_templates simple_support_agent ["agent"]
      fs_with_file_at_agent
    = Fail (OSError EEXIST) fs_with_file_at_agent
  ∧ ¬ ∃ fs1,
        generate stand_in_templates simple_support_agent ["agent"]
          fs_with_file_at_agent = Ok fs1.
Proof.
  assert (generate stand_in_templates simple_support_agent ["agent"]
            fs_with_file_at_agent
          = Fail (OSError EEXIST) fs_with_file_at_agent) as Hfail
    by (vm_compute; reflexivity).
  split_and!; [reflexivity|exact Hfail|].
  intros [fs1 Hok]. rewrite Hfail in Hok. discriminate.
Qed.

End rendering_twice.

(** ** Looking a node up *)

Section lookup.
Import ComposerState.

Lemma find_node_list_find (node_id : string) (l : list NodeData.t) :
  find_node node_id l = snd <$> list_find (λ n, NodeData.id n = node_id) l.
Proof.
  induction l as [|node l IH]; [done|].
  cbn. destruct (decide (NodeData.id node = node_id)); [done|].
  rewrite IH. by destruct (list_find _ l) as [[idx n']|].
Qed.

(** [get_node_by_id] finds nothing exactly when no node has the identifier,
    and what it finds is the first node of the list that has it. *)
Theorem get_node_by_id_first (state : t) (node_id : string) :
  (get_node_by_id state node_id = None ↔ node_id ∉ node_ids state)
  ∧ (∀ node,
       get_node_by_id state node_id = Some node →
       ∃ idx,
         nodes state !! idx = Some node
         ∧ NodeData.id node = node_id
         ∧ ∀ j n, nodes state !! j = Some n → j < idx →
                  NodeData.id n ≠ node_id).
Proof.
  unfold get_node_by_id. rewrite find_node_list_find. split.
  - rewrite fmap_None, list_find_None, Forall_forall.
    unfold node_ids. rewrite list_elem_of_fmap. split.
    + intros Hall (n & -> & Hn). by apply (Hall n).
    + intros Hnone n Hn Hid. apply Hnone. by exists n.
  - intros node ([idx n] & Hfind & ->)%fmap_Some. cbn.
    apply list_find_Some in Hfind as (Hlookup & Hid & Hfirst).
    exists idx. split_and!; [done..|].
    intros j m Hj Hlt. by apply (Hfirst j m).
Qed.

Lemma get_node_by_id_first_witness :
  get_node_by_id router_graph "router" = Some router_node
  ∧ get_node_by_id router_graph "billing" = None.
Proof.
  destruct (get_node_by_id_first router_graph "billing") as [Hnone _].
  split; [reflexivity|]. apply Hnone. by apply (bool_decide_unpack _).
Defined.

End lookup.

(** ** What every handler keeps *)

Section handlers.
Import ComposerState.

Lemma graph_ok_ext (s s' : t) :
  node_ids s' = node_ids s →
  edges s' = edges s →
  entry_node s' = entry_node s →
  graph_ok s → graph_ok s'.
Proof.
  intros Hids Hedges Hentry [Hu Hb He Hn Hs].
  split; unfold edges_wellformed in *; rewrite ?Hids, ?Hedges, ?Hentry;
    try done.
  intros Hne. apply Hs. intros Hnil. apply Hne.
  unfold node_ids in Hids. rewrite Hnil in Hids. by apply fmap_nil_inv in Hids.
Qed.

Lemma node_dialog_other_button (self_node : NodeData.t)
  (w : NodeEditorModal.Inputs) (button : string) :
  button ≠ "save" →
  NodeEditorModal.on_button_pressed self_node w button = Dismiss None.
Proof.
  intros Hb. unfold NodeEditorModal.on_button_pressed.
  by rewrite decide_False.
Qed.

Lemma node_dialog_blank (self_node : NodeData.t) (w : NodeEditorModal.Inputs) :
  NodeEditorModal.node_id w = "" ∨ NodeEditorModal.node_name w = "" →
  NodeEditorModal.on_button_pressed self_node w "save"
  = Stay (PleaseEnter blank_node_id_or_name).
Proof.
  intros Hblank. unfold NodeEditorModal.on_button_pressed.
  rewrite decide_True by done. cbn zeta.
  destruct Hblank as [-> | ->]; [done|]. by rewrite orb_true_r.
Qed.

(** All the ways [action_new_node] ends. *)
Lemma action_new_node_cases (state : t) (typed : NodeEditorModal.Inputs)
  (button : string) :
  let outcome := ComposerApp.action_new_node state typed button in
  outcome = Updated state
  ∨ outcome = Rejected (PleaseEnter blank_node_id_or_name) state
  ∨ (∃ result,
       NodeData.id result = NodeEditorModal.node_id typed
       ∧ NodeData.id result ≠ ""
       ∧ outcome = ComposerApp.new_node_handle_result state (Some result)).
Proof.
  cbn zeta. destruct (decide (button = "save")) as [->|Hb].
  - destruct (decide (NodeEditorModal.node_id typed = "")) as [Hid|Hid];
      [|destruct (decide (NodeEditorModal.node_name typed = "")) as [Hname|Hname]].
    + right; left. unfold ComposerApp.action_new_node.
      rewrite node_dialog_blank; [done|]. by left.
    + right; left. unfold ComposerApp.action_new_node.
      rewrite node_dialog_blank; [done|]. by right.
    + right; right.
      destruct (action_new_node_saved state typed Hid Hname)
        as (result & Hout & Hrid & _).
      exists result. split_and!; [done| |done]. by rewrite Hrid.
  - left. unfold ComposerApp.action_new_node.
    by rewrite node_dialog_other_button.
Qed.

(** All the ways the handler of a returned node ends. *)
Lemma new_node_handle_result_cases (state : t) (result : NodeData.t) :
  let outcome := ComposerApp.new_node_handle_result state (Some result) in
  (NodeData.id result ∈ node_ids state
   ∧ outcome = Rejected (DuplicateIdentifier (NodeData.id result)) state)
  ∨ ((NodeData.id result ∉ node_ids state)
     ∧ nodes state = []
     ∧ outcome
       = Updated
           (set_terminal_nodes [NodeData.id result]
              (set_entry_node (Some (NodeData.id result))
                 (set_nodes [result] state))))
  ∨ ((NodeData.id result ∉ node_ids state)
     ∧ nodes state ≠ []
     ∧ outcome = Updated (set_nodes (nodes state ++ [result]) state)).
Proof.
  cbn zeta.
  destruct (decide (NodeData.id result ∈ node_ids state)) as [Hin|Hnotin].
  { left. split; [done|]. by apply new_node_duplicate. }
  right. destruct (decide (nodes state = [])) as [Hnil|Hne].
  - left. split_and!; [done..|]. by apply new_node_first.
  - right. split_and!; [done..|]. by apply new_node_subsequent.
Qed.

(** All the ways [action_edit_node] ends, up to the refresh of the tree:
    [nodes.index] finds the node. *)
Lemma action_edit_node_cases (state : t) (selected_node : option string)
  (typed : NodeEditorModal.Inputs) (button : string) :
  let outcome :=
    ComposerApp.action_edit_node state selected_node typed button in
  outcome = Updated state
  ∨ outcome = Rejected SelectNodeFirst state
  ∨ outcome = Rejected (PleaseEnter blank_node_id_or_name) state
  ∨ (∃ node_id idx node,
       selected_node = Some node_id
       ∧ node_id ≠ ""
       ∧ nodes state !! idx = Some node
       ∧ NodeData.id node = node_id
       ∧ outcome
         = Updated
             (set_nodes (<[idx := edited_node node typed]> (nodes state)) state)).
Proof.
  cbn zeta. destruct selected_node as [node_id|]; [|by right; left].
  destruct (decide (node_id = "")) as [->|Hid]; [by right; left|].
  destruct (decide (node_id ∈ node_ids state)) as [Hin|Hnotin].
  - destruct (found_of_node_id state node_id Hin)
      as (idx & node & Hfind & Hlookup & Hnode & _).
    destruct (decide (button = "save")) as [->|Hb];
      [destruct (decide (NodeEditorModal.node_name typed = "")) as [Hname|Hname]|].
    + right; right; left. unfold ComposerApp.action_edit_node, Py.next_or_None.
      cbn [Py.truthy Py.option_truthy]. apply truthy_str in Hid as ->.
      cbn [negb]. rewrite Hfind. cbn [fmap option_fmap option_map snd].
      by rewrite node_dialog_blank_name.
    + right; right; right.
      destruct (action_edit_node_saved state node_id typed Hid Hin Hname)
        as (idx' & node' & Hlookup' & Hnode' & _ & Hedit).
      by exists node_id, idx', node'.
    + left. unfold ComposerApp.action_edit_node, Py.next_or_None.
      cbn [Py.truthy Py.option_truthy]. apply truthy_str in Hid as ->.
      cbn [negb]. rewrite Hfind. cbn [fmap option_fmap option_map snd].
      by rewrite node_dialog_other_button.
  - left. unfold ComposerApp.action_edit_node, Py.next_or_None.
    cbn [Py.truthy Py.option_truthy]. apply truthy_str in Hid as ->.
    cbn [negb].
    assert (list_find (λ n, Some (NodeData.id n) = Some node_id) (nodes state)
            = None) as ->; [|done].
    apply list_find_None, Forall_forall. intros n Hn [= Heq].
    apply Hnotin. unfold node_ids. apply list_elem_of_fmap. by exists n.
Qed.

Lemma node_ids_insert_same (state : t) (idx : nat) (node result : NodeData.t) :
  nodes state !! idx = Some node →
  NodeData.id result = NodeData.id node →
  node_ids (set_nodes (<[idx := result]> (nodes state)) state) = node_ids state.
Proof.
  intros Hlookup Hid. unfold node_ids. cbn. rewrite list_fmap_insert.
  apply list_insert_id. rewrite list_lookup_fmap, Hlookup. cbn. by rewrite Hid.
Qed.

Lemma edit_node_frame (state : t)
  (selected_node : option string) (typed : NodeEditorModal.Inputs)
  (button : string) :
  let outcome :=
    ComposerApp.action_edit_node state selected_node typed button in
  (∀ e s, outcome ≠ Raised e s)
  ∧ node_ids (state_of outcome) = node_ids state
  ∧ length (nodes (state_of outcome)) = length (nodes state)
  ∧ state_of outcome = set_nodes (nodes (state_of outcome)) state.
Proof.
  cbn zeta.
  destruct (action_edit_node_cases state selected_node typed button)
    as [-> | [-> | [-> | (node_id & idx & node & _ & _ & Hlookup & Hnode & ->)]]];
    cbn [state_of].
  1-3: by destruct state.
  split_and!; [done| |cbn; apply length_insert|done].
  by eapply node_ids_insert_same.
Qed.

End handlers.

Section graph_invariant.
Import ComposerState.

Lemma filter_all {A} (P : A → Prop) `{∀ x, Decision (P x)} (l : list A) :
  Forall P l → filter P l = l.
Proof.
  induction 1 as [|x l Hx Hl IH]; [done|].
  by rewrite filter_cons_True, IH.
Qed.

Lemma node_ids_filter (node_id : string) (l : list NodeData.t) :
  NodeData.id <$> filter (λ n, NodeData.id n ≠ node_id) l
  = filter (λ y, y ≠ node_id) (NodeData.id <$> l).
Proof.
  induction l as [|n l IH]; [done|]. rewrite fmap_cons.
  destruct (decide (NodeData.id n ≠ node_id)).
  - rewrite !filter_cons_True by done. by rewrite fmap_cons, IH.
  - by rewrite !filter_cons_False.
Qed.

(** What [action_delete_node] leaves for an identifier. *)
Lemma delete_node_result (state : t) (node_id : string) :
  node_id ≠ "" →
  ComposerApp.action_delete_node state (Some node_id)
  = Updated
      (set_edges
         (filter (λ e, EdgeData.source e ≠ node_id ∧ EdgeData.target e ≠ node_id)
                 (edges state))
         (set_nodes (filter (λ n, NodeData.id n ≠ node_id) (nodes state))
            state)).
Proof.
  intros Hid%truthy_str. unfold ComposerApp.action_delete_node.
  cbn. rewrite Hid. cbn. do 2 f_equal.
  - apply list_filter_iff. intros e. split; intros [? ?]; split; congruence.
  - f_equal. apply list_filter_iff. intros n. split; congruence.
Qed.

Lemma delete_node_cases (state : t) (selected_node : option string) :
  let outcome := ComposerApp.action_delete_node state selected_node in
  outcome = Rejected SelectNodeFirst state
  ∨ (∃ node_id,
       selected_node = Some node_id ∧ node_id ≠ ""
       ∧ outcome
         = Updated
             (set_edges
                (filter (λ e, EdgeData.source e ≠ node_id
                              ∧ EdgeData.target e ≠ node_id) (edges state))
                (set_nodes (filter (λ n, NodeData.id n ≠ node_id) (nodes state))
                   state))).
Proof.
  cbn zeta. destruct selected_node as [node_id|]; [|by left].
  destruct (decide (node_id = "")) as [->|Hid]; [by left|].
  right. exists node_id. split_and!; [done..|]. by apply delete_node_result.
Qed.

Lemma graph_ok_new : graph_ok ComposerState.new.
Proof.
  split; cbn.
  - apply NoDup_nil_2.
  - apply not_elem_of_nil.
  - intros e He. by apply elem_of_nil in He.
  - done.
  - done.
Qed.

Lemma graph_ok_snoc (state : t) (node : NodeData.t) (entry : option string) :
  graph_ok state →
  NodeData.id node ≠ "" →
  NodeData.id node ∉ node_ids state →
  entry ≠ Some "" →
  is_Some entry →
  ∀ state',
    nodes state' = nodes state ++ [node] →
    edges state' = edges state →
    entry_node state' = entry →
    graph_ok state'.
Proof.
  intros [Hu Hb He Hn Hs] Hid Hnotin Hentry Hsome state' Hnodes Hedges Hentry'.
  assert (node_ids state' = node_ids state ++ [NodeData.id node]) as Hids.
  { unfold node_ids. by rewrite Hnodes, fmap_app. }
  split.
  - rewrite Hids. apply NoDup_app. split_and!; [done| |apply NoDup_singleton].
    intros x Hx ->%list_elem_of_singleton. done.
  - rewrite Hids. intros [?|Heq%list_elem_of_singleton]%elem_of_app; done.
  - intros e. rewrite Hedges, Hids. intros [? ?]%He.
    split; apply elem_of_app; by left.
  - by rewrite Hentry'.
  - by rewrite Hentry'.
Qed.

Lemma new_node_graph_ok (state : t) (result : NodeData.t) :
  graph_ok state →
  NodeData.id result ≠ "" →
  graph_ok (state_of (ComposerApp.new_node_handle_result state (Some result))).
Proof.
  intros Hok Hid.
  destruct (new_node_handle_result_cases state result)
    as [[_ ->] | [(Hnotin & Hnil & ->) | (Hnotin & Hne & ->)]]; [done|..];
    cbn [state_of].
  - apply (graph_ok_snoc state result (Some (NodeData.id result)));
      [done|done|done|by intros [= ?]|done|by cbn; rewrite Hnil|done|done].
  - apply (graph_ok_snoc state result (entry_node state));
      [done|done|done|apply Hok|by apply Hok|done|done|done].
Qed.

Lemma delete_node_graph_ok (state : t) (selected_node : option string) :
  graph_ok state →
  graph_ok (state_of (ComposerApp.action_delete_node state selected_node)).
Proof.
  intros [Hu Hb He Hn Hset].
  destruct (delete_node_cases state selected_node)
    as [-> | (node_id & _ & _ & ->)]; [done|]. cbn [state_of].
  split; unfold edges_wellformed, node_ids; cbn.
  - rewrite node_ids_filter. by apply NoDup_filter.
  - rewrite node_ids_filter. by intros [_ ?]%list_elem_of_filter.
  - intros e [[Hs Ht] [Hsrc Htgt]%He]%list_elem_of_filter.
    rewrite node_ids_filter. split; by apply list_elem_of_filter.
  - done.
  - intros Hne. apply Hset. intros Hnil. by rewrite Hnil in Hne.
Qed.

(** Every handler keeps a good graph good. *)
Lemma handle_graph_ok (state : t) (ev : Event) :
  graph_ok state → graph_ok (state_of (handle state ev)).
Proof.
  intros Hok. destruct ev; cbn [handle].
  - unfold show_agent_info_modal.
    destruct (AgentInfoModal.on_button_pressed w button) as [n|[[name d]|]];
      cbn; [done| |done].
    by apply (graph_ok_ext state).
  - unfold ComposerApp.on_input_changed.
    repeat case_decide; cbn [state_of]; [..|done];
      by apply (graph_ok_ext state).
  - destruct (action_new_node_cases state typed button)
      as [-> | [-> | (result & _ & Hid & ->)]]; [done..|].
    by apply new_node_graph_ok.
  - destruct (edit_node_frame state selected_node typed button)
      as (_ & Hids & _ & Hstate).
    apply (graph_ok_ext state); [exact Hids|by rewrite Hstate..|done].
  - by apply delete_node_graph_ok.
  - unfold ComposerApp.action_edit_goal.
    destruct (GoalEditorModal.on_button_pressed typed button) as [n|[g|]];
      cbn; [done| |done].
    by apply (graph_ok_ext state).
  - unfold AgentInfoScreen.on_button_pressed.
    destruct (decide (button = "next")); [|done].
    destruct (negb _); cbn; [done|]. by apply (graph_ok_ext state).
  - by rewrite goal_screen_state.
  - by rewrite node_screen_state.
  - by rewrite edge_screen_state.
Qed.

Lemma run_cons (ev : Event) (events : list Event) (state : t) :
  run (ev :: events) state = run events (state_of (handle state ev)).
Proof. done. Qed.

Lemma run_graph_ok (events : list Event) (state : t) :
  graph_ok state → graph_ok (run events state).
Proof.
  revert state. induction events as [|ev events IH]; intros state Hok; [done|].
  rewrite run_cons. by apply IH, handle_graph_ok.
Qed.

(** No handler adds an edge: the edges of a state are among those it
    started with. *)
Lemma handle_edges (state : t) (ev : Event) :
  edges (state_of (handle state ev)) ⊆ edges state.
Proof.
  destruct ev; cbn [handle].
  - unfold show_agent_info_modal.
    by destruct (AgentInfoModal.on_button_pressed w button) as [n|[[name d]|]].
  - unfold ComposerApp.on_input_changed. by repeat case_decide.
  - destruct (action_new_node_cases state typed button)
      as [-> | [-> | (result & _ & Hid & ->)]]; [done..|].
    by destruct (new_node_handle_result_cases state result)
      as [[_ ->] | [(_ & _ & ->) | (_ & _ & ->)]].
  - destruct (edit_node_frame state selected_node typed button)
      as (_ & _ & _ & ->). done.
  - destruct (delete_node_cases state selected_node)
      as [-> | (node_id & _ & _ & ->)]; [done|]. cbn.
    intros e He. by apply list_elem_of_filter in He as [_ He].
  - unfold ComposerApp.action_edit_goal.
    by destruct (GoalEditorModal.on_button_pressed typed button) as [n|[g|]].
  - unfold AgentInfoScreen.on_button_pressed.
    destruct (decide (button = "next")); [|done].
    by destruct (negb _).
  - by rewrite goal_screen_state.
  - by rewrite node_screen_state.
  - by rewrite edge_screen_state.
Qed.

Lemma run_edges (events : list Event) (state : t) :
  edges (run events state) ⊆ edges state.
Proof.
  revert state. induction events as [|ev events IH]; intros state; [done|].
  rewrite run_cons. etrans; [apply IH|apply handle_edges].
Qed.

Lemma graph_ok_simple_support_agent : graph_ok simple_support_agent.
Proof.
  split.
  - by apply (bool_decide_unpack _).
  - by apply (bool_decide_unpack _).
  - intros e ->%list_elem_of_singleton.
    split; by apply (bool_decide_unpack _).
  - done.
  - intros _. by eexists.
Qed.

(** X4. On every state that the handlers reach from the empty one,
    [is_complete] is true exactly when the agent has a name, a goal and at
    least one node: the entry node is then always set. *)
Theorem reachable_is_complete (events : list Event) :
  let state := run events ComposerState.new in
  is_complete state = true
  ↔ agent_name state ≠ "" ∧ is_Some (goal state) ∧ nodes state ≠ [].
Proof.
  cbn zeta.
  destruct (run_graph_ok events ComposerState.new graph_ok_new)
    as [_ _ _ Hblank Hset].
  unfold is_complete.
  rewrite !andb_true_iff, truthy_str, truthy_list.
  assert (Py.truthy (goal (run events ComposerState.new)) = true
          ↔ is_Some (goal (run events ComposerState.new))) as ->.
  { destruct (goal _); cbn; split; done. }
  split; [tauto|]. intros (Hname & Hgoal & Hnodes). split_and!; [done..|].
  destruct (Hset Hnodes) as [e He]. rewrite He in Hblank |- *. cbn.
  apply truthy_str. congruence.
Qed.

(** The three events that make the empty state complete, and a state that
    the handlers do not reach, where a name, a goal and a node are not
    enough. *)
Lemma first_session_complete :
  is_complete (run first_session_events ComposerState.new) = true
  ∧ is_complete (state_with true true true false) = false.
Proof. split; reflexivity. Qed.

End graph_invariant.

(** ** How adding and deleting compose *)

Section add_delete.
Import ComposerState.

Lemma set_nodes_edges_id (state : t) :
  set_edges (edges state) (set_nodes (nodes state) state) = state.
Proof. by destruct state. Qed.

Lemma filter_node_ids_all (node_id : string) (l : list NodeData.t) :
  node_id ∉ (NodeData.id <$> l) →
  filter (λ n, NodeData.id n ≠ node_id) l = l.
Proof.
  intros Hnotin. apply filter_all, Forall_forall. intros n Hn Heq.
  apply Hnotin, list_elem_of_fmap. by exists n.
Qed.

Lemma filter_edges_all (state : t) (node_id : string) :
  edges_wellformed state →
  node_id ∉ node_ids state →
  filter (λ e, EdgeData.source e ≠ node_id ∧ EdgeData.target e ≠ node_id)
         (edges state) = edges state.
Proof.
  intros Hwf Hnotin. apply filter_all, Forall_forall.
  intros e [Hs Ht]%Hwf. split; congruence.
Qed.

(** X5. Deleting the entry node leaves the entry-node field naming it,
    though no node has the identifier any more; and when another node is
    left, the state passes the completeness check as before. *)
Theorem delete_entry_node_dangles (state : t) (node_id : string) :
  node_id ≠ "" →
  entry_node state = Some node_id →
  let state' :=
    state_of (ComposerApp.action_delete_node state (Some node_id)) in
  entry_node state' = Some node_id
  ∧ (node_id ∉ node_ids state')
  ∧ get_node_by_id state' node_id = None
  ∧ (is_complete state = true →
     (∃ n, n ∈ nodes state ∧ NodeData.id n ≠ node_id) →
     is_complete state' = true).
Proof.
  intros Hid Hentry. cbn zeta. rewrite delete_node_result by done.
  cbn [state_of].
  assert (node_id ∉ node_ids
            (set_edges
               (filter (λ e, EdgeData.source e ≠ node_id
                             ∧ EdgeData.target e ≠ node_id) (edges state))
               (set_nodes (filter (λ n, NodeData.id n ≠ node_id) (nodes state))
                  state))) as Hgone.
  { unfold node_ids. cbn. rewrite node_ids_filter.
    by intros [? _]%list_elem_of_filter. }
  split_and!; [done|done| |].
  - unfold get_node_by_id. rewrite find_node_list_find.
    apply fmap_None, list_find_None, Forall_forall. intros n Hn Heq.
    apply Hgone. unfold node_ids. apply list_elem_of_fmap. by exists n.
  - unfold is_complete. cbn.
    rewrite !andb_true_iff. intros [[[Hname Hgoal] Hnodes] He] (n & Hn & Hne).
    split_and!; [done..| |done].
    apply truthy_list. intros Hnil.
    assert (n ∈ filter (λ n, NodeData.id n ≠ node_id) (nodes state)) as Hin
      by by apply list_elem_of_filter.
    rewrite Hnil in Hin. by apply elem_of_nil in Hin.
Qed.

Lemma delete_entry_node_dangles_witness :
  let state' := state_of (ComposerApp.action_delete_node abc_graph (Some "B")) in
  entry_node state' = Some "B" ∧ "B" ∉ node_ids state'.
Proof.
  destruct (delete_entry_node_dangles abc_graph "B") as (He & Hgone & _);
    [discriminate|reflexivity|].
  by split.
Defined.

(** X6. Deleting a node a second time changes nothing, and on a graph whose
    edges start and end at nodes, deleting an identifier that no node has
    changes nothing either. *)
Theorem delete_node_again (state : t) (node_id : string) :
  node_id ≠ "" →
  let once := state_of (ComposerApp.action_delete_node state (Some node_id)) in
  state_of (ComposerApp.action_delete_node once (Some node_id)) = once
  ∧ (edges_wellformed state → node_id ∉ node_ids state → once = state).
Proof.
  intros Hid. cbn zeta. rewrite !delete_node_result by done. cbn [state_of].
  split.
  - unfold set_edges, set_nodes. cbn. f_equal.
    + apply filter_all, Forall_forall.
      by intros n [? _]%list_elem_of_filter.
    + apply filter_all, Forall_forall.
      by intros e [? _]%list_elem_of_filter.
  - intros Hwf Hnotin.
    rewrite filter_edges_all, filter_node_ids_all by done.
    apply set_nodes_edges_id.
Qed.

Lemma delete_node_again_witness :
  state_of (ComposerApp.action_delete_node simple_support_agent (Some "billing"))
  = simple_support_agent.
Proof.
  apply (delete_node_again simple_support_agent "billing"); [discriminate| |].
  - intros e He. revert e He. apply Forall_forall.
    by apply (bool_decide_unpack _).
  - by apply (bool_decide_unpack _).
Defined.

(** X7. On a graph that has a node and whose edges start and end at nodes,
    adding a node with a new identifier and deleting it gives the state
    back. On the empty graph the node list is empty again, and the entry
    node and the terminal nodes keep naming the node that is gone. *)
Theorem add_then_delete (state : t) (result : NodeData.t) :
  NodeData.id result ≠ "" →
  NodeData.id result ∉ node_ids state →
  edges_wellformed state →
  let added :=
    state_of (ComposerApp.new_node_handle_result state (Some result)) in
  let deleted :=
    state_of (ComposerApp.action_delete_node added (Some (NodeData.id result))) in
  (nodes state ≠ [] → deleted = state)
  ∧ (nodes state = [] →
     deleted
     = set_terminal_nodes [NodeData.id result]
         (set_entry_node (Some (NodeData.id result)) state)).
Proof.
  intros Hid Hnotin Hwf. cbn zeta. split.
  - intros Hne. rewrite new_node_subsequent by done. cbn [state_of].
    rewrite delete_node_result by done. cbn [state_of].
    unfold set_edges, set_nodes. cbn [nodes edges].
    rewrite filter_app, filter_node_ids_all by done.
    rewrite filter_cons_False, filter_nil, app_nil_r by (intros ?; done).
    rewrite filter_edges_all by done. by destruct state.
  - intros Hnil. rewrite new_node_first by done. cbn [state_of].
    rewrite delete_node_result by done. cbn [state_of].
    unfold set_edges, set_nodes, set_entry_node, set_terminal_nodes.
    cbn [nodes edges].
    rewrite filter_cons_False, filter_nil by (intros ?; done).
    rewrite filter_edges_all by done. destruct state. cbn in *. by subst.
Qed.

Lemma add_then_delete_witness :
  state_of
    (ComposerApp.action_delete_node
       (state_of (ComposerApp.new_node_handle_result simple_support_agent
                    (Some router_node)))
       (Some "router"))
  = simple_support_agent.
Proof.
  apply (add_then_delete simple_support_agent router_node).
  - discriminate.
  - by apply (bool_decide_unpack _).
  - intros e He. revert e He. apply Forall_forall.
    by apply (bool_decide_unpack _).
  - discriminate.
Defined.

(** X8. Whatever is typed and pressed, [action_new_node] keeps the nodes
    that are there, in their places, and adds at most one at the end; it
    changes no goal and no edge, and on a graph that has a node it changes
    nothing but the node list. *)
Theorem new_node_keeps_nodes (state : t) (typed : NodeEditorModal.Inputs)
  (button : string) :
  let state' := state_of (ComposerApp.action_new_node state typed button) in
  (∃ added, nodes state' = nodes state ++ added ∧ length added ≤ 1)
  ∧ edges state' = edges state
  ∧ goal state' = goal state
  ∧ agent_name state' = agent_name state
  ∧ (nodes state ≠ [] → state' = set_nodes (nodes state') state).
Proof.
  cbn zeta.
  assert (∀ s, s = state →
            (∃ added, nodes s = nodes state ++ added ∧ length added ≤ 1)
            ∧ edges s = edges state ∧ goal s = goal state
            ∧ agent_name s = agent_name state
            ∧ (nodes state ≠ [] → s = set_nodes (nodes s) state)) as Hsame.
  { intros s ->. split_and!; try done.
    - exists []. rewrite app_nil_r. split; [done|cbn; lia].
    - intros _. by destruct state. }
  destruct (action_new_node_cases state typed button)
    as [-> | [-> | (result & _ & _ & ->)]]; [by apply Hsame..|].
  destruct (new_node_handle_result_cases state result)
    as [[_ ->] | [(_ & Hnil & ->) | (_ & Hne & ->)]]; [by apply Hsame|..];
    cbn [state_of]; cbn.
  - split_and!; try done. exists [result]. by rewrite Hnil.
  - split_and!; try done. by exists [result].
Qed.

End add_delete.

(** ** Generating: what is checked first, and what is touched *)

Section generate_checks.
Import ComposerState CodeGenerator.
Implicit Types (fs : Fs.t) (p q : Path) (self : CodeGenerator.t).

(** Every press of "generate" on the review screen of the wizard ends at
    the import of the generator. *)
Lemma review_screen_generate (generator : CodeGenerator.t) (cwd : Path)
  (state : ComposerState.t) fs :
  ReviewScreen.generate_pressed generator cwd state fs
  = GenerationRaised (ModuleNotFoundError "framework.generator") fs.
Proof.
  unfold ReviewScreen.generate_pressed.
  by rewrite import_generator_from_screens.
Qed.

(** X9. The four checks of [action_generate] are [is_complete]: a
    generation is turned away as incomplete exactly when [is_complete] is
    false, and then no file is touched. The review screen of the wizard
    never comes to its check: "generate" raises [ModuleNotFoundError] at
    the import of the generator, whatever the state, and touches no file. *)
Theorem generate_checks_completeness (generator : CodeGenerator.t)
  (agent_path : option Path) (cwd : Path) (state : ComposerState.t) fs :
  (is_complete state = false
   ↔ ∃ what,
       ComposerAppGenerate.action_generate generator agent_path cwd state fs
       = NotGenerated (IncompleteGraph what) fs)
  ∧ (∀ what fs',
       ComposerAppGenerate.action_generate generator agent_path cwd state fs
       = NotGenerated (IncompleteGraph what) fs' → fs' = fs)
  ∧ ReviewScreen.generate_pressed generator cwd state fs
    = GenerationRaised (ModuleNotFoundError "framework.generator") fs.
Proof.
  split_and!; [..|apply review_screen_generate];
    unfold ComposerAppGenerate.action_generate, is_complete;
    destruct (Py.truthy (agent_name state)), (Py.truthy (nodes state)),
      (Py.truthy (goal state)), (Py.truthy (entry_node state)); cbn;
    repeat match goal with
      | |- context [generate ?g ?s ?o ?f] => destruct (generate g s o f)
      end;
    try (split; [discriminate|by intros [? [=]]]);
    try (split; [by eexists|done]);
    try done;
    try (by intros ? ? [=]).
Qed.

Lemma write_template_Fail self template_name p context fs e fs' :
  _write_template self template_name p context fs = Fail e fs' →
  fs' = fs
  ∧ ((e = TemplateNotFound template_name ∨ e = TemplateError template_name)
     ∨ ∃ errno, e = OSError errno).
Proof.
  unfold _write_template, os_call.
  destruct (env self template_name) as [template|];
    [|intros [= <- <-]; split; [done|]; left; by left].
  destruct (template context) as [content|];
    [|intros [= <- <-]; split; [done|]; left; by right].
  destruct (Fs.write_text fs p content) as [errno|fs1]; [|discriminate].
  intros [= <- <-]. split; [done|]. right. by exists errno.
Qed.

Lemma os_mkdir_frame fs p fs' :
  Fs.os_mkdir fs p = inr fs' →
  ∀ q, fs' !! q = fs !! q
       ∨ (q = p ∧ fs !! q = None ∧ fs' !! q = Some Fs.Dir).
Proof.
  intros (_ & _ & Hnone & ->)%os_mkdir_inr q.
  destruct (decide (q = p)) as [->|Hne].
  - right. by rewrite lookup_insert_eq.
  - left. by rewrite lookup_insert_ne.
Qed.

Lemma mkdir_frame fs p fs' :
  Fs.mkdir true fs p = inr fs' →
  ∀ q, fs' !! q = fs !! q
       ∨ (q = p ∧ fs !! q = None ∧ fs' !! q = Some Fs.Dir).
Proof.
  unfold Fs.mkdir. destruct (Fs.os_mkdir fs p) as [e|fs1] eqn:Hos.
  - destruct e; try discriminate; cbn;
      destruct (Fs.is_dir fs p); try discriminate; intros [= <-] q; by left.
  - intros [= <-]. by apply os_mkdir_frame.
Qed.

Lemma mkdir_parents_frame fs p fs' :
  Fs.mkdir_parents true fs p = inr fs' →
  ∀ q, fs' !! q = fs !! q
       ∨ (q `suffix_of` p ∧ fs !! q = None ∧ fs' !! q = Some Fs.Dir).
Proof.
  revert fs fs'. induction p as [|name up IH]; intros fs fs'.
  - cbn. intros [= <-] q. by left.
  - cbn [Fs.mkdir_parents].
    destruct (Fs.os_mkdir fs (name :: up)) as [e|fs1] eqn:Hos.
    + destruct e.
      * destruct (Fs.mkdir_parents true fs up) as [e|fs1] eqn:Hup;
          [discriminate|].
        intros Hmk q.
        destruct (IH _ _ Hup q) as [Hq1|(Hsuf & Hnone & Hdir)];
          destruct (mkdir_frame _ _ _ Hmk q) as [Hq2|(-> & Hnone2 & Hdir2)].
        -- left. congruence.
        -- right. split_and!; [done|congruence|done].
        -- right. split_and!; [by apply suffix_cons_r|done|congruence].
        -- congruence.
      * cbn. destruct (Fs.is_dir fs (name :: up)); [|discriminate].
        intros [= <-] q. by left.
      * cbn. destruct (Fs.is_dir fs (name :: up)); [|discriminate].
        intros [= <-] q. by left.
      * cbn. destruct (Fs.is_dir fs (name :: up)); [|discriminate].
        intros [= <-] q. by left.
    + intros [= <-] q.
      destruct (os_mkdir_frame _ _ _ Hos q) as [?|(-> & ? & ?)]; [by left|].
      by right.
Qed.

Lemma write_all_cons self context template_name p
  (steps : list (string * Path)) fs :
  write_all self context ((template_name, p) :: steps) fs
  = match _write_template self template_name p context fs with
    | Ok fs1 => write_all self context steps fs1
    | Fail e fs1 => Fail e fs1
    end.
Proof. done. Qed.

Lemma write_all_frame self context (steps : list (string * Path)) fs q :
  let fs' := fs_of (write_all self context steps fs) in
  fs' !! q = fs !! q
  ∨ (q ∈ steps.*2 ∧ ∃ content, fs' !! q = Some (Fs.File content)).
Proof.
  cbn zeta. revert fs.
  induction steps as [|[template_name p] steps IH]; intros fs; [by left|].
  rewrite write_all_cons, fmap_cons. cbn [snd].
  destruct (_write_template self template_name p context fs) as [fs1|e fs1]
    eqn:Hw.
  - apply write_template_Ok in Hw as (content & _ & Hw).
    apply write_text_inr in Hw as (_ & _ & _ & ->).
    destruct (IH (<[p := Fs.File content]> fs)) as [Hq|(Hq & c & Hc)].
    + destruct (decide (q = p)) as [->|Hne].
      * right. split; [by left|]. exists content.
        by rewrite Hq, lookup_insert_eq.
      * left. by rewrite Hq, lookup_insert_ne.
    + right. split; [by right|]. by exists c.
  - apply write_template_Fail in Hw as [-> _]. by left.
Qed.

(** X10. Whether it succeeds or fails, [generate] changes the file system
    only at its artifacts, where it leaves a regular file, and at the
    output directory, its ancestors and its [nodes] directory, where it
    makes a directory that was missing: it removes nothing and touches no
    other path. *)
Theorem generate_changes_only self state out fs q :
  let fs' := fs_of (generate self state out fs) in
  fs' !! q = fs !! q
  ∨ (q ∈ artifacts state out ∧ ∃ content, fs' !! q = Some (Fs.File content))
  ∨ (q `suffix_of` "nodes" :: out ∧ fs !! q = None ∧ fs' !! q = Some Fs.Dir).
Proof.
  cbn zeta. rewrite generate_steps. unfold seq, os_call.
  destruct (Fs.mkdir_parents true fs out) as [e|fs0] eqn:Hout; [by left|].
  destruct (Fs.mkdir true fs0 ("nodes" :: out)) as [e|fs1] eqn:Hnodes.
  - cbn. destruct (mkdir_parents_frame _ _ _ Hout q) as [?|(Hsuf & ? & ?)];
      [by left|].
    right; right. split_and!; [by apply suffix_cons_r|done..].
  - pose proof (write_all_frame self (context_of state)
                  (render_steps state out) fs1 q) as Hw.
    cbn zeta in Hw. rewrite artifacts_of_steps in Hw.
    destruct Hw as [Hw|Hw]; [|by right; left].
    rewrite Hw.
    destruct (mkdir_frame _ _ _ Hnodes q) as [Hq1|(Heq & Hnone1 & Hdir1)];
      destruct (mkdir_parents_frame _ _ _ Hout q) as [Hq0|(Hsuf & Hnone0 & Hdir0)].
    + left. congruence.
    + right; right. split_and!; [by apply suffix_cons_r|done|congruence].
    + right; right. split_and!; [by rewrite Heq|congruence|done].
    + congruence.
Qed.

End generate_checks.

(** ** Generating: failure, success and the launcher *)

Section generate_outcomes.
Import CodeGenerator.
Implicit Types (fs : Fs.t) (p q : Path) (self : CodeGenerator.t)
  (state : ComposerState.t).

Lemma write_all_Fail self context (steps : list (string * Path)) fs e fs' :
  write_all self context steps fs = Fail e fs' →
  ∃ done template_name p rest,
    steps = done ++ (template_name, p) :: rest
    ∧ write_all self context done fs = Ok fs'
    ∧ _write_template self template_name p context fs' = Fail e fs'.
Proof.
  revert fs. induction steps as [|[template_name p] steps IH]; intros fs;
    [discriminate|].
  rewrite write_all_cons.
  destruct (_write_template self template_name p context fs) as [fs1|e1 fs1]
    eqn:Hw.
  - intros (done & n & p' & rest & -> & Hdone & Hfail)%IH.
    exists ((template_name, p) :: done), n, p', rest.
    split_and!; [done| |done]. by rewrite write_all_cons, Hw.
  - intros [= -> ->]. pose proof Hw as [-> _]%write_template_Fail.
    by exists [], template_name, p, steps.
Qed.

(** X11. When [generate] fails at a template, missing or not rendering,
    nothing is taken back: the output directory and its [nodes] directory
    are there, and every artifact whose template comes before the failing
    one is in place with its text. *)
Theorem generate_failure_keeps_output self state out fs e fs'
  (template_name : string) :
  generate self state out fs = Fail e fs' →
  e = TemplateNotFound template_name ∨ e = TemplateError template_name →
  Fs.is_dir fs' out = true
  ∧ Fs.is_dir fs' (out </> "nodes") = true
  ∧ ∃ done p rest,
      render_steps state out = done ++ (template_name, p) :: rest
      ∧ ∀ step, step ∈ done →
          ∃ content,
            rendered self step.1 (context_of state) = Some content
            ∧ in_place fs' step.2 content.
Proof.
  rewrite generate_steps. unfold seq, os_call.
  change (out </> "nodes") with ("nodes" :: out).
  destruct (Fs.mkdir_parents true fs out) as [errno|fs0] eqn:Hout.
  { intros [= <- <-] [?|?]; discriminate. }
  destruct (Fs.mkdir true fs0 ("nodes" :: out)) as [errno|fs1] eqn:Hnodes.
  { intros [= <- <-] [?|?]; discriminate. }
  intros (done & n & p & rest & Hsteps & Hdone & Hfail)%write_all_Fail He.
  destruct (mkdir_parents_inr _ _ _ Hout) as (Hdir0 & _ & _).
  destruct (mkdir_inr _ _ _ Hnodes) as (Hdir1 & Hd1 & _).
  assert (NoDup done.*2) as Hnodup.
  { pose proof (artifacts_NoDup state out) as Hnd.
    rewrite <-artifacts_of_steps, Hsteps, fmap_app in Hnd.
    by apply NoDup_app in Hnd as (? & _ & _). }
  destruct (write_all_Ok _ _ _ _ _ Hnodup Hdone) as (Hplace & Hd & _).
  split_and!.
  - eapply is_dir_mono; [exact Hd|]. by eapply is_dir_mono.
  - by eapply is_dir_mono.
  - exists done, p, rest. split; [|done].
    apply write_template_Fail in Hfail as [_ [[->| ->]|[errno ->]]];
      destruct He as [He|He]; try discriminate; by injection He as <-.
Qed.

Lemma generate_failure_keeps_output_witness :
  ∃ fs',
    generate templates_without_config simple_support_agent ["agent"] empty_fs
    = Fail (TemplateNotFound "config.py.j2") fs'
    ∧ Fs.is_dir fs' ["agent"] = true
    ∧ Fs.is_dir fs' ["nodes"; "agent"] = true
    ∧ fs' !! ["agent.py"; "agent"] = Some (Fs.File "simple_support_agent").
Proof.
  assert (∃ fs',
            generate templates_without_config simple_support_agent ["agent"]
              empty_fs = Fail (TemplateNotFound "config.py.j2") fs'
            ∧ fs' !! ["agent.py"; "agent"]
              = Some (Fs.File "simple_support_agent")) as (fs' & Hfail & Hfile).
  { eexists. split; vm_compute; reflexivity. }
  exists fs'. split; [exact Hfail|].
  destruct (generate_failure_keeps_output templates_without_config
              simple_support_agent ["agent"] empty_fs
              (TemplateNotFound "config.py.j2") fs' "config.py.j2" Hfail
              (or_introl eq_refl))
    as (Hout & Hnodes & _).
  split_and!; [exact Hout|exact Hnodes|exact Hfile].
Defined.

Lemma write_text_succeeds fs p content :
  p ≠ [] →
  Fs.is_dir fs (parent p) = true →
  fs !! p ≠ Some Fs.Dir →
  Fs.write_text fs p content = inr (<[p := Fs.File content]> fs).
Proof.
  intros Hne Hup Hp. destruct p as [|name up]; [done|]. cbn in Hup.
  apply is_dir_lookup_path in Hup. cbn [Fs.write_text]. rewrite Hup.
  by destruct (fs !! (name :: up)) as [[|c]|].
Qed.

Lemma write_all_succeeds self context (steps : list (string * Path)) fs :
  (∀ step, step ∈ steps →
     step.2 ≠ []
     ∧ is_Some (rendered self step.1 context)
     ∧ Fs.is_dir fs (parent step.2) = true
     ∧ fs !! step.2 ≠ Some Fs.Dir) →
  ∃ fs', write_all self context steps fs = Ok fs'.
Proof.
  revert fs. induction steps as [|[template_name p] steps IH]; intros fs Hsteps.
  { by exists fs. }
  destruct (Hsteps (template_name, p)) as (Hne & [content Hr] & Hup & Hp);
    [by left|]. cbn [fst snd] in *.
  rewrite write_all_cons.
  assert (_write_template self template_name p context fs
          = Ok (<[p := Fs.File content]> fs)) as ->.
  { apply write_template_Ok. exists content. split; [done|].
    by apply write_text_succeeds. }
  apply IH. intros step Hstep.
  destruct (Hsteps step) as (Hne' & Hr' & Hup' & Hp'); [by right|].
  split_and!; [done..| |].
  - eapply is_dir_mono; [|done]. by apply dirs_kept_insert_file.
  - destruct (decide (p = step.2)) as [<-|Hpq].
    + by rewrite lookup_insert_eq.
    + by rewrite lookup_insert_ne.
Qed.

Lemma render_step_path state out (step : string * Path) :
  step ∈ render_steps state out →
  (∃ name, step.2 = name :: out ∧ name ≠ "nodes")
  ∨ step.2 = "__init__.py" :: "nodes" :: out.
Proof.
  unfold render_steps.
  destruct (Py.truthy (ComposerState.selected_tools state));
    rewrite !elem_of_app, !elem_of_cons, !elem_of_nil;
    intros Hstep; repeat destruct Hstep as [Hstep|Hstep]; try done;
    subst step; cbn [snd];
    first [by right | left; eexists; split; [reflexivity|discriminate]].
Qed.

Lemma not_suffix_cons {A} (x : A) (l : list A) : ¬ (x :: l) `suffix_of` l.
Proof. intros Hsuf%suffix_length. cbn in Hsuf. lia. Qed.

Lemma not_suffix_cons2 {A} (x y : A) (l : list A) :
  ¬ (x :: y :: l) `suffix_of` l.
Proof. intros Hsuf%suffix_length. cbn in Hsuf. lia. Qed.

(** X12. [generate] succeeds when nothing is at the output location yet, the
    location can be made a directory, and each template of the run is there
    and renders. *)
Theorem generate_succeeds self state out fs fs0 :
  Fs.nothing_below out fs →
  Fs.mkdir_parents true fs out = inr fs0 →
  (∀ step, step ∈ render_steps state out →
     is_Some (rendered self step.1 (context_of state))) →
  ∃ fs', generate self state out fs = Ok fs'.
Proof.
  intros Hfresh Hout Hrender.
  destruct (mkdir_parents_inr _ _ _ Hout) as (Hdir0 & _ & _).
  assert (∀ q, Fs.below out q → q ≠ out → fs0 !! q = None) as Hfresh0.
  { intros q Hbelow Hq.
    destruct (mkdir_parents_frame _ _ _ Hout q) as [->|(Hsuf & _ & _)];
      [by apply Hfresh|].
    destruct Hq. by apply (anti_symm suffix). }
  assert (fs0 !! ("nodes" :: out) = None) as Hnodes0.
  { apply Hfresh0; [by apply suffix_cons_r|].
    intros Heq. apply (not_suffix_cons "nodes" out). by rewrite Heq. }
  assert (Fs.os_mkdir fs0 ("nodes" :: out)
          = inr (<[("nodes" :: out) := Fs.Dir]> fs0)) as Hos.
  { cbn [Fs.os_mkdir]. apply is_dir_lookup_path in Hdir0 as ->.
    by rewrite Hnodes0. }
  destruct (os_mkdir_is_dir _ _ _ Hos) as (Hdir1 & Hd1 & _).
  destruct (write_all_succeeds self (context_of state) (render_steps state out)
              (<[("nodes" :: out) := Fs.Dir]> fs0)) as [fs' Hw].
  { intros step Hstep.
    assert (step.2 ∈ artifacts state out) as [Hbelow Hne]%artifacts_below.
    { rewrite <-artifacts_of_steps. by apply list_elem_of_fmap_2. }
    split_and!; [done|by apply Hrender|..];
      destruct (render_step_path state out step Hstep) as [(name & -> & Hname)| ->];
      cbn [parent tail].
    - by eapply is_dir_mono.
    - done.
    - rewrite lookup_insert_ne by congruence.
      rewrite Hfresh0; [done|by apply suffix_cons_r|].
      intros Heq. apply (not_suffix_cons name out). by rewrite Heq.
    - rewrite lookup_insert_ne.
      + rewrite Hfresh0; [done|by do 2 apply suffix_cons_r|].
        intros Heq. apply (not_suffix_cons2 "__init__.py" "nodes" out).
        by rewrite Heq.
      + intros Heq. apply (f_equal length) in Heq. cbn in Heq. lia. }
  exists fs'. rewrite generate_steps.
  apply seq_Ok. exists fs0. split; [by apply os_call_Ok|].
  apply seq_Ok. exists (<[("nodes" :: out) := Fs.Dir]> fs0).
  split; [|done]. apply os_call_Ok. unfold Fs.mkdir. by rewrite Hos.
Qed.

Lemma generate_succeeds_witness :
  ∃ fs',
    generate stand_in_templates simple_support_agent_with_tool
      ["agent"; "templates"] empty_fs = Ok fs'.
Proof.
  apply (generate_succeeds stand_in_templates simple_support_agent_with_tool
           ["agent"; "templates"] empty_fs
           (<[ ["agent"; "templates"] := Fs.Dir ]>
              (<[ ["templates"] := Fs.Dir ]> empty_fs))).
  - intros q _. apply lookup_empty.
  - vm_compute. reflexivity.
  - apply Forall_forall. by apply (bool_decide_unpack _).
Defined.

Lemma exists_in_place fs p content :
  p ≠ [] → in_place fs p content → Fs.exists_ fs p = true.
Proof.
  intros Hne [Hup Hp]. destruct p as [|name up]; [done|]. cbn in Hup.
  apply is_dir_lookup_path in Hup. unfold Fs.exists_. cbn [Fs.lookup_path].
  by rewrite Hup, Hp.
Qed.

(** X13. After a run of [generate] that succeeded, the launcher finds the
    agent complete: [should_compose] is false at the output location. *)
Theorem generated_agent_need_not_be_composed self state out fs fs' :
  generate self state out fs = Ok fs' →
  should_compose fs' out = false.
Proof.
  intros (fs0 & fs1 & _ & _ & _ & Hout & _ & Hplace & _)%generate_Ok.
  assert (∀ template_name p,
            (template_name, p) ∈ render_steps state out →
            Fs.exists_ fs' p = true) as Hexists.
  { intros n p Hstep. destruct (Hplace _ Hstep) as (content & _ & Hin).
    apply (exists_in_place _ _ content); [|done].
    eapply (artifacts_below state out). rewrite <-artifacts_of_steps.
    by apply (list_elem_of_fmap_2 snd _ (n, p)). }
  unfold should_compose.
  assert (Fs.exists_ fs' out = true) as ->.
  { unfold Fs.exists_. by apply is_dir_lookup_path in Hout as ->. }
  cbn [negb]. apply bool_decide_eq_false.
  rewrite !Exists_cons, Exists_nil.
  change (out </> "agent.py") with ("agent.py" :: out).
  change (out </> "config.py") with ("config.py" :: out).
  change (out </> "nodes/__init__.py") with ("__init__.py" :: "nodes" :: out).
  rewrite (Hexists "agent.py.j2"), (Hexists "config.py.j2"),
    (Hexists "nodes.py.j2");
    [by intros [?|[?|[?|[]]]]|..];
    unfold render_steps; apply elem_of_app; left;
    rewrite !elem_of_cons; auto 10.
Qed.

Lemma generated_agent_need_not_be_composed_witness :
  should_compose empty_fs ["agent"] = true
  ∧ ∃ fs',
      generate stand_in_templates simple_support_agent ["agent"] empty_fs
      = Ok fs'
      ∧ should_compose fs' ["agent"] = false.
Proof.
  split; [reflexivity|]. eexists. split; [vm_compute; reflexivity|].
  eapply (generated_agent_need_not_be_composed stand_in_templates
            simple_support_agent ["agent"] empty_fs).
  vm_compute. reflexivity.
Defined.

(** X14. Rendering a graph with a tool selected and then the same graph with
    no tool selected leaves the tool manifest of the first run among the
    files of the output location. *)
Theorem rerender_without_tools_keeps_manifest self state out fs fs1 fs2 :
  ComposerState.selected_tools state ≠ [] →
  generate self state out fs = Ok fs1 →
  generate self (set_selected_tools [] state) out fs1 = Ok fs2 →
  tool_manifest out ∈ Fs.files_below out fs2
  ∧ fs2 !! tool_manifest out = fs1 !! tool_manifest out.
Proof.
  intros Htools%truthy_list Hgen1 Hgen2.
  apply generate_Ok in Hgen1
    as (_ & _ & _ & _ & _ & _ & _ & Hplace1 & _).
  apply generate_Ok in Hgen2
    as (_ & fs1' & _ & _ & _ & _ & _ & _ & Hkept & Hother).
  destruct (Hplace1 ("mcp_servers.json.j2", tool_manifest out))
    as (content & _ & _ & Hfile).
  { unfold render_steps. rewrite Htools. apply elem_of_app. right.
    by apply list_elem_of_singleton. }
  cbn [snd] in Hfile.
  assert (tool_manifest out ∉ artifacts (set_selected_tools [] state) out)
    as Hnotin.
  { pose proof (artifacts_NoDup state out) as Hnd.
    unfold artifacts in Hnd |- *. rewrite Htools in Hnd. cbn [Py.truthy
      Py.list_truthy ComposerState.selected_tools set_selected_tools].
    rewrite app_nil_r.
    apply NoDup_app in Hnd as (_ & Hdisj & _). intros Hin.
    apply (Hdisj _ Hin). by apply list_elem_of_singleton. }
  assert (fs2 !! tool_manifest out = Some (Fs.File content)) as Hfile2.
  { rewrite Hother by done. by apply Hkept. }
  split; [|by rewrite Hfile2, Hfile].
  unfold Fs.files_below. apply elem_of_dom. exists (Fs.File content).
  apply map_lookup_filter_Some. split; [done|]. split; [|done].
  cbn. by apply suffix_cons_r.
Qed.

Lemma rerender_without_tools_keeps_manifest_witness :
  ∃ fs1 fs2,
    generate stand_in_templates simple_support_agent_with_tool ["agent"]
      empty_fs = Ok fs1
    ∧ generate stand_in_templates simple_support_agent ["agent"] fs1 = Ok fs2
    ∧ ["mcp_servers.json"; "agent"] ∈ Fs.files_below ["agent"] fs2.
Proof.
  eexists _, _. split; [vm_compute; reflexivity|].
  split; [vm_compute; reflexivity|].
  eapply (rerender_without_tools_keeps_manifest stand_in_templates
            simple_support_agent_with_tool ["agent"] empty_fs).
  - discriminate.
  - vm_compute. reflexivity.
  - vm_compute. reflexivity.
Defined.

End generate_outcomes.

(** ** The tree of the graph *)

Section graph_tree.
Import GraphTreeView.

Lemma empty_adjacency_lookup_from (adj : gmap string (list string))
  (l : list NodeData.t) (x : string) :
  is_Some (foldl (λ adj node, <[NodeData.id node := []]> adj) adj l !! x)
  ↔ is_Some (adj !! x) ∨ x ∈ (NodeData.id <$> l).
Proof.
  revert adj. induction l as [|node l IH]; intros adj; cbn [foldl].
  - rewrite fmap_nil, elem_of_nil. tauto.
  - rewrite IH, fmap_cons, elem_of_cons, lookup_insert_is_Some. split.
    + intros [[Heq|[_ Hx]]|Hx]; [right; by left|by left|right; by right].
    + intros [Hx|[Heq|Hx]]; [|left; by left|by right].
      destruct (decide (NodeData.id node = x)); [left; by left|].
      left. by right.
Qed.

Lemma empty_adjacency_lookup (l : list NodeData.t) (x : string) :
  is_Some (empty_adjacency l !! x) ↔ x ∈ (NodeData.id <$> l).
Proof.
  unfold empty_adjacency. rewrite empty_adjacency_lookup_from, lookup_empty.
  split; [intros [[? [=]]|?]; done|by right].
Qed.


Lemma fill_adjacency_inl (adj : gmap string (list string))
  (l : list EdgeData.t) (source : string) :
  fill_adjacency adj l = inl source →
  adj !! source = None ∧ ∃ e, e ∈ l ∧ EdgeData.source e = source.
Proof.
  revert adj. induction l as [|edge l IH]; intros adj; [discriminate|].
  cbn [fill_adjacency].
  destruct (adj !! EdgeData.source edge) as [targets|] eqn:Hsrc.
  - intros [Hnone (e & He & Hsource)]%IH. split.
    + destruct (decide (EdgeData.source edge = source)) as [Heq|Hne].
      * rewrite Heq in Hnone. by rewrite lookup_insert_eq in Hnone.
      * by rewrite lookup_insert_ne in Hnone.
    + exists e. split; [by right|done].
  - intros [= <-]. split; [done|]. exists edge. split; [by left|done].
Qed.

Lemma fill_adjacency_inr_inv (adj adj' : gmap string (list string))
  (l : list EdgeData.t) :
  fill_adjacency adj l = inr adj' →
  ∀ e, e ∈ l → is_Some (adj !! EdgeData.source e).
Proof.
  revert adj. induction l as [|edge l IH]; intros adj Hfill e He.
  { by apply elem_of_nil in He. }
  cbn [fill_adjacency] in Hfill.
  destruct (adj !! EdgeData.source edge) as [targets|] eqn:Hsrc;
    [|discriminate].
  apply elem_of_cons in He as [->|He]; [by rewrite Hsrc|].
  apply (IH _ Hfill) in He.
  apply lookup_insert_is_Some in He as [Heq|[_ He]]; [|done].
  by rewrite <-Heq, Hsrc.
Qed.

(** X15. Refreshing the graph view raises [KeyError] exactly when the graph
    has a node and some edge starts at an identifier that no node has;
    an edge that only ends at such an identifier does not matter. *)
Theorem update_graph_view_key_error (state : ComposerState.t)
  (view : GraphTreeView.t) :
  (∃ source, _update_graph_view state view = inl source)
  ↔ ComposerState.nodes state ≠ []
    ∧ ∃ e, e ∈ ComposerState.edges state
           ∧ EdgeData.source e ∉ node_ids state.
Proof.
  unfold _update_graph_view, update_graph, render_tree. cbn [nodes edges].
  destruct (ComposerState.nodes state) as [|node l] eqn:Hnodes; cbn [Py.truthy
    Py.list_truthy negb].
  { split; [by intros [? [=]]|by intros [? _]]. }
  rewrite <-Hnodes.
  destruct (fill_adjacency _ _) as [source|adj] eqn:Hfill.
  - split; [|by eexists]. intros _. split; [by rewrite Hnodes|].
    apply fill_adjacency_inl in Hfill as [Hnone (e & He & Hsource)].
    exists e. split; [done|]. rewrite Hsource. unfold node_ids.
    intros Hin%empty_adjacency_lookup. rewrite Hnone in Hin.
    by destruct Hin.
  - split; [by intros [? [=]]|]. intros [_ (e & He & Hnotin)]. exfalso.
    apply Hnotin. unfold node_ids. apply empty_adjacency_lookup.
    by eapply fill_adjacency_inr_inv.
Qed.



(** ** Editing a node, with the refresh of the tree *)

Lemma update_graph_view_inl (state : ComposerState.t) (view : GraphTreeView.t)
  (key : string) :
  _update_graph_view state view = inl key → dangling_source state key.
Proof.
  unfold _update_graph_view, update_graph, render_tree. cbn [nodes edges].
  destruct (negb (Py.truthy (ComposerState.nodes state))); [discriminate|].
  destruct (fill_adjacency _ _) as [source|adj] eqn:Hfill; [|discriminate].
  intros [= ->].
  apply fill_adjacency_inl in Hfill as [Hnone (e & He & Hsource)].
  split; [by exists e|]. unfold node_ids.
  intros Hin%empty_adjacency_lookup. rewrite Hnone in Hin. by destruct Hin.
Qed.







End graph_tree.

(** ** Sessions *)

Section sessions.

(** On a graph whose edges start at nodes the refresh of the tree does not
    raise. *)
Lemma update_graph_view_inr (state : ComposerState.t) (view : GraphTreeView.t) :
  edges_wellformed state →
  ∃ view', _update_graph_view state view = inr view'.
Proof.
  intros Hwf.
  destruct (_update_graph_view state view) as [key|view'] eqn:Hview;
    [|by eexists].
  apply update_graph_view_inl in Hview as [(e & He & <-) Hnotin].
  by apply Hwf in He as [? _].
Qed.

(** X3. The handlers of the application and of the wizard keep a graph good:
    the identifiers of the nodes stay distinct and non-empty, every edge
    starts and ends at a node of the list, and the entry-node field is
    never the empty string and is set whenever the graph has a node.
    Deleting a node may leave the entry node naming a node that is gone.
    No handler adds an edge: the screens of the wizard that would add a
    goal, a node or an edge raise at their import and leave the state. And
    on the states of such a session the refresh of the tree, with which
    the handlers of the application end, does not raise. *)
Theorem events_keep_graph_ok (events : list Event) (state : ComposerState.t) :
  graph_ok state →
  graph_ok (run events state)
  ∧ ComposerState.edges (run events state) ⊆ ComposerState.edges state
  ∧ ∀ view, ∃ view', _update_graph_view (run events state) view = inr view'.
Proof.
  intros Hok. split_and!; [by apply run_graph_ok|apply run_edges|].
  intros view. apply update_graph_view_inr.
  by apply run_graph_ok.
Qed.

Lemma events_keep_graph_ok_witness :
  (graph_ok (run session_events simple_support_agent)
   ∧ ComposerState.edges (run session_events simple_support_agent)
     ⊆ ComposerState.edges simple_support_agent
   ∧ ∀ view,
       ∃ view',
         _update_graph_view (run session_events simple_support_agent) view
         = inr view')
  ∧ ComposerState.agent_name (run session_events simple_support_agent)
    = "support"
  ∧ node_ids (run session_events simple_support_agent) = ["response"; "triage"]
  ∧ NodeData.name
    <$> ComposerState.nodes (run session_events simple_support_agent)
    = ["Reply"; "Triage"]
  ∧ ComposerState.edges (run session_events simple_support_agent) = []
  ∧ ComposerState.entry_node (run session_events simple_support_agent)
    = Some "intake"
  ∧ (GoalData.id
     <$> ComposerState.goal (run session_events simple_support_agent))
    = Some "resolve_tickets".
Proof.
  split; [|by vm_compute].
  apply events_keep_graph_ok, graph_ok_simple_support_agent.
Defined.

End sessions.

(** ** Text: stripping, splitting and joining *)

Section text.

Lemma lstrip_lstrip (s : string) : Py.lstrip (Py.lstrip s) = Py.lstrip s.
Proof.
  induction s as [|c s IH]; [done|]. cbn.
  destruct (Py.isspace c) eqn:Hc; [done|]. cbn. by rewrite Hc.
Qed.

Lemma rstrip_cons (c : ascii) (s : string) :
  Py.rstrip (String c s)
  = match Py.rstrip s with
    | EmptyString => if Py.isspace c then EmptyString else String c EmptyString
    | r => String c r
    end.
Proof. done. Qed.

Lemma rstrip_rstrip (s : string) : Py.rstrip (Py.rstrip s) = Py.rstrip s.
Proof.
  induction s as [|c s IH]; [done|]. rewrite rstrip_cons.
  destruct (Py.rstrip s) as [|a r] eqn:Hr.
  - destruct (Py.isspace c) eqn:Hc; [done|]. cbn. by rewrite Hc.
  - rewrite rstrip_cons. by rewrite IH.
Qed.

Lemma rstrip_cons_fixed (c : ascii) (s : string) :
  Py.rstrip (String c s) = String c s → Py.rstrip s = s.
Proof.
  cbn. destruct (Py.rstrip s) as [|a r] eqn:Hr.
  - destruct (Py.isspace c); [discriminate|]. by intros [= <-].
  - by intros [= <-].
Qed.

Lemma rstrip_lstrip_fixed (s : string) :
  Py.rstrip s = s → Py.rstrip (Py.lstrip s) = Py.lstrip s.
Proof.
  induction s as [|c s IH]; [done|]. intros Hfixed. cbn [Py.lstrip].
  destruct (Py.isspace c); [|done].
  apply IH. by eapply rstrip_cons_fixed.
Qed.

(** [strip] does nothing to what it returns. *)
Lemma strip_strip (s : string) : Py.strip (Py.strip s) = Py.strip s.
Proof.
  unfold Py.strip.
  rewrite (rstrip_lstrip_fixed (Py.rstrip s)) by apply rstrip_rstrip.
  apply lstrip_lstrip.
Qed.

Lemma strip_cons_space (c : ascii) (s : string) :
  Py.isspace c = true → Py.strip (String c s) = Py.strip s.
Proof.
  intros Hc. unfold Py.strip. cbn [Py.rstrip].
  destruct (Py.rstrip s) as [|a r]; rewrite ?Hc; [done|].
  cbn [Py.lstrip]. by rewrite Hc.
Qed.

Lemma chars_lstrip (s : string) (a : ascii) :
  a ∈ chars (Py.lstrip s) → a ∈ chars s.
Proof.
  induction s as [|c s IH]; [done|]. cbn.
  destruct (Py.isspace c); [|done]. intros Ha. right. by apply IH.
Qed.

Lemma chars_rstrip (s : string) (a : ascii) :
  a ∈ chars (Py.rstrip s) → a ∈ chars s.
Proof.
  induction s as [|c s IH]; [done|]. cbn.
  destruct (Py.rstrip s) as [|b r].
  - destruct (Py.isspace c); cbn; [by intros ?%elem_of_nil|].
    intros [->|?%elem_of_nil]%elem_of_cons; [by left|done].
  - cbn. intros [->|Ha]%elem_of_cons; [by left|]. right. by apply IH.
Qed.

Lemma chars_strip (s : string) (a : ascii) :
  a ∈ chars (Py.strip s) → a ∈ chars s.
Proof. intros Ha. by apply chars_rstrip, chars_lstrip. Qed.

Lemma prefix_empty (s : string) : String.prefix "" s = true.
Proof. by destruct s. Qed.

(** [split] on a separator of one character, at a character that is the
    separator and at one that is not. *)
Lemma split_cons_sep (a : ascii) (s : string) :
  Py.split (String a "") (String a s) = "" :: Py.split (String a "") s.
Proof.
  unfold Py.split. cbn.
  destruct (Ascii.ascii_dec a a) as [_|]; [|done].
  rewrite prefix_empty. by destruct (Py.split_from _ 0 s).
Qed.

Lemma split_cons_other (a c : ascii) (s : string) :
  c ≠ a →
  ∃ piece pieces,
    Py.split (String a "") s = piece :: pieces
    ∧ Py.split (String a "") (String c s) = String c piece :: pieces.
Proof.
  intros Hc. unfold Py.split. cbn.
  destruct (Ascii.ascii_dec a c) as [->|_]; [done|].
  destruct (Py.split_from _ 0 s) as [piece pieces]. by exists piece, pieces.
Qed.

Lemma split_empty (a : ascii) : Py.split (String a "") "" = [""].
Proof. done. Qed.

Lemma split_before_sep (a : ascii) (x rest : string) :
  a ∉ chars x →
  Py.split (String a "") (x +:+ String a rest)
  = x :: Py.split (String a "") rest.
Proof.
  induction x as [|c x IH]; intros Hx.
  - change ("" +:+ String a rest) with (String a rest). apply split_cons_sep.
  - cbn [chars] in Hx. apply not_elem_of_cons in Hx as [Hc Hx].
    change (String c x +:+ String a rest)
      with (String c (x +:+ String a rest)).
    destruct (split_cons_other a c (x +:+ String a rest)) as (p & ps & Hs & ->);
      [done|].
    rewrite IH in Hs by done. by injection Hs as <- <-.
Qed.

Lemma split_no_sep (a : ascii) (x : string) :
  a ∉ chars x → Py.split (String a "") x = [x].
Proof.
  induction x as [|c x IH]; intros Hx; [done|].
  cbn [chars] in Hx. apply not_elem_of_cons in Hx as [Hc Hx].
  destruct (split_cons_other a c x) as (p & ps & Hs & ->); [done|].
  rewrite IH in Hs by done. by injection Hs as <- <-.
Qed.

Lemma split_pieces_no_sep (a : ascii) (s piece : string) :
  piece ∈ Py.split (String a "") s → a ∉ chars piece.
Proof.
  revert piece. induction s as [|c s IH]; intros piece.
  - rewrite split_empty. intros ->%list_elem_of_singleton. apply not_elem_of_nil.
  - destruct (decide (c = a)) as [->|Hc].
    + rewrite split_cons_sep. intros [->|Hin]%elem_of_cons;
        [apply not_elem_of_nil|by apply IH].
    + destruct (split_cons_other a c s Hc) as (p & ps & Hs & ->).
      rewrite Hs in IH.
      intros [->|Hin]%elem_of_cons.
      * cbn [chars]. apply not_elem_of_cons. split; [done|].
        apply IH. by left.
      * apply IH. by right.
Qed.

Lemma parse_list_clean (text : string) :
  Forall clean_item (GoalEditorModal.parse_list text).
Proof.
  apply Forall_forall. intros x.
  unfold GoalEditorModal.parse_list.
  intros (piece & -> & [Htruthy Hpiece]%list_elem_of_filter)%list_elem_of_fmap.
  split_and!.
  - by apply truthy_str.
  - apply strip_strip.
  - intros Hcomma%chars_strip. by eapply split_pieces_no_sep.
Qed.

(** X17. Every item that [parse_list] returns from a comma-separated field
    is non-empty, has no white space at either end and holds no comma. *)
Theorem parse_list_items_clean (text : string) :
  Forall clean_item (GoalEditorModal.parse_list text).
Proof. apply parse_list_clean. Qed.

End text.

Section goal_round_trip.
Import ComposerState.

Lemma strip_fixed_truthy (x : string) :
  clean_item x → Py.truthy (Py.strip x) = true.
Proof. intros (Hne & -> & _). by apply truthy_str. Qed.

Lemma parse_list_pieces (piece : string) (pieces : list string) :
  Py.strip <$> filter (λ c, Py.truthy (Py.strip c) = true) (piece :: pieces)
  = (if Py.truthy (Py.strip piece) then [Py.strip piece] else [])
    ++ (Py.strip <$> filter (λ c, Py.truthy (Py.strip c) = true) pieces).
Proof.
  rewrite filter_cons. destruct (Py.truthy (Py.strip piece)) eqn:Hp.
  - by rewrite decide_True.
  - by rewrite decide_False.
Qed.

(** A field that starts with a space is parsed as the field without it. *)
Lemma parse_list_space (text : string) :
  GoalEditorModal.parse_list (String " " text) = GoalEditorModal.parse_list text.
Proof.
  unfold GoalEditorModal.parse_list.
  destruct (split_cons_other "," " " text) as (p & ps & Hs & ->); [done|].
  rewrite Hs, !parse_list_pieces. by rewrite strip_cons_space.
Qed.

Lemma parse_list_of_join (items : list string) :
  Forall clean_item items →
  GoalEditorModal.parse_list (Py.join ", " items) = items.
Proof.
  induction 1 as [|x items Hx Hitems IH]; [done|].
  pose proof (strip_fixed_truthy x Hx) as Htruthy.
  destruct Hx as (Hne & Hstrip & Hcomma).
  destruct items as [|y items].
  - cbn [Py.join]. unfold GoalEditorModal.parse_list.
    rewrite split_no_sep by done.
    rewrite parse_list_pieces, Htruthy, Hstrip. done.
  - change (Py.join ", " (x :: y :: items))
      with (x +:+ String "," (String " " (Py.join ", " (y :: items)))).
    unfold GoalEditorModal.parse_list.
    rewrite split_before_sep by done.
    rewrite parse_list_pieces, Htruthy, Hstrip. cbn [app]. f_equal.
    fold (GoalEditorModal.parse_list (String " " (Py.join ", " (y :: items)))).
    by rewrite parse_list_space.
Qed.

(** X18. Joining clean items with ", ", as the goal dialog does to show the
    success criteria, and parsing the field again gives the items back. *)
Theorem parse_list_join (items : list string) :
  Forall clean_item items →
  GoalEditorModal.parse_list (Py.join ", " items) = items.
Proof. apply parse_list_of_join. Qed.

Lemma parse_list_join_witness :
  GoalEditorModal.parse_list
    (Py.join ", " ["response_quality"; "resolution_speed"])
  = ["response_quality"; "resolution_speed"].
Proof.
  apply parse_list_join.
  repeat (apply Forall_cons; split;
          [split_and!; [discriminate|reflexivity|by apply (bool_decide_unpack _)]|]).
  apply Forall_nil_2.
Defined.

Lemma goal_dialog_composed (g : GoalData.t) :
  GoalData.name g ≠ "" →
  Forall clean_item (GoalData.success_criteria g) →
  GoalEditorModal.on_button_pressed (GoalEditorModal.compose (Some g)) "save"
  = Dismiss
      (Some {| GoalData.id := GoalEditorModal.derive_id (GoalData.name g);
               GoalData.name := GoalData.name g;
               GoalData.description := GoalData.description g;
               GoalData.success_criteria := GoalData.success_criteria g;
               GoalData.constraints := [] |}).
Proof.
  intros Hname%truthy_str Hclean. unfold GoalEditorModal.on_button_pressed.
  rewrite decide_True by done.
  cbn [GoalEditorModal.compose GoalEditorModal.goal_name
       GoalEditorModal.goal_description GoalEditorModal.success_criteria
       Py.truthy GoalData.model_truthy].
  rewrite Hname. cbn [negb]. by rewrite parse_list_of_join.
Qed.

(** X19. Opening the goal dialog on a goal and saving it untouched keeps the
    name, the description and the success criteria, when these are clean
    items; the identifier is derived from the name again and the
    constraints are dropped. *)
Theorem goal_dialog_reopened (g : GoalData.t) :
  GoalData.name g ≠ "" →
  Forall clean_item (GoalData.success_criteria g) →
  GoalEditorModal.on_button_pressed (GoalEditorModal.compose (Some g)) "save"
  = Dismiss
      (Some {| GoalData.id := spec_goal_id (GoalData.name g);
               GoalData.name := GoalData.name g;
               GoalData.description := GoalData.description g;
               GoalData.success_criteria := GoalData.success_criteria g;
               GoalData.constraints := [] |}).
Proof.
  intros Hname Hclean. rewrite goal_dialog_composed by done.
  by rewrite derive_id_spec.
Qed.

Lemma goal_dialog_reopened_witness :
  GoalEditorModal.on_button_pressed
    (GoalEditorModal.compose
       (Some {| GoalData.id := "support_goal";
                GoalData.name := "Customer Support Goal";
                GoalData.description := "Answer customers";
                GoalData.success_criteria := ["response_quality"];
                GoalData.constraints := ["be polite"] |})) "save"
  = Dismiss
      (Some {| GoalData.id := "customer_support_goal";
               GoalData.name := "Customer Support Goal";
               GoalData.description := "Answer customers";
               GoalData.success_criteria := ["response_quality"];
               GoalData.constraints := [] |}).
Proof.
  apply (goal_dialog_reopened
           {| GoalData.id := "support_goal";
              GoalData.name := "Customer Support Goal";
              GoalData.description := "Answer customers";
              GoalData.success_criteria := ["response_quality"];
              GoalData.constraints := ["be polite"] |}).
  - discriminate.
  - apply Forall_cons. split; [|apply Forall_nil_2].
    split_and!; [discriminate|reflexivity|by apply (bool_decide_unpack _)].
Defined.

End goal_round_trip.
